(** * A shallow embedding of orm.py (python-sqlite-orm)

    The development follows the source file top to bottom: the two module
    level helpers [cut_attrs] and [render_schema], the [Manager] (generic
    repository) and the [QueryBuilder].  Python objects are modelled by
    their attribute dictionaries, kept as association lists in insertion
    order (the order CPython dictionaries iterate in); exceptions are
    values of the type [exn]; a call of [Database.execute] is an event of
    the program type [prog], interpreted afterwards by a model of the one
    table the repository is bound to. *)

From Stdlib Require Import String Ascii List ZArith Bool Lia.
From Stdlib Require Import DecimalString.
Import ListNotations.

Local Open Scope list_scope.
Local Open Scope string_scope.

Set Implicit Arguments.

(** ** Python values *)

(** The values the code handles: [None], integers, strings, the three type
    objects a model class uses to declare a column, and any other hashable
    object (a function, a property, ...), which the code never inspects. *)
Inductive value : Type :=
| VNone
| VInt (z : Z)
| VStr (s : string)
| TStr      (* the type object [str] *)
| TInt      (* the type object [int] *)
| TFloat    (* the type object [float] *)
| VOther (repr : string).

Definition value_eqb (a b : value) : bool :=
  match a, b with
  | VNone, VNone => true
  | VInt x, VInt y => Z.eqb x y
  | VStr x, VStr y => String.eqb x y
  | TStr, TStr => true
  | TInt, TInt => true
  | TFloat, TFloat => true
  | VOther x, VOther y => String.eqb x y
  | _, _ => false
  end.

(** The double quote character, for the messages that quote a name. *)
Definition dquote : string := String "034"%char EmptyString.

(** [str(value)] *)
Definition str (v : value) : string :=
  match v with
  | VNone => "None"
  | VInt z => NilZero.string_of_int (Z.to_int z)
  | VStr s => s
  | TStr => "<class 'str'>"
  | TInt => "<class 'int'>"
  | TFloat => "<class 'float'>"
  | VOther r => r
  end.

(** ** Exceptions and results *)

Inductive exn : Type :=
| ValueError (msg : string)
| IndexError (msg : string)
| KeyError (msg : string)
| AttributeError (msg : string)
| TypeError (msg : string)
| OverflowError (msg : string)
| OperationalError (msg : string)
| InterfaceError (msg : string).

Definition result (A : Type) : Type := (exn + A)%type.

Definition ok {A : Type} (a : A) : result A := inr a.
Definition raise {A : Type} (e : exn) : result A := inl e.

Definition rbind {A B : Type} (r : result A) (f : A -> result B) : result B :=
  match r with
  | inl e => inl e
  | inr a => f a
  end.

(** ** Attribute dictionaries *)

Definition attrs : Type := list (string * value).

Definition keys (d : attrs) : list string := map fst d.
Definition values (d : attrs) : list value := map snd d.

Definition mem (k : string) (l : list string) : bool :=
  existsb (String.eqb k) l.

Fixpoint lookup (k : string) (d : attrs) : option value :=
  match d with
  | [] => None
  | (k', v) :: d' => if String.eqb k k' then Some v else lookup k d'
  end.

(** [d[k] = v]: an existing key keeps its position, a new one goes last. *)
Fixpoint store (k : string) (v : value) (d : attrs) : attrs :=
  match d with
  | [] => [(k, v)]
  | (k', v') :: d' =>
      if String.eqb k k' then (k, v) :: d' else (k', v') :: store k v d'
  end.

(** [sub in s] on strings: [sub] occurs in [s] as a substring. *)
Fixpoint contains (sub s : string) : bool :=
  String.prefix sub s ||
  match s with
  | EmptyString => false
  | String _ s' => contains sub s'
  end.

(** ** Model classes and their instances *)

(** A model class: its [__name__], its [__module__] and [vars(model)], the
    class dictionary in declaration order. *)
Record model_class : Type := ModelClass {
  __name__ : string;
  __module__ : string;
  class_vars : attrs
}.

(** [str(model)], as it appears in the messages of the repository. *)
Definition str_model (m : model_class) : string :=
  "<class '" ++ __module__ m ++ "." ++ __name__ m ++ "'>".

(** An instance: its class and [vars(obj)], the instance dictionary. *)
Record object : Type := Object {
  __class__ : model_class;
  __dict__ : attrs
}.

(** [hasattr(obj, name)] looks in the instance, then in the class. *)
Definition hasattr (obj : object) (name : string) : bool :=
  mem name (keys (__dict__ obj)) || mem name (keys (class_vars (__class__ obj))).

(** [getattr(obj, name)], [None] standing for AttributeError. *)
Definition getattr (obj : object) (name : string) : option value :=
  match lookup name (__dict__ obj) with
  | Some v => Some v
  | None => lookup name (class_vars (__class__ obj))
  end.

(** [obj.name = v] *)
Definition setattr (obj : object) (name : string) (v : value) : object :=
  Object (__class__ obj) (store name v (__dict__ obj)).

(** ** Module level helpers *)

(** [[
def cut_attrs(obj, keys):
    return dict(i for i in vars(obj).items() if i[0] not in keys)
]]
    Every caller passes the string ['id'] for [keys], so that [not in] is
    the substring test of Python strings. *)
Definition cut_attrs (obj : object) (keys : string) : attrs :=
  filter (fun i => negb (contains (fst i) keys)) (__dict__ obj).

(** [datatypes = {str: 'text', int: 'integer', float: 'real'}] *)
Definition datatypes : list (value * string) :=
  [(TStr, "text"); (TInt, "integer"); (TFloat, "real")].

Fixpoint datatypes_get (v : value) (d : list (value * string)) : option string :=
  match d with
  | [] => None
  | (t, s) :: d' => if value_eqb v t then Some s else datatypes_get v d'
  end.

(** [key[0] is not '_'], which raises IndexError on the empty string.
    The test is one of identity, not of equality.  When the first
    character is not an underscore the two strings differ, so they are
    two objects and the test holds.  When it is an underscore, whether
    [key[0]] is the very object of the literal is up to the interpreter:
    [interned] says that it is.  Some releases of CPython share the two
    objects and some do not, so every function that runs this test takes
    [interned] as its first argument. *)
Definition first_is_not_underscore (interned : bool) (key : string)
    : result bool :=
  match key with
  | EmptyString => raise (IndexError "string index out of range")
  | String c _ => ok (negb (interned && Ascii.eqb c "_"%char))
  end.

(** [iscol = lambda key, value: key[0] is not '_' and value in datatypes.keys()] *)
Definition iscol (interned : bool) (key : string) (v : value) : result bool :=
  rbind (first_is_not_underscore interned key) (fun pub =>
  ok (pub && existsb (value_eqb v) (map fst datatypes))).

(** [colrender = lambda key, value: '%s %s' % (key, datatypes[value])] *)
Definition colrender (key : string) (v : value) : result string :=
  match datatypes_get v datatypes with
  | Some t => ok (key ++ " " ++ t)
  | None => raise (KeyError (str v))
  end.

(** The list comprehension of [render_schema]: [colrender] of every item
    of [vars(model)] for which [iscol] holds, in the dictionary's order. *)
Fixpoint render_cols (interned : bool) (items : attrs)
    : result (list string) :=
  match items with
  | [] => ok []
  | (key, v) :: rest =>
      rbind (iscol interned key v) (fun c =>
      if c then
        rbind (colrender key v) (fun col =>
        rbind (render_cols interned rest) (fun cols => ok (col :: cols)))
      else render_cols interned rest)
  end.

(** [[
def render_schema(model):
    schema = 'create table {table} (id integer primary key autoincrement, {columns});'
    ...
    cols = (the comprehension above)
    values = {'table': model.__name__, 'columns': ', '.join(cols)}
    return schema.format(table=..., columns=...)
]] *)
Definition render_schema (interned : bool) (m : model_class) : result string :=
  rbind (render_cols interned (class_vars m)) (fun cols =>
  ok ("create table " ++ __name__ m
      ++ " (id integer primary key autoincrement, "
      ++ String.concat ", " cols ++ ");")).

(** ** Statements handed to the connection *)

(** What [Database.execute] gives back: the rows of the cursor, each one a
    mapping from column name to value in column order, and [lastrowid]. *)
Record cursor : Type := Cursor {
  fetchall : list attrs;
  lastrowid : value
}.

Definition fetchone (c : cursor) : option attrs := hd_error (fetchall c).

(** A method that talks to the database is a tree of [Execute] events:
    [Execute sql args k] is the call [self.db.execute(sql, *args)], which
    goes through [Database.execute] to [connection.execute(sql, args)], and
    [k] is the rest of the method, run on the cursor. *)
Inductive prog (A : Type) : Type :=
| Ret (a : A)
| Raise (e : exn)
| Execute (sql : string) (args : list value) (k : cursor -> prog A).

Arguments Ret {A} a.
Arguments Raise {A} e.
Arguments Execute {A} sql args k.

Fixpoint bind {A B : Type} (p : prog A) (f : A -> prog B) : prog B :=
  match p with
  | Ret a => f a
  | Raise e => Raise e
  | Execute sql args k => Execute sql args (fun c => bind (k c) f)
  end.

Notation "x <- p ;; q" := (bind p (fun x => q))
  (at level 61, p at next level, right associativity).

Definition execute (sql : string) (args : list value) : prog cursor :=
  Execute sql args (fun c => Ret c).

(** The first statement a program hands to [execute], if it gets that far. *)
Definition first_statement {A : Type} (p : prog A) : option (string * list value) :=
  match p with
  | Execute sql args _ => Some (sql, args)
  | _ => None
  end.

(** The constructor of a manager also calls [Database.executescript]; a
    program that may do so is a tree with one more kind of event.
    [DExecuteScript script k] is the call [self.db.executescript(script)],
    which returns nothing. *)
Inductive dbprog (A : Type) : Type :=
| DRet (a : A)
| DRaise (e : exn)
| DExecute (sql : string) (args : list value) (k : cursor -> dbprog A)
| DExecuteScript (script : string) (k : dbprog A).

Arguments DRet {A} a.
Arguments DRaise {A} e.
Arguments DExecute {A} sql args k.
Arguments DExecuteScript {A} script k.

Fixpoint dbind {A B : Type} (p : dbprog A) (f : A -> dbprog B) : dbprog B :=
  match p with
  | DRet a => f a
  | DRaise e => DRaise e
  | DExecute sql args k => DExecute sql args (fun c => dbind (k c) f)
  | DExecuteScript script k => DExecuteScript script (dbind k f)
  end.

(** A program that only executes statements, as one that may run scripts. *)
Fixpoint lift {A : Type} (p : prog A) : dbprog A :=
  match p with
  | Ret a => DRet a
  | Raise e => DRaise e
  | Execute sql args k => DExecute sql args (fun c => lift (k c))
  end.

(** What a program asks of the connection, in order. *)
Inductive request : Type :=
| Statement (sql : string) (args : list value)
| Script (script : string).

(** ** Manager: the generic repository *)

Module Manager.

(** [self.model] and [self.tablename = model.__name__].  The constructor
    also creates the table when the catalog does not list it; the
    methods below are read on a database that holds the table. *)
Record t : Type := Make {
  model : model_class;
  tablename : string
}.

Definition new (m : model_class) : t := Make m (__name__ m).

(** [[
def create(self, **kwargs):
    obj = object.__new__(self.model)
    obj.__dict__ = kwargs
    return obj
]] *)
Definition create (self : t) (kwargs : attrs) : object :=
  Object (model self) kwargs.

(** The call [self.create(row)] with the row unpacked into keyword
    arguments, as [get] and [all] write it.  A row with a column named
    [self] cannot be passed that way: the name is taken by the first
    parameter and the call raises TypeError before the body runs. *)
Definition call_create (self : t) (row : attrs) : prog object :=
  if mem "self" (keys row)
  then Raise (TypeError "create() got multiple values for argument 'self'")
  else Ret (create self row).

Fixpoint call_create_each (self : t) (rows : list attrs) : prog (list object) :=
  match rows with
  | [] => Ret []
  | row :: rest =>
      bind (call_create self row) (fun obj =>
      bind (call_create_each self rest) (fun objs => Ret (obj :: objs)))
  end.

(** [[
def all(self):
    cursor = self.db.execute('select * from %s' % self.tablename)
    return (self.create(row) for row in cursor.fetchall())
]]
    The generator is modelled by the list of the records it yields when
    it is consumed to the end, an exception raised on the way being the
    outcome of the program. *)
Definition all (self : t) : prog (list object) :=
  cursor <- execute ("select * from " ++ tablename self) [] ;;
  call_create_each self (fetchall cursor).

(** [[
def get(self, id):
    sql = 'select * from %s where id = ?' % self.tablename
    cursor = self.db.execute(sql, id)
    row = cursor.fetchone()
    if not row:
        msg = 'Object%s with id does not exist: %s' % (self.model, id)
        raise ValueError(msg)
    return self.create(row)
]] *)
Definition get (self : t) (id : value) : prog object :=
  let sql := "select * from " ++ tablename self ++ " where id = ?" in
  cursor <- execute sql [id] ;;
  match fetchone cursor with
  | None =>
      let msg := "Object" ++ str_model (model self)
                 ++ " with id does not exist: " ++ str id in
      Raise (ValueError msg)
  | Some row => call_create self row
  end.

(** [[
def has(self, id):
    sql = 'select id from %s where id = ?' % self.tablename
    cursor = self.db.execute(sql, id)
    return True if cursor.fetchall() else False
]] *)
Definition has (self : t) (id : value) : prog bool :=
  let sql := "select id from " ++ tablename self ++ " where id = ?" in
  cursor <- execute sql [id] ;;
  Ret (match fetchall cursor with [] => false | _ => true end).

(** [obj.id], AttributeError when neither the instance nor the class
    has the attribute. *)
Definition obj_id (obj : object) : prog value :=
  match getattr obj "id" with
  | Some v => Ret v
  | None => Raise (AttributeError "id")
  end.

(** [[
def save(self, obj):
    if hasattr(obj, 'id') and self.has(obj.id):
        msg = 'Object%s id already registred: %s' % (self.model, obj.id)
        raise ValueError(msg)
    copy_ = cut_attrs(obj, 'id')
    keys = '(%s)' % ', '.join(copy_.keys())  # (key1, ...)
    refs = '(%s)' % ', '.join('?' for i in range(len(copy_)))  # (?, ...)
    sql = 'insert into %s %s values %s' % (self.tablename, keys, refs)
    cursor = self.db.execute(sql, *copy_.values())
    obj.id = cursor.lastrowid
    return obj
]] *)
Definition save (self : t) (obj : object) : prog object :=
  registered <-
    (if hasattr obj "id"
     then (id <- obj_id obj ;; has self id)
     else Ret false) ;;
  if registered : bool then
    id <- obj_id obj ;;
    let msg := "Object" ++ str_model (model self)
               ++ " id already registred: " ++ str id in
    Raise (ValueError msg)
  else
    let copy_ := cut_attrs obj "id" in
    let keys_ := "(" ++ String.concat ", " (keys copy_) ++ ")" in
    let refs := "(" ++ String.concat ", " (map (fun _ => "?") copy_) ++ ")" in
    let sql := "insert into " ++ tablename self ++ " " ++ keys_
               ++ " values " ++ refs in
    cursor <- execute sql (values copy_) ;;
    Ret (setattr obj "id" (lastrowid cursor)).

(** [[
def delete(self, obj):
    sql = 'DELETE from %s WHERE id = ?'
    self.db.execute(sql % self.tablename, obj.id)
]] *)
Definition delete (self : t) (obj : object) : prog unit :=
  id <- obj_id obj ;;
  _ <- execute ("DELETE from " ++ tablename self ++ " WHERE id = ?") [id] ;;
  Ret tt.

(** [[
def update(self, obj):
    copy_ = cut_attrs(obj, 'id')
    keys = '= ?, '.join(copy_.keys()) + '= ?'  # key1 = ?, ...
    sql = 'UPDATE %s SET %s WHERE id = ?' % (self.tablename, keys)
    self.db.execute(sql, *(list(copy_.values()) + [obj.id]))
]] *)
Definition update (self : t) (obj : object) : prog unit :=
  let copy_ := cut_attrs obj "id" in
  let keys_ := String.concat "= ?, " (keys copy_) ++ "= ?" in
  let sql := "UPDATE " ++ tablename self ++ " SET " ++ keys_
             ++ " WHERE id = ?" in
  id <- obj_id obj ;;
  _ <- execute sql (values copy_ ++ [id])%list ;;
  Ret tt.

(** [[
def _hastable(self):
    sql = 'select name len FROM sqlite_master where type = ? AND name = ?'
    cursor = self.db.execute(sql, 'table', self.tablename)
    return True if cursor.fetchall() else False
]] *)
Definition _hastable (self : t) : prog bool :=
  let sql := "select name len FROM sqlite_master where type = ? AND name = ?" in
  cursor <- execute sql [VStr "table"; VStr (tablename self)] ;;
  Ret (match fetchall cursor with [] => false | _ => true end).

(** [[
def __init__(self, db, model):
    self.db = db
    self.model = model
    self.tablename = model.__name__
    if not self._hastable():
        self.db.executescript(render_schema(self.model))
]] *)
Definition __init__ (interned : bool) (m : model_class) : dbprog t :=
  let self := Make m (__name__ m) in
  dbind (lift (_hastable self)) (fun hastable =>
  if hastable : bool then DRet self
  else match render_schema interned (model self) with
       | inl e => DRaise e
       | inr script => DExecuteScript script (DRet self)
       end).

End Manager.

(** ** QueryBuilder *)

Module QueryBuilder.

Definition EQUAL : string := "=".
Definition NOT_EQUAL : string := "!=".
Definition AND : string := "AND".
Definition OR : string := "OR".
Definition ALL : string := "*".
Definition LIMIT : string := "limit".

(** [self.model] and [self.query_tokens], the token buffer. *)
Record t : Type := Make {
  model : model_class;
  query_tokens : list string
}.

(** [[
def __init__(self, model):
    self.model = model
    self.query_tokens = []
]] *)
Definition new (m : model_class) : t := Make m [].

Definition set_query_tokens (self : t) (tokens : list string) : t :=
  Make (model self) tokens.

(** [dict(i for i in vars(self.model).items() if i[0][0] is not '_')] *)
Fixpoint valid_keyvals (interned : bool) (items : attrs) : result attrs :=
  match items with
  | [] => ok []
  | i :: rest =>
      rbind (first_is_not_underscore interned (fst i)) (fun pub =>
      rbind (valid_keyvals interned rest) (fun d =>
      ok (if pub : bool then i :: d else d)))
  end.

(** The loop of [filter].  The statement [self.query_tokens += ...]
    extends the buffer in place, so the clauses appended before a
    [raise] stay in the buffer: the loop returns the buffer it reached
    together with its outcome. *)
Fixpoint filter_loop (valid : list string) (comparator boolean : string)
    (kwargs : attrs) (tokens : list string) : list string * result unit :=
  match kwargs with
  | [] => (tokens, ok tt)
  | (key, v) :: rest =>
      if mem key valid then
        filter_loop valid comparator boolean rest
          (tokens ++ [key] ++ [comparator] ++ [str v] ++ [boolean])%list
      else
        (tokens,
         raise (ValueError ("Invalid column " ++ dquote ++ key ++ dquote)))
  end.

(** [[
def filter(self, comparator=EQUAL, boolean=AND, **kwargs):
    valid_keyvals = dict(i for i in vars(self.model).items() if i[0][0] is not '_')

    for key, value in kwargs.items():
        if key in valid_keyvals.keys():
            self.query_tokens += [key] + [comparator] + [str(value)] + [boolean]
        else:
            raise(ValueError("Invalid column ..." % key))

    if(len(self.query_tokens) > 0):
        self.query_tokens = self.query_tokens[:-1]

    return self
]]
    [kwargs] lists the keyword arguments in the order of the call, the
    order in which [kwargs.items()] yields them.  The result pairs the
    builder as the call leaves it with the outcome of the call. *)
Definition filter (interned : bool) (self : t) (comparator boolean : string)
    (kwargs : attrs) : t * result unit :=
  match valid_keyvals interned (class_vars (model self)) with
  | inl e => (self, inl e)
  | inr valid =>
      match filter_loop (keys valid) comparator boolean kwargs
              (query_tokens self) with
      | (tokens, inl e) => (set_query_tokens self tokens, inl e)
      | (tokens, inr _) =>
          if Nat.ltb 0 (length tokens)
          then (set_query_tokens self (removelast tokens), ok tt)
          else (set_query_tokens self tokens, ok tt)
      end
  end.

(** [[
def limit(self, num):
    self.query_tokens += [self.LIMIT] + [str(num)]

    return self
]] *)
Definition limit (self : t) (num : value) : t :=
  set_query_tokens self (query_tokens self ++ [LIMIT] ++ [str num])%list.

(** [select] is not embedded: its last two lines, the call of [execute]
    and the [return], do not balance their parentheses and are not a
    Python statement. *)

(** [[
def update(self, **kwargs):
    pass
]] *)
Definition update (self : t) (kwargs : attrs) : t * prog unit :=
  (self, Ret tt).

(** [[
def delete(self):
    sql = "delete from %s where %s"
    cursor = self.model.db.execute(sql % (self.model.__name__, " ".join(self.query_tokens)))
]] *)
Definition delete (self : t) : t * prog unit :=
  let sql := "delete from " ++ __name__ (model self) ++ " where "
             ++ String.concat " " (query_tokens self) in
  (self, _ <- execute sql [] ;; Ret tt).

End QueryBuilder.

(** ** A model of the storage engine *)

(** The engine is not part of the repository.  The model below covers the
    one table a repository is bound to and the statements [Manager] sends:
    the two lookups by id, the unfiltered select, the insert and the
    delete, together with the driver's refusal to bind an integer that
    does not fit 64 bits.  It answers [None] for every statement,
    argument or value it does not cover, so that nothing is proved about
    those. *)
Module Sqlite.

(** The integers the engine stores and the driver binds: 64 bits, signed. *)
Definition int64 (z : Z) : bool :=
  ((- 2 ^ 63 <=? z) && (z <? 2 ^ 63))%Z.

(** An argument the driver refuses to bind: an integer outside 64 bits. *)
Definition too_large (v : value) : bool :=
  match v with
  | VInt z => negb (int64 z)
  | _ => false
  end.

(** What the driver raises for such an argument, when it binds the
    arguments of a statement the engine has compiled; the statement is
    not run. *)
Definition overflow : exn :=
  OverflowError "Python int too large to convert to SQLite INTEGER".

(** A table created by [render_schema]: its name, its columns after [id]
    with their declared types, its rows (id, then one value per column),
    and the counter that AUTOINCREMENT keeps of the largest id handed
    out so far. *)
Record table : Type := Table {
  tbl_name : string;
  columns : list (string * string);
  rows : list (Z * list value);
  seq : Z
}.

(** The ids of the rows.  An id outside 64 bits is none the engine can
    hold, and is not counted. *)
Definition ids (t : table) : list Z := List.filter int64 (map fst (rows t)).

Definition max_id (t : table) : Z := fold_right Z.max 0%Z (ids t).

(** AUTOINCREMENT: one more than the largest id ever present. *)
Definition next_id (t : table) : Z := (Z.max (max_id t) (seq t) + 1)%Z.

(** A row as the cursor returns it for [select *]. *)
Definition row_attrs (t : table) (r : Z * list value) : attrs :=
  ("id", VInt (fst r)) :: combine (map fst (columns t)) (snd r).

Definition id_attrs (r : Z * list value) : attrs := [("id", VInt (fst r))].

(** The rows selected by [where id = ?] for a bound argument. *)
Definition where_id (t : table) (arg : value)
    : option (list (Z * list value)) :=
  match arg with
  | VInt i =>
      if int64 i
      then Some (List.filter (fun r => Z.eqb (fst r) i) (rows t))
      else None
  | VNone => Some []
  | _ => None
  end.

(** Letters, digits and the underscore. *)
Definition ident_char (c : ascii) : bool :=
  let n := nat_of_ascii c in
  ((65 <=? n) && (n <=? 90) || (97 <=? n) && (n <=? 122)
   || (48 <=? n) && (n <=? 57) || (n =? 95))%nat.

Fixpoint all_chars (f : ascii -> bool) (s : string) : bool :=
  match s with
  | EmptyString => true
  | String c s' => f c && all_chars f s'
  end.

(** A plain identifier: not empty, not starting with a digit. *)
Definition identifier (s : string) : bool :=
  match s with
  | EmptyString => false
  | String c _ => negb ((48 <=? nat_of_ascii c) && (nat_of_ascii c <=? 57))%nat
                  && all_chars ident_char s
  end.

(** The value a column of the declared type keeps for a bound value;
    [None] where the column would convert it in a way not modelled. *)
Definition stored (ty : string) (v : value) : option value :=
  match v with
  | VNone => Some VNone
  | VInt z =>
      if negb (int64 z) then None
      else if String.eqb ty "integer" then Some (VInt z)
      else if String.eqb ty "text" then Some (VStr (str (VInt z)))
      else None
  | VStr s => if String.eqb ty "text" then Some (VStr s) else None
  | _ => None
  end.

(** The new row's values: for each column of the table, the bound value
    of that column, or NULL when the statement does not name it. *)
Fixpoint new_row (cols : list (string * string)) (given : attrs)
    : option (list value) :=
  match cols with
  | [] => Some []
  | (c, ty) :: cols' =>
      match match lookup c given with
            | Some v => stored ty v
            | None => Some VNone
            end, new_row cols' given with
      | Some v, Some vs => Some (v :: vs)
      | _, _ => None
      end
  end.

(** The declared type of a column of the table. *)
Fixpoint column_type (c : string) (cols : list (string * string))
    : option string :=
  match cols with
  | [] => None
  | (c', ty) :: cols' =>
      if String.eqb c c' then Some ty else column_type c cols'
  end.

(** Every row has one value per column. *)
Definition shaped (t : table) : bool :=
  forallb (fun r => Nat.eqb (length (snd r)) (length (columns t))) (rows t).

Definition insert_row (t : table) (vs : list value) : table :=
  Table (tbl_name t) (columns t) (rows t ++ [(next_id t, vs)])%list (next_id t).

Definition delete_id (t : table) (i : Z) : table :=
  Table (tbl_name t) (columns t)
    (List.filter (fun r => negb (Z.eqb (fst r) i)) (rows t)) (seq t).

(** Splitting a column list at its commas. *)
Fixpoint split_on_comma (s : string) : list string :=
  match s with
  | EmptyString => [EmptyString]
  | String c s' =>
      if Ascii.eqb c ","%char then EmptyString :: split_on_comma s'
      else match split_on_comma s' with
           | h :: tl => String c h :: tl
           | [] => [String c EmptyString]
           end
  end.

Definition strip_space (s : string) : string :=
  match s with
  | String c s' => if Ascii.eqb c " "%char then s' else s
  | EmptyString => s
  end.

Fixpoint drop (n : nat) (s : string) : string :=
  match n, s with
  | O, _ => s
  | S n', String _ s' => drop n' s'
  | S _, EmptyString => EmptyString
  end.

Fixpoint take (n : nat) (s : string) : string :=
  match n, s with
  | O, _ => EmptyString
  | S n', String c s' => String c (take n' s')
  | S _, EmptyString => EmptyString
  end.

Definition insert_head (t : table) : string :=
  "insert into " ++ tbl_name t ++ " (".

Definition insert_tail (n : nat) : string :=
  ") values (" ++ String.concat ", " (repeat "?" n) ++ ")".

(** The column names of [insert into T (c1, c2) values (?, ?)], read
    back from the text between the two fixed parts. *)
Definition insert_columns (t : table) (sql : string) (n : nat) : list string :=
  let body := drop (String.length (insert_head t)) sql in
  let mid := take (String.length body - String.length (insert_tail n)) body in
  map strip_space (split_on_comma mid).

Fixpoint nodup_keys (l : list string) : bool :=
  match l with
  | [] => true
  | k :: l' => negb (mem k l') && nodup_keys l'
  end.

Definition insert (t : table) (sql : string) (args : list value)
    : option (table * result cursor) :=
  let cols := insert_columns t sql (length args) in
  if negb (String.eqb sql
             (insert_head t ++ String.concat ", " cols
              ++ insert_tail (length args)))
     || negb (Nat.eqb (length cols) (length args))
     || negb (forallb identifier cols && nodup_keys cols)
  then None
  else
    match List.find (fun c => negb (mem c (map fst (columns t)))) cols with
    | Some c =>
        Some (t, raise (OperationalError
                ("table " ++ tbl_name t ++ " has no column named " ++ c)))
    | None =>
        if existsb too_large args then Some (t, raise overflow)
        else if negb (int64 (next_id t)) then None
        else
          match new_row (columns t) (combine cols args) with
          | Some vs =>
              Some (insert_row t vs, ok (Cursor [] (VInt (next_id t))))
          | None => None
          end
    end.

(** [connection.execute(sql, args)] on the table. *)
Definition execute (t : table) (sql : string) (args : list value)
    : option (table * result cursor) :=
  if negb (identifier (tbl_name t)) then None
  else if String.eqb sql ("select id from " ++ tbl_name t ++ " where id = ?") then
    match args with
    | [arg] =>
        if too_large arg then Some (t, raise overflow) else
        match where_id t arg with
        | Some rs => Some (t, ok (Cursor (map id_attrs rs) VNone))
        | None => None
        end
    | _ => None
    end
  else if String.eqb sql ("select * from " ++ tbl_name t ++ " where id = ?") then
    match args with
    | [arg] =>
        if too_large arg then Some (t, raise overflow) else
        match where_id t arg with
        | Some rs => Some (t, ok (Cursor (map (row_attrs t) rs) VNone))
        | None => None
        end
    | _ => None
    end
  else if String.eqb sql ("select * from " ++ tbl_name t) then
    match args with
    | [] => Some (t, ok (Cursor (map (row_attrs t) (rows t)) VNone))
    | _ => None
    end
  else if String.eqb sql ("DELETE from " ++ tbl_name t ++ " WHERE id = ?") then
    match args with
    | [VInt i] =>
        if int64 i then Some (delete_id t i, ok (Cursor [] VNone))
        else Some (t, raise overflow)
    | [VNone] => Some (t, ok (Cursor [] VNone))
    | _ => None
    end
  else if String.eqb sql (insert_head t ++ insert_tail 0) then
    Some (t, raise (OperationalError
              ("near " ++ dquote ++ ")" ++ dquote ++ ": syntax error")))
  else if String.prefix (insert_head t) sql then insert t sql args
  else None.

End Sqlite.

(** Running a program against the table. *)
Fixpoint run {A : Type} (p : prog A) (t : Sqlite.table)
    : option (Sqlite.table * result A) :=
  match p with
  | Ret a => Some (t, ok a)
  | Raise e => Some (t, raise e)
  | Execute sql args k =>
      match Sqlite.execute t sql args with
      | Some (t', inr c) => run (k c) t'
      | Some (t', inl e) => Some (t', inl e)
      | None => None
      end
  end.

(** ** Vocabulary of the specification *)

(** An Entity Type Descriptor: a name and an ordered list of fields, each
    of a primitive type; [declare] is the class a program writes for it
    ([class Name(Model): field = type ...]), whose dictionary holds
    [__module__] before the fields and [__doc__] after them. *)
Inductive primitive : Type := PString | PInteger | PReal.

Definition descriptor : Type := list (string * primitive).

Definition type_object (p : primitive) : value :=
  match p with
  | PString => TStr
  | PInteger => TInt
  | PReal => TFloat
  end.

Definition sql_type (p : primitive) : string :=
  match p with
  | PString => "text"
  | PInteger => "integer"
  | PReal => "real"
  end.

Definition declare (name module : string) (fields : descriptor) : model_class :=
  ModelClass name module
    ((("__module__", VStr module)
      :: map (fun f => (fst f, type_object (snd f))) fields)
     ++ [("__doc__", VNone)])%list.

(** The column a field becomes in the schema. *)
Definition column (f : string * primitive) : string :=
  fst f ++ " " ++ sql_type (snd f).

(** A field name without the internal marker. *)
Definition public (key : string) : bool :=
  match key with
  | EmptyString => false
  | String c _ => negb (Ascii.eqb c "_"%char)
  end.

(** What the identity test of [key[0]] against the underscore literal
    lets through: every non-empty name where the interpreter keeps the
    two objects apart, the public names where it shares them. *)
Definition visible (interned : bool) (key : string) : bool :=
  match key with
  | EmptyString => false
  | String c _ => negb (interned && Ascii.eqb c "_"%char)
  end.

(** The fields a class declares for persistence: the public entries of
    its dictionary whose value is one of the three primitive types. *)
Definition declared_fields (m : model_class) : list string :=
  keys (List.filter
          (fun i => public (fst i) && existsb (value_eqb (snd i)) (map fst datatypes))
          (class_vars m)).

Definition non_id_fields (obj : object) : list string :=
  List.filter (fun k => negb (String.eqb k "id")) (keys (__dict__ obj)).

(** The invariant of the data model: the record's fields other than [id]
    are the declared fields of its class, as sets. *)
Definition matches_descriptor (obj : object) : Prop :=
  forall k, In k (non_id_fields obj) <-> In k (declared_fields (__class__ obj)).

(** The persisted layout of a class: the columns of its table after [id]
    are its declared fields, and every row has one value per column. *)
Definition persisted_layout (m : model_class) (t : Sqlite.table) : Prop :=
  (forall k, In k (List.filter (fun k => negb (String.eqb k "id"))
                     (map fst (Sqlite.columns t)))
             <-> In k (declared_fields m))
  /\ Sqlite.shaped t = true.

(** The clauses [filter] builds from its keyword arguments, in their order. *)
Definition clauses (comparator boolean : string) (kwargs : attrs) : list string :=
  flat_map (fun kv => [fst kv; comparator; str (snd kv); boolean]) kwargs.

(** The values a program can return, whatever the engine answers. *)
Inductive returns {A : Type} : prog A -> A -> Prop :=
| returns_ret : forall a, returns (Ret a) a
| returns_execute : forall sql args k c a,
    returns (k c) a -> returns (Execute sql args k) a.

(** What a row must satisfy for the modelled engine to take the insert:
    at least one column, plain and distinct column names, all of them
    columns of the table, integers within 64 bits, values the columns keep
    as modelled, and a next id within 64 bits. *)
Definition insertable (t : Sqlite.table) (given : attrs) : bool :=
  match given with [] => false | _ => true end
  && forallb Sqlite.identifier (keys given)
  && Sqlite.nodup_keys (keys given)
  && forallb (fun k => mem k (map fst (Sqlite.columns t))) (keys given)
  && negb (existsb Sqlite.too_large (values given))
  && Sqlite.int64 (Sqlite.next_id t)
  && match Sqlite.new_row (Sqlite.columns t) given with
     | Some _ => true
     | None => false
     end.

(** ** Examples used below *)

Definition Person : model_class :=
  declare "Person" "__main__" [("name", PString); ("age", PInteger)].

Definition Point : model_class :=
  declare "Point" "__main__" [("name", PString); ("d", PInteger)].

Definition person_table (rs : list (Z * list value)) (s : Z) : Sqlite.table :=
  Sqlite.Table "Person" [("name", "text"); ("age", "integer")] rs s.

Definition point_table (rs : list (Z * list value)) (s : Z) : Sqlite.table :=
  Sqlite.Table "Point" [("name", "text"); ("d", "integer")] rs s.

(** ** Model: the active record facade *)

Module Model.

(** [[
@classmethod
def manager(cls, db=None):
    return Manager(db if db else cls.db, cls)
]]
    [cls_db] is the class attribute [db]: the database of the family the
    class was minted in, or [None] as in [Model] itself.  The result names
    the database the manager is bound to and what its construction does
    there; without a database the first use of [self.db] in the
    constructor, the call of [execute] in [_hastable], raises
    AttributeError. *)
Definition manager {D : Type} (interned : bool) (cls : model_class)
    (cls_db db : option D) : option D * dbprog Manager.t :=
  let chosen := match db with Some d => Some d | None => cls_db end in
  (chosen,
   match chosen with
   | Some _ => Manager.__init__ interned cls
   | None => DRaise (AttributeError "'NoneType' object has no attribute 'execute'")
   end).

(** [[
def save(self):
    return self.__class__.manager().save(self)
]] *)
Definition save {D : Type} (interned : bool) (cls_db : option D)
    (self : object) : option D * dbprog object :=
  let m := manager interned (__class__ self) cls_db None in
  (fst m, dbind (snd m) (fun mgr => lift (Manager.save mgr self))).

(** [[
def update(self):
    return self.__class__.manager().update(self)
]] *)
Definition update {D : Type} (interned : bool) (cls_db : option D)
    (self : object) : option D * dbprog unit :=
  let m := manager interned (__class__ self) cls_db None in
  (fst m, dbind (snd m) (fun mgr => lift (Manager.update mgr self))).

(** [[
def delete(self):
    return self.__class__.manager().delete(self)
]] *)
Definition delete {D : Type} (interned : bool) (cls_db : option D)
    (self : object) : option D * dbprog unit :=
  let m := manager interned (__class__ self) cls_db None in
  (fst m, dbind (snd m) (fun mgr => lift (Manager.delete mgr self))).

(** [[
@property
def public(self):
    return dict(i for i in vars(self).items() if i[0][0] is not '_')
]] *)
Fixpoint public_items (interned : bool) (items : attrs) : result attrs :=
  match items with
  | [] => ok []
  | i :: rest =>
      rbind (first_is_not_underscore interned (fst i)) (fun pub =>
      rbind (public_items interned rest) (fun d =>
      ok (if pub : bool then i :: d else d)))
  end.

Definition public (interned : bool) (self : object) : result attrs :=
  public_items interned (__dict__ self).

End Model.

(** ** Database: the connection proxy *)

Module Database.

(** What the proxy asks of the driver: [sqlite3.connect] with the stored
    arguments, giving the connection numbered [h], and the methods it calls
    on a connection. *)
Inductive event : Type :=
| Connect (h : nat) (args : list value) (kwargs : attrs)
| Close (h : nat)
| Commit (h : nat)
| Exec (h : nat) (sql : string) (args : list value)
| ExecScript (h : nat) (script : string).

(** The driver: how many connections it has handed out and what it has
    been asked so far.  Its calls are taken to succeed. *)
Record driver : Type := Driver {
  opened : nat;
  trace : list event
}.

Definition emit (d : driver) (e : event) : driver :=
  Driver (opened d) (trace d ++ [e]).

(** [self.args], [self.kwargs], [self.connected] and [self._connection],
    which is unset until the first connection. *)
Record t : Type := Make {
  args : list value;
  kwargs : attrs;
  connected : bool;
  _connection : option nat
}.

(** [[
def __init__(self, *args, **kwargs):
    self.args = args
    self.kwargs = kwargs
    self.connected = False
    self.Model = type(...)
]] *)
Definition __init__ (args : list value) (kwargs : attrs) : t :=
  Make args kwargs false None.

(** [[
@property
def connection(self):
    if self.connected:
        return self._connection
    self._connection = sqlite3.connect(self.args, self.kwargs)
    self._connection.row_factory = sqlite3.Row
    self.connected = True
    return self._connection
]] *)
Definition connection (d : driver) (self : t) : driver * t * result nat :=
  if connected self then
    match _connection self with
    | Some h => (d, self, ok h)
    | None => (d, self, raise (AttributeError "_connection"))
    end
  else
    let h := opened d in
    (Driver (S h) (trace d ++ [Connect h (args self) (kwargs self)]),
     Make (args self) (kwargs self) true (Some h),
     ok h).

(** [[
def close(self):
    if self.connected:
        self.connection.close()
    self.connected = False
]] *)
Definition close (d : driver) (self : t) : driver * t * result unit :=
  if connected self then
    match connection d self with
    | (d', self', inr h) =>
        (emit d' (Close h),
         Make (args self') (kwargs self') false (_connection self'), ok tt)
    | (d', self', inl e) => (d', self', inl e)
    end
  else (d, Make (args self) (kwargs self) false (_connection self), ok tt).

(** [[
def commit(self):
    self.connection.commit()
]] *)
Definition commit (d : driver) (self : t) : driver * t * result unit :=
  match connection d self with
  | (d', self', inr h) => (emit d' (Commit h), self', ok tt)
  | (d', self', inl e) => (d', self', inl e)
  end.

(** [[
def execute(self, sql, *args):
    return self.connection.execute(sql, args)
]]
    The cursor the driver returns is passed on as it is. *)
Definition execute (d : driver) (self : t) (sql : string) (args : list value)
    : driver * t * result unit :=
  match connection d self with
  | (d', self', inr h) => (emit d' (Exec h sql args), self', ok tt)
  | (d', self', inl e) => (d', self', inl e)
  end.

(** [[
def executescript(self, script):
    self.connection.cursor().executescript(script)
    self.commit()
]] *)
Definition executescript (d : driver) (self : t) (script : string)
    : driver * t * result unit :=
  match connection d self with
  | (d', self', inr h) => commit (emit d' (ExecScript h script)) self'
  | (d', self', inl e) => (d', self', inl e)
  end.

(** A use of the proxy from outside: one of its methods or a read of its
    [connection] property. *)
Inductive call : Type :=
| GetConnection
| CallClose
| CallCommit
| CallExecute (sql : string) (args : list value)
| CallExecutescript (script : string).

Definition forget {A : Type} (r : driver * t * result A) : driver * t :=
  fst r.

Definition step (st : driver * t) (c : call) : driver * t :=
  match c with
  | GetConnection => forget (connection (fst st) (snd st))
  | CallClose => forget (close (fst st) (snd st))
  | CallCommit => forget (commit (fst st) (snd st))
  | CallExecute sql a => forget (execute (fst st) (snd st) sql a)
  | CallExecutescript script => forget (executescript (fst st) (snd st) script)
  end.

Definition calls (cs : list call) (st : driver * t) : driver * t :=
  fold_left step cs st.

(** The connections open after a trace, most recent first, starting from
    the open ones [live]; [None] when the trace touches a connection that
    is not open at that point, or opens one that already is. *)
Fixpoint replay (tr : list event) (live : list nat) : option (list nat) :=
  match tr with
  | [] => Some live
  | e :: tr' =>
      match e with
      | Connect h _ _ =>
          if existsb (Nat.eqb h) live then None else replay tr' (h :: live)
      | Close h =>
          if existsb (Nat.eqb h) live
          then replay tr' (List.filter (fun x => negb (Nat.eqb x h)) live)
          else None
      | Commit h | Exec h _ _ | ExecScript h _ =>
          if existsb (Nat.eqb h) live then replay tr' live else None
      end
  end.

Definition handle (e : event) : nat :=
  match e with
  | Connect h _ _ | Close h | Commit h | Exec h _ _ | ExecScript h _ => h
  end.

(** A proxy and a driver that fit together: the trace so far never
    touched a connection that was not open, the connections it names are
    ones the driver handed out, and the open connections are the cached
    one when the proxy is connected and none otherwise. *)
Definition consistent (st : driver * t) : Prop :=
  exists live,
    replay (trace (fst st)) [] = Some live
    /\ Forall (fun e => handle e < opened (fst st)) (trace (fst st))
    /\ if connected (snd st)
       then exists h, _connection (snd st) = Some h /\ live = [h]
                      /\ h < opened (fst st)
       else live = [].

Definition is_commit (e : event) : bool :=
  match e with Commit _ => true | _ => false end.

Definition is_connect (e : event) : bool :=
  match e with Connect _ _ _ => true | _ => false end.

(** Sending the requests of a program through the proxy, one call of
    [execute] or [executescript] each. *)
Definition send (st : driver * t) (r : request) : driver * t :=
  match r with
  | Statement sql a => step st (CallExecute sql a)
  | Script script => step st (CallExecutescript script)
  end.

End Database.

Definition is_script (r : request) : bool :=
  match r with Script _ => true | Statement _ _ => false end.

(** The requests a program makes and its outcome when the driver raises
    nothing and answers each statement with the cursor [answer] gives for
    the requests made so far. *)
Fixpoint requests {A : Type} (answer : list request -> cursor) (p : dbprog A)
    (past : list request) : list request * result A :=
  match p with
  | DRet a => (past, ok a)
  | DRaise e => (past, raise e)
  | DExecute sql args k =>
      let past' := (past ++ [Statement sql args])%list in
      requests answer (k (answer past')) past'
  | DExecuteScript script k =>
      requests answer k (past ++ [Script script])%list
  end.

(** ** The storage engine with its catalog *)

(** The database file as a whole: no table yet, or the one table of the
    repository.  On top of [Sqlite.execute] the model covers the catalog
    lookup of [_hastable], the script of [render_schema] and the statement
    of [Manager.update]; as before it answers [None] wherever it does not
    cover a statement, a name or a value. *)
Module Store.

Definition lower_char (c : ascii) : ascii :=
  let n := nat_of_ascii c in
  if ((65 <=? n) && (n <=? 90))%nat then ascii_of_nat (n + 32) else c.

Fixpoint lower (s : string) : string :=
  match s with
  | EmptyString => EmptyString
  | String c s' => String (lower_char c) (lower s')
  end.

(** The keywords of the SQL dialect, none of which is taken as a name. *)
Definition keywords : list string :=
  ["abort"; "action"; "add"; "after"; "all"; "alter"; "always"; "analyze";
   "and"; "as"; "asc"; "attach"; "autoincrement"; "before"; "begin";
   "between"; "by"; "cascade"; "case"; "cast"; "check"; "collate"; "column";
   "commit"; "conflict"; "constraint"; "create"; "cross"; "current";
   "current_date"; "current_time"; "current_timestamp"; "database";
   "default"; "deferrable"; "deferred"; "delete"; "desc"; "detach";
   "distinct"; "do"; "drop"; "each"; "else"; "end"; "escape"; "except";
   "exclude"; "exclusive"; "exists"; "explain"; "fail"; "filter"; "first";
   "following"; "for"; "foreign"; "from"; "full"; "generated"; "glob";
   "group"; "groups"; "having"; "if"; "ignore"; "immediate"; "in"; "index";
   "indexed"; "initially"; "inner"; "insert"; "instead"; "intersect"; "into";
   "is"; "isnull"; "join"; "key"; "last"; "left"; "like"; "limit"; "match";
   "materialized"; "natural"; "no"; "not"; "nothing"; "notnull"; "null";
   "nulls"; "of"; "offset"; "on"; "or"; "order"; "others"; "outer"; "over";
   "partition"; "plan"; "pragma"; "preceding"; "primary"; "query"; "raise";
   "range"; "recursive"; "references"; "regexp"; "reindex"; "release";
   "rename"; "replace"; "restrict"; "returning"; "right"; "rollback"; "row";
   "rows"; "savepoint"; "select"; "set"; "table"; "temp"; "temporary";
   "then"; "ties"; "to"; "transaction"; "trigger"; "unbounded"; "union";
   "unique"; "update"; "using"; "vacuum"; "values"; "view"; "virtual";
   "when"; "where"; "window"; "with"; "without"].

(** A name the engine takes as written: a plain identifier that is no
    keyword and not reserved for the engine's own tables. *)
Definition plain_name (s : string) : bool :=
  Sqlite.identifier s
  && negb (mem (lower s) keywords)
  && negb (String.prefix "sqlite_" (lower s)).

(** A column a script may declare besides [id]. *)
Definition column_ok (c : string * string) : bool :=
  plain_name (fst c)
  && negb (mem (lower (fst c)) ["id"; "rowid"; "oid"; "_rowid_"])
  && mem (snd c) ["text"; "integer"; "real"].

Definition create_head (name : string) : string :=
  "create table " ++ name ++ " (id integer primary key autoincrement, ".

Definition create_tail : string := ");".

Definition create_sql (name : string) (cols : list (string * string)) : string :=
  create_head name
  ++ String.concat ", " (map (fun c => fst c ++ " " ++ snd c) cols)
  ++ create_tail.

(** The longest prefix made of letters, digits and underscores. *)
Fixpoint take_ident (s : string) : string :=
  match s with
  | EmptyString => EmptyString
  | String c s' =>
      if Sqlite.ident_char c then String c (take_ident s') else EmptyString
  end.

(** The table name and the columns of a create statement, read back from
    its text. *)
Definition create_name (script : string) : string :=
  take_ident (Sqlite.drop (String.length "create table ") script).

Definition column_of (piece : string) : string * string :=
  (take_ident piece,
   Sqlite.drop (S (String.length (take_ident piece))) piece).

Definition create_columns (name script : string) : list (string * string) :=
  let body := Sqlite.drop (String.length (create_head name)) script in
  let mid := Sqlite.take (String.length body - String.length create_tail) body in
  map column_of (map Sqlite.strip_space (Sqlite.split_on_comma mid)).

(** [cursor.executescript(script)] followed by [commit()], on a database
    without a table: the script of [render_schema] creates the table,
    empty, with the counter of ids at 0. *)
Definition executescript (s : option Sqlite.table) (script : string)
    : option (option Sqlite.table * result unit) :=
  let name := create_name script in
  let cols := create_columns name script in
  if String.eqb script (create_sql name cols)
     && plain_name name
     && forallb column_ok cols
     && Sqlite.nodup_keys (map (fun c => lower (fst c)) cols)
  then
    match s with
    | None => Some (Some (Sqlite.Table name cols [] 0), ok tt)
    | Some _ => None
    end
  else None.

Definition catalog_sql : string :=
  "select name len FROM sqlite_master where type = ? AND name = ?".

(** The catalog lookup: one row when the table of that name exists. *)
Definition catalog (s : option Sqlite.table) (args : list value)
    : option (option Sqlite.table * result cursor) :=
  match args with
  | [VStr ty; VStr name] =>
      if String.eqb ty "table" && plain_name name then
        match s with
        | None => Some (s, ok (Cursor [] VNone))
        | Some t =>
            if String.eqb (Sqlite.tbl_name t) name
            then Some (s, ok (Cursor [[("len", VStr name)]] VNone))
            else None
        end
      else None
  | _ => None
  end.

Definition update_head (t : Sqlite.table) : string :=
  "UPDATE " ++ Sqlite.tbl_name t ++ " SET ".

Definition update_tail : string := "= ? WHERE id = ?".

Definition update_sql (t : Sqlite.table) (ks : list string) : string :=
  update_head t ++ String.concat "= ?, " ks ++ update_tail.

(** The column names of [UPDATE T SET c1= ?, c2= ? WHERE id = ?]. *)
Definition update_columns (t : Sqlite.table) (sql : string) : list string :=
  let body := Sqlite.drop (String.length (update_head t)) sql in
  let mid := Sqlite.take (String.length body - String.length update_tail) body in
  map take_ident (map Sqlite.strip_space (Sqlite.split_on_comma mid)).

(** The values of an updated row: the bound value for a column the
    statement sets, the old value for any other. *)
Fixpoint update_values (cols : list (string * string)) (given : attrs)
    (old : list value) : option (list value) :=
  match cols, old with
  | [], _ => Some []
  | (c, ty) :: cols', o :: old' =>
      match match lookup c given with
            | Some v => Sqlite.stored ty v
            | None => Some o
            end, update_values cols' given old' with
      | Some v, Some vs => Some (v :: vs)
      | _, _ => None
      end
  | _ :: _, [] => None
  end.

Fixpoint update_rows (cols : list (string * string)) (given : attrs) (i : Z)
    (rs : list (Z * list value)) : option (list (Z * list value)) :=
  match rs with
  | [] => Some []
  | r :: rs' =>
      match (if Z.eqb (fst r) i
             then option_map (pair (fst r)) (update_values cols given (snd r))
             else Some r),
            update_rows cols given i rs' with
      | Some r', Some rs'' => Some (r' :: rs'')
      | _, _ => None
      end
  end.

(** The values the driver binds: None, an integer within 64 bits, a
    string. *)
Definition bindable (v : value) : bool :=
  match v with
  | VNone | VStr _ => true
  | VInt z => Sqlite.int64 z
  | _ => false
  end.

Definition update (t : Sqlite.table) (sql : string) (args : list value)
    : option (Sqlite.table * result cursor) :=
  let ks := update_columns t sql in
  if Sqlite.identifier (Sqlite.tbl_name t)
     && String.eqb sql (update_sql t ks)
     && Nat.eqb (length args) (S (length ks))
     && forallb Sqlite.identifier ks
     && Sqlite.nodup_keys ks
     && forallb (fun k => mem k (map fst (Sqlite.columns t))) ks
  then
    if existsb Sqlite.too_large args then Some (t, raise Sqlite.overflow)
    else if negb (forallb bindable args) then None
    else
    match last args VNone with
    | VInt i =>
        match update_rows (Sqlite.columns t) (combine ks args) i (Sqlite.rows t) with
        | Some rs =>
            Some (Sqlite.Table (Sqlite.tbl_name t) (Sqlite.columns t) rs
                    (Sqlite.seq t),
                  ok (Cursor [] VNone))
        | None => None
        end
    | VNone => Some (t, ok (Cursor [] VNone))
    | _ => None
    end
  else None.

(** [connection.execute(sql, args)] on the database. *)
Definition execute (s : option Sqlite.table) (sql : string) (args : list value)
    : option (option Sqlite.table * result cursor) :=
  match match s with
        | Some t => Sqlite.execute t sql args
        | None => None
        end with
  | Some (t', r) => Some (Some t', r)
  | None =>
      if String.eqb sql catalog_sql then catalog s args
      else match s with
           | Some t =>
               match update t sql args with
               | Some (t', r) => Some (Some t', r)
               | None => None
               end
           | None => None
           end
  end.

End Store.

(** Running a program that may run scripts against the database. *)
Fixpoint run_db {A : Type} (p : dbprog A) (s : option Sqlite.table)
    : option (option Sqlite.table * result A) :=
  match p with
  | DRet a => Some (s, ok a)
  | DRaise e => Some (s, raise e)
  | DExecute sql args k =>
      match Store.execute s sql args with
      | Some (s', inr c) => run_db (k c) s'
      | Some (s', inl e) => Some (s', inl e)
      | None => None
      end
  | DExecuteScript script k =>
      match Store.executescript s script with
      | Some (s', inr _) => run_db k s'
      | Some (s', inl e) => Some (s', inl e)
      | None => None
      end
  end.

(** The table a descriptor's class gets. *)
Definition table_of (name : string) (fields : descriptor) : Sqlite.table :=
  Sqlite.Table name (map (fun f => (fst f, sql_type (snd f))) fields) [] 0.

(** What a record must satisfy for the modelled engine to take the
    update of the row [i]: at least one column, plain and distinct column
    names, all of them columns of the table, an id and values that can be
    bound (integers within 64 bits) and that the columns of the rows
    concerned keep as modelled. *)
Definition updatable (t : Sqlite.table) (given : attrs) (i : Z) : bool :=
  match given with [] => false | _ => true end
  && Sqlite.int64 i
  && forallb Sqlite.identifier (keys given)
  && Sqlite.nodup_keys (keys given)
  && forallb (fun k => mem k (map fst (Sqlite.columns t))) (keys given)
  && forallb Store.bindable (values given)
  && match Store.update_rows (Sqlite.columns t) given i (Sqlite.rows t) with
     | Some _ => true
     | None => false
     end.

(** * Properties *)

(** ** Strings *)

Lemma append_assoc (a b c : string) : (a ++ b) ++ c = a ++ (b ++ c).
Proof.
  induction a as [|x a IH]; simpl; [reflexivity | now rewrite IH].
Qed.

Lemma length_append (a b : string) :
  String.length (a ++ b) = String.length a + String.length b.
Proof.
  induction a as [|x a IH]; simpl; [reflexivity | now rewrite IH].
Qed.

Lemma prefix_append (a b : string) : String.prefix a (a ++ b) = true.
Proof.
  induction a as [|x a IH]; simpl.
  - now destruct b.
  - destruct (ascii_dec x x) as [_|n]; [exact IH | now elim n].
Qed.

Lemma eqb_append_l (a b c : string) :
  String.eqb (a ++ b) (a ++ c) = String.eqb b c.
Proof.
  induction a as [|x a IH]; simpl; [reflexivity|].
  now rewrite Ascii.eqb_refl.
Qed.

Lemma drop_append (a b : string) : Sqlite.drop (String.length a) (a ++ b) = b.
Proof.
  induction a as [|x a IH]; simpl; [reflexivity | exact IH].
Qed.

Lemma take_append (a b : string) : Sqlite.take (String.length a) (a ++ b) = a.
Proof.
  induction a as [|x a IH]; simpl; [reflexivity | now rewrite IH].
Qed.

(** ** Results *)

Lemma rbind_ok {A B : Type} (a : A) (f : A -> result B) : rbind (ok a) f = f a.
Proof. reflexivity. Qed.

(** ** The schema synthesizer *)

Lemma public_visible (interned : bool) (key : string) :
  public key = true -> visible interned key = true.
Proof.
  destruct key as [|c key]; simpl; [discriminate|].
  intros H. apply Bool.negb_true_iff in H. rewrite H.
  now rewrite Bool.andb_false_r.
Qed.

Lemma visible_interned (key : string) : visible true key = public key.
Proof. now destruct key. Qed.

Lemma visible_not_interned (key : string) :
  visible false key = negb (String.eqb key "").
Proof. now destruct key. Qed.

Lemma first_is_not_underscore_visible (interned : bool) (key : string) :
  key <> EmptyString ->
  first_is_not_underscore interned key = ok (visible interned key).
Proof. destruct key; [now intros H; elim H | reflexivity]. Qed.

Lemma render_cols_skip (interned : bool) (key : string) (v : value)
    (rest : attrs) :
  key <> EmptyString ->
  visible interned key = false \/ datatypes_get v datatypes = None ->
  render_cols interned ((key, v) :: rest) = render_cols interned rest.
Proof.
  intros Hne Hskip. cbn [render_cols]. unfold iscol.
  rewrite first_is_not_underscore_visible by assumption.
  cbn [rbind ok].
  destruct Hskip as [Hp | Hd].
  - now rewrite Hp.
  - destruct v; simpl in Hd; try discriminate; simpl;
      now rewrite Bool.andb_false_r.
Qed.

Lemma render_cols_fields (interned : bool) (fields : descriptor) (rest : attrs)
    (cols : list string) :
  forallb (fun f => public (fst f)) fields = true ->
  render_cols interned rest = ok cols ->
  render_cols interned
    (map (fun f => (fst f, type_object (snd f))) fields ++ rest)%list
  = ok (map column fields ++ cols)%list.
Proof.
  intros Hpub Hrest. induction fields as [|[k p] fields IH]; simpl in *.
  - exact Hrest.
  - apply Bool.andb_true_iff in Hpub as [Hk Hfs].
    unfold iscol.
    rewrite first_is_not_underscore_visible by (now destruct k).
    rewrite (public_visible interned _ Hk). cbn [rbind ok].
    rewrite (IH Hfs). destruct p; reflexivity.
Qed.

(** On any class dictionary without an empty key, the columns are the
    entries that pass the identity test and are bound to one of the three
    type objects, in the order of the dictionary; every other entry is
    left out. *)
Lemma render_cols_class (interned : bool) (items : attrs) :
  forallb (fun i => negb (String.eqb (fst i) "")) items = true ->
  render_cols interned items
  = ok (map (fun i => fst i ++ " "
                      ++ match datatypes_get (snd i) datatypes with
                         | Some ty => ty
                         | None => ""
                         end)
          (List.filter
             (fun i => visible interned (fst i)
                       && existsb (value_eqb (snd i)) (map fst datatypes))
             items)).
Proof.
  induction items as [|[k v] items IH]; intros Hne; [reflexivity|].
  cbn [forallb fst] in Hne. apply Bool.andb_true_iff in Hne as [Hk Hrest].
  destruct k as [|c k]; [discriminate|].
  cbn [render_cols List.filter fst snd visible]. unfold iscol.
  cbn [first_is_not_underscore rbind ok].
  destruct (negb (interned && Ascii.eqb c "_"%char)); cbn [andb].
  - destruct v; cbn; rewrite (IH Hrest); reflexivity.
  - exact (IH Hrest).
Qed.

(** C3: for every descriptor whose field names are public, the synthesizer
    emits [create table <Name> (id integer primary key autoincrement,
    <field> <type>, ...);] with one column per field, in declaration
    order, typed by string -> text, integer -> integer, real -> real; for
    Person with name: string and age: integer it emits exactly the
    statement of the specification. *)
Theorem render_schema_descriptor (interned : bool) :
  (forall (name module : string) (fields : descriptor),
      forallb (fun f => public (fst f)) fields = true ->
      render_schema interned (declare name module fields)
      = ok ("create table " ++ name
            ++ " (id integer primary key autoincrement, "
            ++ String.concat ", " (map column fields) ++ ");"))
  /\ render_schema interned Person
     = ok "create table Person (id integer primary key autoincrement, name text, age integer);".
Proof.
  assert (G : forall (name module : string) (fields : descriptor),
             forallb (fun f => public (fst f)) fields = true ->
             render_schema interned (declare name module fields)
             = ok ("create table " ++ name
                   ++ " (id integer primary key autoincrement, "
                   ++ String.concat ", " (map column fields) ++ ");")).
  { intros name module fields Hpub.
    unfold render_schema, declare. cbn [class_vars __name__].
    rewrite <- app_comm_cons.
    rewrite render_cols_skip by (try discriminate; now right).
    rewrite render_cols_fields with (cols := [])
      by (assumption || (now destruct interned)).
    now rewrite app_nil_r. }
  split; [exact G|].
  exact (G "Person" "__main__" [("name", PString); ("age", PInteger)] eq_refl).
Qed.

Lemma render_schema_descriptor_witness :
  forallb (fun f => public (fst f)) [("name", PString); ("age", PInteger)] = true
  /\ render_schema false
       (declare "Person" "__main__" [("name", PString); ("age", PInteger)])
     = ok ("create table " ++ "Person"
           ++ " (id integer primary key autoincrement, "
           ++ String.concat ", " (map column [("name", PString); ("age", PInteger)])
           ++ ");").
Proof.
  split; [reflexivity|].
  apply (proj1 (render_schema_descriptor false)). reflexivity.
Defined.

(** ** The query builder *)

Lemma filter_loop_valid (valid : list string) (comparator boolean : string)
    (kwargs : attrs) (tokens : list string) :
  forallb (fun kv => mem (fst kv) valid) kwargs = true ->
  QueryBuilder.filter_loop valid comparator boolean kwargs tokens
  = ((tokens ++ clauses comparator boolean kwargs)%list, ok tt).
Proof.
  revert tokens. induction kwargs as [|[k v] kwargs IH]; intros tokens Hall; simpl in *.
  - now rewrite app_nil_r.
  - apply Bool.andb_true_iff in Hall as [Hk Hrest].
    rewrite Hk, (IH _ Hrest). now rewrite <- app_assoc.
Qed.

Lemma filter_loop_invalid (valid : list string) (comparator boolean : string)
    (before after : attrs) (key : string) (v : value) (tokens : list string) :
  forallb (fun kv => mem (fst kv) valid) before = true ->
  mem key valid = false ->
  QueryBuilder.filter_loop valid comparator boolean
    (before ++ (key, v) :: after)%list tokens
  = ((tokens ++ clauses comparator boolean before)%list,
     raise (ValueError ("Invalid column " ++ dquote ++ key ++ dquote))).
Proof.
  revert tokens. induction before as [|[k w] before IH]; intros tokens Hall Hkey;
    simpl in *.
  - now rewrite Hkey, app_nil_r.
  - apply Bool.andb_true_iff in Hall as [Hk Hrest].
    rewrite Hk, (IH _ Hrest Hkey). now rewrite <- app_assoc.
Qed.

Lemma clauses_not_nil (comparator boolean : string) (kwargs : attrs) :
  kwargs <> [] -> clauses comparator boolean kwargs <> [].
Proof.
  destruct kwargs as [|kv kwargs]; [now intros H; elim H | discriminate].
Qed.

Lemma clauses_last (comparator boolean : string) (kwargs : attrs) :
  kwargs <> [] ->
  clauses comparator boolean kwargs
  = (removelast (clauses comparator boolean kwargs) ++ [boolean])%list.
Proof.
  induction kwargs as [|kv kwargs IH]; intros Hne; [now elim Hne|].
  destruct kwargs as [|kv' kwargs].
  - reflexivity.
  - change (clauses comparator boolean (kv :: kv' :: kwargs))
      with ([fst kv; comparator; str (snd kv); boolean]
            ++ clauses comparator boolean (kv' :: kwargs))%list.
    rewrite removelast_app by (apply clauses_not_nil; discriminate).
    rewrite <- app_assoc. f_equal. apply IH. discriminate.
Qed.

Lemma filter_valid (interned : bool) (self : QueryBuilder.t) (comparator boolean : string)
    (kwargs valid : attrs) :
  QueryBuilder.valid_keyvals interned (class_vars (QueryBuilder.model self)) = ok valid ->
  forallb (fun kv => mem (fst kv) (keys valid)) kwargs = true ->
  kwargs <> [] ->
  QueryBuilder.filter interned self comparator boolean kwargs
  = (QueryBuilder.set_query_tokens self
       (QueryBuilder.query_tokens self
        ++ removelast (clauses comparator boolean kwargs))%list,
     ok tt).
Proof.
  intros Hvalid Hall Hne. unfold QueryBuilder.filter.
  rewrite Hvalid. unfold ok at 1.
  rewrite (filter_loop_valid _ _ _ _ _ Hall). unfold ok at 1.
  pose proof (clauses_not_nil comparator boolean Hne) as Hc.
  destruct (Nat.ltb 0 (length (QueryBuilder.query_tokens self
                               ++ clauses comparator boolean kwargs)%list)) eqn:Hlen.
  - now rewrite removelast_app.
  - apply Nat.ltb_ge in Hlen. rewrite length_app in Hlen.
    destruct (clauses comparator boolean kwargs); [now elim Hc | simpl in Hlen; lia].
Qed.

(** C7 (as amended): a call of [filter] with one or more valid pairs
    appends the clauses [field comparator value connective] in the order
    in which the keyword arguments were passed, not sorted by field name,
    and then strips only the last token of the buffer, the trailing
    connective: the new buffer followed by that connective is the old
    buffer followed by all the clauses. *)
Theorem filter_appends_in_call_order (interned : bool) (self : QueryBuilder.t)
    (comparator boolean : string) (kwargs valid : attrs) :
  QueryBuilder.valid_keyvals interned (class_vars (QueryBuilder.model self)) = ok valid ->
  forallb (fun kv => mem (fst kv) (keys valid)) kwargs = true ->
  kwargs <> [] ->
  exists self',
    QueryBuilder.filter interned self comparator boolean kwargs = (self', ok tt)
    /\ QueryBuilder.model self' = QueryBuilder.model self
    /\ QueryBuilder.query_tokens self'
       = (QueryBuilder.query_tokens self
          ++ removelast (clauses comparator boolean kwargs))%list
    /\ (QueryBuilder.query_tokens self' ++ [boolean])%list
       = (QueryBuilder.query_tokens self
          ++ clauses comparator boolean kwargs)%list.
Proof.
  intros Hvalid Hall Hne. eexists. split; [now apply filter_valid with (valid := valid)|].
  cbn [QueryBuilder.set_query_tokens QueryBuilder.model QueryBuilder.query_tokens].
  repeat split. rewrite <- app_assoc. f_equal. symmetry. now apply clauses_last.
Qed.

Lemma filter_appends_in_call_order_witness :
  exists self',
    QueryBuilder.filter false (QueryBuilder.new Person) QueryBuilder.EQUAL
      QueryBuilder.AND [("name", VStr "bob"); ("age", VInt 30)] = (self', ok tt)
    /\ QueryBuilder.model self' = Person
    /\ QueryBuilder.query_tokens self'
       = ["name"; "="; "bob"; "AND"; "age"; "="; "30"]
    /\ (QueryBuilder.query_tokens self' ++ ["AND"])%list
       = ["name"; "="; "bob"; "AND"; "age"; "="; "30"; "AND"].
Proof.
  apply (@filter_appends_in_call_order false (QueryBuilder.new Person)
           QueryBuilder.EQUAL QueryBuilder.AND
           [("name", VStr "bob"); ("age", VInt 30)]
           (class_vars Person)).
  - reflexivity.
  - reflexivity.
  - discriminate.
Defined.

(** C7 (as stated) fails: [filter(name='bob', age=30)] appends the clause
    of [name] before the clause of [age], which is not the order of the
    field names, under either reading of the identity test. *)
Lemma filter_not_sorted_by_field_name :
  Forall (fun interned =>
    QueryBuilder.query_tokens
      (fst (QueryBuilder.filter interned (QueryBuilder.new Person)
              QueryBuilder.EQUAL QueryBuilder.AND
              [("name", VStr "bob"); ("age", VInt 30)]))
    = ["name"; "="; "bob"; "AND"; "age"; "="; "30"]
    /\ String.ltb "age" "name" = true
    /\ QueryBuilder.query_tokens
         (fst (QueryBuilder.filter interned (QueryBuilder.new Person)
                 QueryBuilder.EQUAL QueryBuilder.AND
                 [("name", VStr "bob"); ("age", VInt 30)]))
       <> ["age"; "="; "30"; "AND"; "name"; "="; "bob"])
    [true; false].
Proof.
  repeat constructor; discriminate.
Qed.

(** C5 (as amended): [limit(n)] appends the two tokens [limit] and
    [str(n)] at the end of the buffer, so right after the call they are
    its final tokens; [filter] does not look for a limit token: called
    afterwards with valid pairs it succeeds and appends its clauses
    behind the limit tokens. *)
Theorem filter_after_limit_appends (interned : bool) (self : QueryBuilder.t)
    (num : value) (comparator boolean : string) (kwargs valid : attrs) :
  QueryBuilder.valid_keyvals interned (class_vars (QueryBuilder.model self)) = ok valid ->
  forallb (fun kv => mem (fst kv) (keys valid)) kwargs = true ->
  kwargs <> [] ->
  QueryBuilder.query_tokens (QueryBuilder.limit self num)
  = (QueryBuilder.query_tokens self ++ [QueryBuilder.LIMIT; str num])%list
  /\ QueryBuilder.filter interned (QueryBuilder.limit self num) comparator boolean kwargs
     = (QueryBuilder.Make (QueryBuilder.model self)
          (QueryBuilder.query_tokens self ++ [QueryBuilder.LIMIT; str num]
           ++ removelast (clauses comparator boolean kwargs))%list,
        ok tt).
Proof.
  intros Hvalid Hall Hne. split; [reflexivity|].
  rewrite filter_valid with (valid := valid); try assumption.
  unfold QueryBuilder.limit, QueryBuilder.set_query_tokens.
  cbn [QueryBuilder.model QueryBuilder.query_tokens].
  now rewrite <- !app_assoc.
Qed.

Lemma filter_after_limit_appends_witness :
  QueryBuilder.query_tokens (QueryBuilder.limit (QueryBuilder.new Person) (VInt 1))
  = ["limit"; "1"]
  /\ QueryBuilder.filter false
       (QueryBuilder.limit (QueryBuilder.new Person) (VInt 1))
       QueryBuilder.EQUAL QueryBuilder.AND [("age", VInt 30)]
     = (QueryBuilder.Make Person ["limit"; "1"; "age"; "="; "30"], ok tt).
Proof.
  apply (@filter_after_limit_appends false (QueryBuilder.new Person) (VInt 1)
           QueryBuilder.EQUAL QueryBuilder.AND [("age", VInt 30)]
           (class_vars Person)).
  - reflexivity.
  - reflexivity.
  - discriminate.
Defined.

(** C5 (as stated) fails: on a buffer that holds a limit token,
    [filter(age=30)] returns normally, and the limit token is no longer
    the end of the buffer, under either reading of the identity test. *)
Lemma filter_after_limit_does_not_fail :
  Forall (fun interned =>
    In QueryBuilder.LIMIT
      (QueryBuilder.query_tokens
         (QueryBuilder.limit (QueryBuilder.new Person) (VInt 1)))
    /\ QueryBuilder.filter interned
         (QueryBuilder.limit (QueryBuilder.new Person) (VInt 1))
         QueryBuilder.EQUAL QueryBuilder.AND [("age", VInt 30)]
       = (QueryBuilder.Make Person ["limit"; "1"; "age"; "="; "30"], ok tt)
    /\ last ["limit"; "1"; "age"; "="; "30"] "" = "30")
    [true; false].
Proof.
  repeat constructor; now left.
Qed.

(** C6 (as amended): [QueryBuilder.update] does nothing: for every
    builder and every field assignment it returns without an error,
    hands no statement to the connection and leaves the builder, token
    buffer included, as it was. *)
Theorem update_is_a_stub (self : QueryBuilder.t) (kwargs : attrs) :
  QueryBuilder.update self kwargs = (self, Ret tt)
  /\ first_statement (snd (QueryBuilder.update self kwargs)) = None
  /\ QueryBuilder.query_tokens (fst (QueryBuilder.update self kwargs))
     = QueryBuilder.query_tokens self.
Proof.
  repeat split.
Qed.

(** C6 (as stated) fails: [update(bogus=1)] on a Person builder names an
    undeclared field, and [filter] rejects that field, yet [update]
    returns normally and executes nothing, under either reading of the
    identity test. *)
Lemma update_does_not_validate :
  Forall (fun interned =>
    snd (QueryBuilder.filter interned (QueryBuilder.new Person)
           QueryBuilder.EQUAL QueryBuilder.AND [("bogus", VInt 1)])
    = raise (ValueError ("Invalid column " ++ dquote ++ "bogus" ++ dquote))
    /\ snd (QueryBuilder.update (QueryBuilder.new Person) [("bogus", VInt 1)])
       = Ret tt
    /\ first_statement
         (snd (QueryBuilder.update
                 (fst (QueryBuilder.filter interned (QueryBuilder.new Person)
                         QueryBuilder.EQUAL QueryBuilder.AND [("age", VInt 30)]))
                 [("name", VStr "bob")]))
       = None)
    [true; false].
Proof.
  repeat constructor.
Qed.

(** C8 (the code at the failing input): [filter(age=30, bogus=1)] on an
    empty Person builder raises the invalid column error for [bogus], but
    by then the clause of [age] is in the buffer, dangling connective
    included; so it is under either reading of the identity test. *)
Theorem filter_invalid_keeps_earlier_clauses (interned : bool) :
  QueryBuilder.query_tokens (QueryBuilder.new Person) = []
  /\ QueryBuilder.filter interned (QueryBuilder.new Person) QueryBuilder.EQUAL
       QueryBuilder.AND [("age", VInt 30); ("bogus", VInt 1)]
     = (QueryBuilder.Make Person ["age"; "="; "30"; "AND"],
        raise (ValueError ("Invalid column " ++ dquote ++ "bogus" ++ dquote))).
Proof.
  destruct interned; split; reflexivity.
Qed.

(** What [filter] leaves behind in general when a pair is rejected: the
    clauses of the pairs before the first invalid one, nothing stripped. *)
Lemma filter_invalid (interned : bool) (self : QueryBuilder.t) (comparator boolean : string)
    (before after valid : attrs) (key : string) (v : value) :
  QueryBuilder.valid_keyvals interned (class_vars (QueryBuilder.model self)) = ok valid ->
  forallb (fun kv => mem (fst kv) (keys valid)) before = true ->
  mem key (keys valid) = false ->
  QueryBuilder.filter interned self comparator boolean (before ++ (key, v) :: after)%list
  = (QueryBuilder.set_query_tokens self
       (QueryBuilder.query_tokens self ++ clauses comparator boolean before)%list,
     raise (ValueError ("Invalid column " ++ dquote ++ key ++ dquote))).
Proof.
  intros Hvalid Hall Hkey. unfold QueryBuilder.filter.
  rewrite Hvalid. unfold ok at 1.
  now rewrite (@filter_loop_invalid _ comparator boolean before after key v _ Hall Hkey).
Qed.

(** C4 (the code at the failing input): two builders that differ only in
    the value given to [filter] hand different SQL texts to [execute] on
    [delete], each with the value spelled out in the text and no bound
    argument; so it is under either reading of the identity test. *)
Theorem delete_interpolates_filter_values (interned : bool) :
  first_statement
    (snd (QueryBuilder.delete
            (fst (QueryBuilder.filter interned (QueryBuilder.new Person)
                    QueryBuilder.EQUAL QueryBuilder.AND [("age", VInt 30)]))))
  = Some ("delete from Person where age = 30", [])
  /\ first_statement
       (snd (QueryBuilder.delete
               (fst (QueryBuilder.filter interned (QueryBuilder.new Person)
                       QueryBuilder.EQUAL QueryBuilder.AND [("age", VInt 31)]))))
     = Some ("delete from Person where age = 31", []).
Proof.
  destruct interned; split; reflexivity.
Qed.

(** The statement of [QueryBuilder.delete] in general: the tokens of the
    buffer, values included, joined into the text; nothing is bound. *)
Lemma delete_statement (self : QueryBuilder.t) :
  first_statement (snd (QueryBuilder.delete self))
  = Some ("delete from " ++ __name__ (QueryBuilder.model self) ++ " where "
          ++ String.concat " " (QueryBuilder.query_tokens self), []).
Proof. reflexivity. Qed.

(** ** Statements of the repository *)

Lemma keys_filter (f : string -> bool) (d : attrs) :
  keys (List.filter (fun i => f (fst i)) d) = List.filter f (keys d).
Proof.
  induction d as [|[k v] d IH]; simpl; [reflexivity|].
  destruct (f k); simpl; now rewrite IH.
Qed.

Lemma keys_cut_attrs (obj : object) (ks : string) :
  keys (cut_attrs obj ks)
  = List.filter (fun k => negb (contains k ks)) (keys (__dict__ obj)).
Proof. unfold cut_attrs. apply keys_filter with (f := fun k => negb (contains k ks)). Qed.

Lemma question_marks {A : Type} (l : list A) :
  map (fun _ => "?") l = repeat "?" (length l).
Proof. induction l as [|x l IH]; simpl; [reflexivity | now rewrite IH]. Qed.

Lemma length_keys (d : attrs) : length (keys d) = length d.
Proof. apply length_map. Qed.

Lemma length_values (d : attrs) : length (values d) = length d.
Proof. apply length_map. Qed.

(** The lookups by id bind the id and keep it out of the text. *)
Lemma get_statement (self : Manager.t) (id : value) :
  first_statement (Manager.get self id)
  = Some ("select * from " ++ Manager.tablename self ++ " where id = ?", [id]).
Proof. reflexivity. Qed.

(** The insert of [save] holds the column names and one placeholder per
    value; the values travel as bound arguments. *)
Lemma save_statement (self : Manager.t) (obj : object) :
  hasattr obj "id" = false ->
  first_statement (Manager.save self obj)
  = Some ("insert into " ++ Manager.tablename self ++ " ("
          ++ String.concat ", " (keys (cut_attrs obj "id")) ++ ") values ("
          ++ String.concat ", " (repeat "?" (length (cut_attrs obj "id"))) ++ ")",
          values (cut_attrs obj "id")).
Proof.
  intros Hid. unfold Manager.save. rewrite Hid. cbn [bind execute first_statement].
  rewrite question_marks. do 2 f_equal.
  rewrite !append_assoc. reflexivity.
Qed.

(** Two saves of records with the same field names send the same text. *)
Lemma save_text_independent_of_values (self : Manager.t) (o1 o2 : object) :
  hasattr o1 "id" = false -> hasattr o2 "id" = false ->
  keys (__dict__ o1) = keys (__dict__ o2) ->
  option_map fst (first_statement (Manager.save self o1))
  = option_map fst (first_statement (Manager.save self o2)).
Proof.
  intros H1 H2 Hk. rewrite !save_statement by assumption. simpl.
  rewrite <- (length_keys (cut_attrs o1 "id")), <- (length_keys (cut_attrs o2 "id")).
  now rewrite !keys_cut_attrs, Hk.
Qed.

(** ** The engine on the statements of the repository *)

Lemma run_bind {A B : Type} (p : prog A) (f : A -> prog B) (t : Sqlite.table) :
  run (bind p f) t
  = match run p t with
    | Some (t', inr a) => run (f a) t'
    | Some (t', inl e) => Some (t', inl e)
    | None => None
    end.
Proof.
  revert t. induction p as [a | e | sql args k IH]; intros t; simpl; try reflexivity.
  destruct (Sqlite.execute t sql args) as [[t' [e | c]] |]; auto.
Qed.

Lemma ident_char_neq (c d : ascii) :
  Sqlite.ident_char c = true -> Sqlite.ident_char d = false -> Ascii.eqb c d = false.
Proof.
  intros Hc Hd. destruct (Ascii.eqb c d) eqn:E; [|reflexivity].
  apply Ascii.eqb_eq in E. subst. congruence.
Qed.

Lemma identifier_chars (k : string) :
  Sqlite.identifier k = true -> Sqlite.all_chars Sqlite.ident_char k = true.
Proof.
  destruct k as [|c k]; [discriminate|]. unfold Sqlite.identifier.
  intros H. now apply Bool.andb_true_iff in H.
Qed.

Lemma split_on_comma_ident (k : string) :
  Sqlite.all_chars Sqlite.ident_char k = true -> Sqlite.split_on_comma k = [k].
Proof.
  induction k as [|c k IH]; simpl; [reflexivity|].
  intros H. apply Bool.andb_true_iff in H as [Hc Hk].
  rewrite (ident_char_neq c ","%char Hc eq_refl). now rewrite (IH Hk).
Qed.

Lemma split_on_comma_append (k r : string) :
  Sqlite.all_chars Sqlite.ident_char k = true ->
  Sqlite.split_on_comma (k ++ String ","%char r) = k :: Sqlite.split_on_comma r.
Proof.
  induction k as [|c k IH]; simpl; [reflexivity|].
  intros H. apply Bool.andb_true_iff in H as [Hc Hk].
  rewrite (ident_char_neq c ","%char Hc eq_refl). now rewrite (IH Hk).
Qed.

Lemma concat_cons (sep k k' : string) (ks : list string) :
  String.concat sep (k :: k' :: ks) = k ++ sep ++ String.concat sep (k' :: ks).
Proof. reflexivity. Qed.

Lemma split_on_comma_concat (ks : list string) (k : string) :
  forallb Sqlite.identifier (k :: ks) = true ->
  Sqlite.split_on_comma (String.concat ", " (k :: ks))
  = k :: map (String " "%char) ks.
Proof.
  revert k. induction ks as [|k' ks IH]; intros k H.
  - simpl in H. rewrite Bool.andb_true_r in H.
    simpl. now apply split_on_comma_ident, identifier_chars.
  - rewrite concat_cons.
    change (forallb Sqlite.identifier (k :: k' :: ks))
      with (Sqlite.identifier k && forallb Sqlite.identifier (k' :: ks)) in H.
    apply Bool.andb_true_iff in H as [Hk Hks].
    change (", " ++ String.concat ", " (k' :: ks))
      with (String ","%char (String " "%char (String.concat ", " (k' :: ks)))).
    rewrite split_on_comma_append by now apply identifier_chars.
    change (Sqlite.split_on_comma (String " "%char (String.concat ", " (k' :: ks))))
      with (match Sqlite.split_on_comma (String.concat ", " (k' :: ks)) with
            | h :: tl => String " "%char h :: tl
            | [] => [String " "%char EmptyString]
            end).
    now rewrite (IH k' Hks).
Qed.

Lemma strip_space_identifier (k : string) :
  Sqlite.identifier k = true -> Sqlite.strip_space k = k.
Proof.
  intros H. pose proof (identifier_chars k H) as Hc.
  destruct k as [|c k]; [reflexivity|]. simpl in Hc |- *.
  apply Bool.andb_true_iff in Hc as [Hc _].
  now rewrite (ident_char_neq c " "%char Hc eq_refl).
Qed.

Lemma insert_columns_rendered (t : Sqlite.table) (ks : list string) (n : nat) :
  ks <> [] -> forallb Sqlite.identifier ks = true ->
  Sqlite.insert_columns t
    (Sqlite.insert_head t ++ String.concat ", " ks ++ Sqlite.insert_tail n) n
  = ks.
Proof.
  intros Hne Hid. unfold Sqlite.insert_columns.
  rewrite drop_append, length_append, Nat.add_sub, take_append.
  destruct ks as [|k ks]; [now elim Hne|].
  rewrite split_on_comma_concat by assumption.
  simpl in Hid. apply Bool.andb_true_iff in Hid as [Hk Hks].
  simpl. rewrite (strip_space_identifier k Hk). f_equal.
  rewrite map_map. simpl. apply map_id.
Qed.

Lemma combine_keys_values (d : attrs) : combine (keys d) (values d) = d.
Proof.
  induction d as [|[k v] d IH]; simpl; [reflexivity | now rewrite IH].
Qed.

Lemma find_missing_column (cs ks : list string) :
  forallb (fun k => mem k cs) ks = true ->
  List.find (fun c => negb (mem c cs)) ks = None.
Proof.
  induction ks as [|k ks IH]; simpl; [reflexivity|].
  intros H. apply Bool.andb_true_iff in H as [Hk Hks]. now rewrite Hk, (IH Hks).
Qed.

Lemma concat_starts_with_identifier (ks : list string) (rest : string) :
  ks <> [] -> forallb Sqlite.identifier ks = true ->
  exists c s, String.concat ", " ks ++ rest = String c s
              /\ Sqlite.ident_char c = true.
Proof.
  intros Hne Hid. destruct ks as [|k ks]; [now elim Hne|].
  simpl in Hid. apply Bool.andb_true_iff in Hid as [Hk _].
  pose proof (identifier_chars k Hk) as Hc.
  destruct k as [|c k]; [discriminate|].
  simpl in Hc. apply Bool.andb_true_iff in Hc as [Hc _].
  destruct ks; simpl; eauto.
Qed.

Lemma execute_insert (t : Sqlite.table) (given : attrs) :
  Sqlite.identifier (Sqlite.tbl_name t) = true ->
  insertable t given = true ->
  exists vs,
    Sqlite.new_row (Sqlite.columns t) given = Some vs
    /\ Sqlite.execute t
         (Sqlite.insert_head t ++ String.concat ", " (keys given)
          ++ Sqlite.insert_tail (length given))
         (values given)
       = Some (Sqlite.insert_row t vs,
               ok (Cursor [] (VInt (Sqlite.next_id t)))).
Proof.
  intros Ht Hins. unfold insertable in Hins.
  apply Bool.andb_true_iff in Hins as [Hins Hsome].
  apply Bool.andb_true_iff in Hins as [Hins Hnext].
  apply Bool.andb_true_iff in Hins as [Hins Hfit].
  apply Bool.andb_true_iff in Hins as [Hins Hcols].
  apply Bool.andb_true_iff in Hins as [Hins Hdup].
  apply Bool.andb_true_iff in Hins as [Hins Hids].
  apply Bool.negb_true_iff in Hfit.
  destruct (Sqlite.new_row (Sqlite.columns t) given) as [vs|] eqn:Hrow;
    [|discriminate].
  exists vs. split; [reflexivity|].
  assert (Hne : keys given <> []) by (destruct given; [discriminate | discriminate]).
  unfold Sqlite.execute. rewrite Ht. cbn [negb].
  unfold Sqlite.insert_head at 1 2 3 4.
  cbn [String.append String.eqb Ascii.eqb Bool.eqb andb].
  rewrite eqb_append_l.
  destruct (@concat_starts_with_identifier (keys given)
              (Sqlite.insert_tail (length given)) Hne Hids) as (c & s & Hcs & Hc).
  rewrite Hcs. cbn [Sqlite.insert_tail repeat String.concat String.append String.eqb].
  rewrite (ident_char_neq c ")"%char Hc eq_refl).
  rewrite <- Hcs, prefix_append.
  unfold Sqlite.insert. rewrite length_values.
  rewrite insert_columns_rendered by assumption.
  rewrite String.eqb_refl, length_keys, Nat.eqb_refl.
  rewrite Hids, Hdup.
  cbn [negb orb andb].
  rewrite find_missing_column by assumption.
  rewrite Hfit, Hnext. cbn [negb].
  now rewrite combine_keys_values, Hrow.
Qed.

Lemma execute_select_id (t : Sqlite.table) (i : Z) :
  Sqlite.identifier (Sqlite.tbl_name t) = true ->
  Sqlite.execute t ("select id from " ++ Sqlite.tbl_name t ++ " where id = ?") [VInt i]
  = Some (t,
          if Sqlite.int64 i
          then ok (Cursor (map Sqlite.id_attrs
                             (List.filter (fun r => Z.eqb (fst r) i) (Sqlite.rows t)))
                          VNone)
          else raise Sqlite.overflow).
Proof.
  intros Ht. unfold Sqlite.execute. rewrite Ht, String.eqb_refl.
  cbn [negb Sqlite.too_large Sqlite.where_id].
  now destruct (Sqlite.int64 i).
Qed.

Lemma execute_select_row (t : Sqlite.table) (i : Z) :
  Sqlite.identifier (Sqlite.tbl_name t) = true ->
  Sqlite.execute t ("select * from " ++ Sqlite.tbl_name t ++ " where id = ?") [VInt i]
  = Some (t,
          if Sqlite.int64 i
          then ok (Cursor (map (Sqlite.row_attrs t)
                             (List.filter (fun r => Z.eqb (fst r) i) (Sqlite.rows t)))
                          VNone)
          else raise Sqlite.overflow).
Proof.
  intros Ht. unfold Sqlite.execute. rewrite Ht. cbn [negb].
  cbn [String.append String.eqb Ascii.eqb Bool.eqb andb].
  rewrite String.eqb_refl.
  cbn [negb Sqlite.too_large Sqlite.where_id].
  now destruct (Sqlite.int64 i).
Qed.

Lemma in_ids (t : Sqlite.table) (i : Z) :
  In i (Sqlite.ids t) <-> In i (map fst (Sqlite.rows t)) /\ Sqlite.int64 i = true.
Proof. unfold Sqlite.ids. apply filter_In. Qed.

Lemma existsb_filter_id (rs : list (Z * list value)) (i : Z) :
  Sqlite.int64 i = true ->
  match map Sqlite.id_attrs (List.filter (fun r => Z.eqb (fst r) i) rs) with
  | [] => false
  | _ :: _ => true
  end
  = existsb (Z.eqb i) (List.filter Sqlite.int64 (map fst rs)).
Proof.
  intros Hi. induction rs as [|r rs IH]; simpl; [reflexivity|].
  destruct (Z.eqb_spec (fst r) i) as [E|E].
  - rewrite E, Hi. simpl. now rewrite Z.eqb_refl.
  - destruct (Sqlite.int64 (fst r)); simpl; [|exact IH].
    rewrite (Z.eqb_sym i). destruct (Z.eqb_spec (fst r) i); [contradiction | exact IH].
Qed.

Lemma filter_id_nil (rs : list (Z * list value)) (i : Z) :
  ~ In i (map fst rs) -> List.filter (fun r => Z.eqb (fst r) i) rs = [].
Proof.
  induction rs as [|r rs IH]; simpl; [reflexivity|]. intros H.
  destruct (Z.eqb_spec (fst r) i) as [E|E]; [now elim H; left|].
  apply IH. intros Hin. apply H. now right.
Qed.

Lemma filter_id_cons (rs : list (Z * list value)) (i : Z) :
  In i (map fst rs) ->
  exists r rs', List.filter (fun r => Z.eqb (fst r) i) rs = r :: rs'.
Proof.
  induction rs as [|r rs IH]; simpl; [now intros []|]. intros H.
  destruct (Z.eqb_spec (fst r) i) as [E|E]; [eauto|].
  destruct H as [H|H]; [now elim E | now apply IH].
Qed.

Lemma run_has (self : Manager.t) (t : Sqlite.table) (i : Z) :
  Sqlite.identifier (Sqlite.tbl_name t) = true ->
  Manager.tablename self = Sqlite.tbl_name t ->
  Sqlite.int64 i = true ->
  run (Manager.has self (VInt i)) t
  = Some (t, ok (existsb (Z.eqb i) (Sqlite.ids t))).
Proof.
  intros Ht Hname Hi. unfold Manager.has. rewrite Hname.
  cbn [bind execute run]. rewrite execute_select_id by assumption.
  rewrite Hi. unfold ok at 1.
  cbn [run fetchall]. do 3 f_equal. unfold Sqlite.ids.
  now apply existsb_filter_id.
Qed.

(** A lookup with an id outside 64 bits raises before the engine sees it. *)
Lemma run_has_overflow (self : Manager.t) (t : Sqlite.table) (i : Z) :
  Sqlite.identifier (Sqlite.tbl_name t) = true ->
  Manager.tablename self = Sqlite.tbl_name t ->
  Sqlite.int64 i = false ->
  run (Manager.has self (VInt i)) t = Some (t, raise Sqlite.overflow).
Proof.
  intros Ht Hname Hi. unfold Manager.has. rewrite Hname.
  cbn [bind execute run]. rewrite execute_select_id by assumption.
  now rewrite Hi.
Qed.

Lemma existsb_ids (l : list Z) (i : Z) : existsb (Z.eqb i) l = true <-> In i l.
Proof.
  rewrite existsb_exists. split.
  - intros (x & Hin & E). apply Z.eqb_eq in E. now subst.
  - intros Hin. exists i. split; [assumption | apply Z.eqb_refl].
Qed.

Lemma lookup_mem (k : string) (d : attrs) (v : value) :
  lookup k d = Some v -> mem k (keys d) = true.
Proof.
  induction d as [|[k' w] d IH]; simpl; [discriminate|].
  destruct (String.eqb k k'); [reflexivity | exact IH].
Qed.

Lemma getattr_hasattr (obj : object) (name : string) (v : value) :
  getattr obj name = Some v -> hasattr obj name = true.
Proof.
  unfold getattr, hasattr. intros H.
  destruct (lookup name (__dict__ obj)) as [w|] eqn:E.
  - now rewrite (lookup_mem _ _ E).
  - rewrite (lookup_mem _ _ H). apply Bool.orb_true_r.
Qed.

(** C2: when the record's id is set and a row of the table has that id,
    [save] raises the duplicate id error (a ValueError naming the class
    and the id) and leaves the table exactly as it was. *)
Theorem save_duplicate_id (self : Manager.t) (t : Sqlite.table)
    (obj : object) (i : Z) :
  Sqlite.identifier (Sqlite.tbl_name t) = true ->
  Manager.tablename self = Sqlite.tbl_name t ->
  getattr obj "id" = Some (VInt i) ->
  In i (Sqlite.ids t) ->
  run (Manager.save self obj) t
  = Some (t, raise (ValueError ("Object" ++ str_model (Manager.model self)
                                ++ " id already registred: " ++ str (VInt i)))).
Proof.
  intros Ht Hname Hid Hin. unfold Manager.save.
  rewrite (getattr_hasattr _ _ Hid). unfold Manager.obj_id. rewrite Hid.
  rewrite run_bind. cbn [bind].
  rewrite run_has by (try assumption; now apply in_ids in Hin).
  apply existsb_ids in Hin. rewrite Hin. reflexivity.
Qed.

Lemma save_duplicate_id_witness :
  run (Manager.save (Manager.new Person)
         (Object Person [("name", VStr "bob"); ("age", VInt 30); ("id", VInt 1)]))
      (person_table [(1%Z, [VStr "ann"; VInt 41])] 1)
  = Some (person_table [(1%Z, [VStr "ann"; VInt 41])] 1,
          raise (ValueError "Object<class '__main__.Person'> id already registred: 1")).
Proof.
  apply (@save_duplicate_id (Manager.new Person)
           (person_table [(1%Z, [VStr "ann"; VInt 41])] 1)
           (Object Person [("name", VStr "bob"); ("age", VInt 30); ("id", VInt 1)])
           1%Z).
  - reflexivity.
  - reflexivity.
  - reflexivity.
  - simpl. now left.
Defined.

Lemma save_sql (name : string) (ks : list string) (n : nat) (t : Sqlite.table) :
  name = Sqlite.tbl_name t ->
  "insert into " ++ name ++ " " ++ ("(" ++ String.concat ", " ks ++ ")")
  ++ " values " ++ ("(" ++ String.concat ", " (repeat "?" n) ++ ")")
  = Sqlite.insert_head t ++ String.concat ", " ks ++ Sqlite.insert_tail n.
Proof.
  intros ->. unfold Sqlite.insert_head, Sqlite.insert_tail.
  rewrite !append_assoc. reflexivity.
Qed.

Lemma run_save_insert (self : Manager.t) (t : Sqlite.table) (obj : object) :
  Sqlite.identifier (Sqlite.tbl_name t) = true ->
  Manager.tablename self = Sqlite.tbl_name t ->
  hasattr obj "id" = false
  \/ (exists i, getattr obj "id" = Some (VInt i) /\ Sqlite.int64 i = true
                /\ ~ In i (Sqlite.ids t)) ->
  insertable t (cut_attrs obj "id") = true ->
  exists vs,
    Sqlite.new_row (Sqlite.columns t) (cut_attrs obj "id") = Some vs
    /\ run (Manager.save self obj) t
       = Some (Sqlite.insert_row t vs,
               ok (setattr obj "id" (VInt (Sqlite.next_id t)))).
Proof.
  intros Ht Hname Hid Hins.
  destruct (execute_insert t (cut_attrs obj "id") Ht Hins) as (vs & Hrow & Hexec).
  exists vs. split; [assumption|].
  unfold Manager.save. rewrite run_bind.
  assert (Hreg : run (if hasattr obj "id"
                      then bind (Manager.obj_id obj) (fun id => Manager.has self id)
                      else Ret false) t = Some (t, ok false)).
  { destruct Hid as [Hno | (i & Hget & Hi & Hnot)].
    - now rewrite Hno.
    - rewrite (getattr_hasattr _ _ Hget). unfold Manager.obj_id. rewrite Hget.
      cbn [bind]. rewrite run_has by assumption. do 3 f_equal.
      destruct (existsb (Z.eqb i) (Sqlite.ids t)) eqn:E; [|reflexivity].
      apply existsb_ids in E. contradiction. }
  rewrite Hreg. unfold ok at 1. cbn [bind execute run].
  rewrite question_marks, (save_sql _ _ t Hname), Hexec.
  reflexivity.
Qed.

Lemma le_max_id (l : list Z) (x : Z) : In x l -> (x <= fold_right Z.max 0 l)%Z.
Proof.
  induction l as [|y l IH]; simpl; [now intros []|].
  intros [-> | H]; [lia | specialize (IH H); lia].
Qed.

Lemma next_id_fresh (t : Sqlite.table) : ~ In (Sqlite.next_id t) (Sqlite.ids t).
Proof.
  intros H. apply le_max_id in H. unfold Sqlite.next_id, Sqlite.max_id in H. lia.
Qed.

Lemma next_id_positive (t : Sqlite.table) : (0 < Sqlite.next_id t)%Z.
Proof.
  unfold Sqlite.next_id, Sqlite.max_id.
  assert (0 <= fold_right Z.max 0 (Sqlite.ids t))%Z.
  { induction (Sqlite.ids t); simpl; lia. }
  lia.
Qed.

Lemma next_id_above_seq (t : Sqlite.table) : (Sqlite.seq t < Sqlite.next_id t)%Z.
Proof. unfold Sqlite.next_id. lia. Qed.

Lemma lookup_store (k : string) (v : value) (d : attrs) :
  lookup k (store k v d) = Some v.
Proof.
  induction d as [|[k' w] d IH]; simpl.
  - now rewrite String.eqb_refl.
  - destruct (String.eqb k k') eqn:E; simpl.
    + now rewrite String.eqb_refl.
    + now rewrite E.
Qed.

Lemma getattr_setattr (obj : object) (name : string) (v : value) :
  getattr (setattr obj name v) name = Some v.
Proof. unfold getattr, setattr. simpl. now rewrite lookup_store. Qed.

Lemma in_cut_attrs (obj : object) (k : string) (v : value) :
  In (k, v) (cut_attrs obj "id") ->
  In (k, v) (__dict__ obj) /\ k <> "id".
Proof.
  unfold cut_attrs. intros H. apply filter_In in H as [Hin Hk].
  split; [assumption|]. intros ->. discriminate Hk.
Qed.

Lemma lookup_not_in (k : string) (d : attrs) :
  (forall v, ~ In (k, v) d) -> lookup k d = None.
Proof.
  induction d as [|[k' w] d IH]; simpl; [reflexivity|]. intros H.
  destruct (String.eqb_spec k k') as [->|E].
  - elim (H w). now left.
  - apply IH. intros v Hin. apply (H v). now right.
Qed.

(** When the record's id is set but no row has it, [save] does not
    insert that id.  The statement it executes names only fields of the
    record other than [id], with their values; the row it adds gets the
    id the storage generates, which no row had; and the record's [id]
    attribute is overwritten with that generated id. *)
Lemma save_unregistered_id (self : Manager.t) (t : Sqlite.table)
    (obj : object) (i : Z) :
  Sqlite.identifier (Sqlite.tbl_name t) = true ->
  Manager.tablename self = Sqlite.tbl_name t ->
  getattr obj "id" = Some (VInt i) ->
  Sqlite.int64 i = true ->
  ~ In i (Sqlite.ids t) ->
  insertable t (cut_attrs obj "id") = true ->
  exists vs,
    Sqlite.new_row (Sqlite.columns t) (cut_attrs obj "id") = Some vs
    /\ lookup "id" (cut_attrs obj "id") = None
    /\ (forall k v, In (k, v) (cut_attrs obj "id") ->
                    In (k, v) (__dict__ obj) /\ k <> "id")
    /\ run (Manager.save self obj) t
       = Some (Sqlite.insert_row t vs,
               ok (setattr obj "id" (VInt (Sqlite.next_id t))))
    /\ Sqlite.rows (Sqlite.insert_row t vs)
       = (Sqlite.rows t ++ [(Sqlite.next_id t, vs)])%list
    /\ ~ In (Sqlite.next_id t) (Sqlite.ids t)
    /\ getattr (setattr obj "id" (VInt (Sqlite.next_id t))) "id"
       = Some (VInt (Sqlite.next_id t)).
Proof.
  intros Ht Hname Hget Hi Hnot Hins.
  destruct (@run_save_insert self t obj Ht Hname) as (vs & Hrow & Hrun);
    [right; eauto | assumption |].
  exists vs. repeat split; try assumption.
  - apply lookup_not_in. intros v Hin. now apply in_cut_attrs in Hin.
  - now apply in_cut_attrs in H.
  - now apply in_cut_attrs in H.
  - apply next_id_fresh.
  - apply getattr_setattr.
Qed.

(** C10 (the code at the failing input): a Point record with the preset
    id 7, [name = 'a'] and [d = 5] is saved into an empty Point table,
    where no row has the id 7.  Its fields other than [id] are [name] and
    [d], but [cut_attrs(obj, 'id')] keeps [name] alone: the name [d]
    occurs in the string ['id'].  After the lookup of the id, [save]
    sends an insert that names only [name]; the new row holds NULL for
    [d], and gets the generated id 1, which replaces 7 on the record.
    Read back, the row has [d = None], not 5. *)
Theorem save_unregistered_id_loses_field :
  ~ In 7%Z (Sqlite.ids (point_table [] 0))
  /\ non_id_fields
       (Object Point [("id", VInt 7); ("name", VStr "a"); ("d", VInt 5)])
     = ["name"; "d"]
  /\ cut_attrs (Object Point [("id", VInt 7); ("name", VStr "a"); ("d", VInt 5)])
       "id"
     = [("name", VStr "a")]
  /\ requests (fun _ => Cursor [] (VInt 1))
       (lift (Manager.save (Manager.new Point)
                (Object Point [("id", VInt 7); ("name", VStr "a"); ("d", VInt 5)])))
       []
     = ([Statement "select id from Point where id = ?" [VInt 7];
         Statement "insert into Point (name) values (?)" [VStr "a"]],
        ok (Object Point [("id", VInt 1); ("name", VStr "a"); ("d", VInt 5)]))
  /\ run (Manager.save (Manager.new Point)
            (Object Point [("id", VInt 7); ("name", VStr "a"); ("d", VInt 5)]))
         (point_table [] 0)
     = Some (point_table [(1%Z, [VStr "a"; VNone])] 1,
             ok (Object Point [("id", VInt 1); ("name", VStr "a"); ("d", VInt 5)]))
  /\ run (Manager.get (Manager.new Point) (VInt 1))
         (point_table [(1%Z, [VStr "a"; VNone])] 1)
     = Some (point_table [(1%Z, [VStr "a"; VNone])] 1,
             ok (Object Point [("id", VInt 1); ("name", VStr "a"); ("d", VNone)])).
Proof.
  split; [intros []|]. repeat split.
Qed.

(** The same run, evaluated: the preset id 7 is not stored; the new row
    and the record get the generated id 2. *)
Example save_unregistered_id_example :
  run (Manager.save (Manager.new Person)
         (Object Person [("id", VInt 7); ("name", VStr "bob"); ("age", VInt 30)]))
      (person_table [(1%Z, [VStr "ann"; VInt 41])] 1)
  = Some (person_table [(1%Z, [VStr "ann"; VInt 41]); (2%Z, [VStr "bob"; VInt 30])] 2,
          ok (Object Person [("id", VInt 2); ("name", VStr "bob"); ("age", VInt 30)])).
Proof. reflexivity. Qed.

(** C1 (the code at the failing input): a Point record with the fields
    [name] and [d] and no id is saved into an empty Point table and read
    back by the id it was given.  The id is 1, but [cut_attrs] has dropped
    the field [d], whose name occurs in the string ['id']: the insert
    names only [name], and the record read back has [d = None], not 5. *)
Theorem save_then_get_loses_field :
  hasattr (Object Point [("name", VStr "a"); ("d", VInt 5)]) "id" = false
  /\ first_statement
       (Manager.save (Manager.new Point)
          (Object Point [("name", VStr "a"); ("d", VInt 5)]))
     = Some ("insert into Point (name) values (?)", [VStr "a"])
  /\ run (saved <- Manager.save (Manager.new Point)
                     (Object Point [("name", VStr "a"); ("d", VInt 5)]) ;;
          id <- Manager.obj_id saved ;;
          Manager.get (Manager.new Point) id)
         (point_table [] 0)
     = Some (point_table [(1%Z, [VStr "a"; VNone])] 1,
             ok (Object Point [("id", VInt 1); ("name", VStr "a"); ("d", VNone)])).
Proof.
  repeat split.
Qed.

(** ** The fields of a record *)

Lemma returns_ret_inv {A : Type} (a b : A) : returns (Ret a) b -> a = b.
Proof. intros H. now inversion H. Qed.

Lemma returns_raise_inv {A : Type} (e : exn) (b : A) : ~ returns (Raise e) b.
Proof. intros H. inversion H. Qed.

Lemma returns_execute_inv {A : Type} (sql : string) (args : list value)
    (k : cursor -> prog A) (b : A) :
  returns (Execute sql args k) b -> exists c, returns (k c) b.
Proof. intros H. inversion H; subst. eauto. Qed.

Lemma returns_bind {A B : Type} (p : prog A) (f : A -> prog B) (b : B) :
  returns (bind p f) b -> exists a, returns p a /\ returns (f a) b.
Proof.
  induction p as [a | e | sql args k IH]; simpl; intros H.
  - exists a. split; [constructor | assumption].
  - now apply returns_raise_inv in H.
  - apply returns_execute_inv in H as (c & Hc).
    destruct (IH c Hc) as (a & Ha & Hb).
    exists a. split; [econstructor; eassumption | assumption].
Qed.

(** What the engine model computes is among the values [returns] allows. *)
Lemma run_returns {A : Type} (p : prog A) (t t' : Sqlite.table) (a : A) :
  run p t = Some (t', ok a) -> returns p a.
Proof.
  revert t. induction p as [x | e | sql args k IH]; simpl; intros t H.
  - injection H as _ ->. constructor.
  - discriminate.
  - destruct (Sqlite.execute t sql args) as [[t1 [e | c]] |]; try discriminate.
    econstructor. eapply IH. eassumption.
Qed.

Lemma non_id_store (v : value) (d : attrs) :
  List.filter (fun k => negb (String.eqb k "id")) (keys (store "id" v d))
  = List.filter (fun k => negb (String.eqb k "id")) (keys d).
Proof.
  induction d as [|[k w] d IH]; [reflexivity|].
  cbn [store]. destruct (String.eqb_spec "id" k) as [<-|E]; [reflexivity|].
  unfold keys in *. cbn [map fst List.filter]. now rewrite IH.
Qed.

Lemma save_returns (self : Manager.t) (obj obj' : object) :
  returns (Manager.save self obj) obj' -> exists v, obj' = setattr obj "id" v.
Proof.
  unfold Manager.save. intros H.
  apply returns_bind in H as (registered & _ & H).
  destruct registered.
  - apply returns_bind in H as (id & _ & H). now apply returns_raise_inv in H.
  - cbn [bind execute] in H. apply returns_execute_inv in H as (c & H).
    apply returns_ret_inv in H. eauto.
Qed.

(** ** Saving and reading back *)

Lemma not_in_ids (t : Sqlite.table) (i : Z) :
  Sqlite.int64 i = true -> ~ In i (Sqlite.ids t) ->
  ~ In i (map fst (Sqlite.rows t)).
Proof. intros Hi Hnot Hin. apply Hnot, in_ids. now split. Qed.

Lemma filter_new_row (t : Sqlite.table) (vs : list value) :
  Sqlite.int64 (Sqlite.next_id t) = true ->
  List.filter (fun r => Z.eqb (fst r) (Sqlite.next_id t))
    (Sqlite.rows t ++ [(Sqlite.next_id t, vs)])%list
  = [(Sqlite.next_id t, vs)].
Proof.
  intros Hi.
  rewrite filter_app, filter_id_nil
    by (apply not_in_ids; [assumption | apply next_id_fresh]).
  simpl. now rewrite Z.eqb_refl.
Qed.

Lemma mem_keys_combine (k : string) (cs : list string) (vs : list value) :
  mem k cs = false -> mem k (keys (combine cs vs)) = false.
Proof.
  revert vs. induction cs as [|c cs IH]; intros vs H; [reflexivity|].
  destruct vs as [|v vs]; [reflexivity|]. simpl in *.
  destruct (String.eqb k c); [discriminate | now apply IH].
Qed.

(** The row of a table without a column named [self] can be unpacked
    into the keyword arguments of [create]. *)
Lemma call_create_row (self : Manager.t) (t : Sqlite.table)
    (r : Z * list value) :
  mem "self" (map fst (Sqlite.columns t)) = false ->
  Manager.call_create self (Sqlite.row_attrs t r)
  = Ret (Manager.create self (Sqlite.row_attrs t r)).
Proof.
  intros Hself. unfold Manager.call_create, Sqlite.row_attrs.
  replace (mem "self" (keys (("id", VInt (fst r))
                             :: combine (map fst (Sqlite.columns t)) (snd r))))
    with (mem "self" (keys (combine (map fst (Sqlite.columns t)) (snd r))))
    by reflexivity.
  now rewrite mem_keys_combine.
Qed.

Lemma run_get_new_row (self : Manager.t) (t : Sqlite.table) (vs : list value) :
  Sqlite.identifier (Sqlite.tbl_name t) = true ->
  Manager.tablename self = Sqlite.tbl_name t ->
  Sqlite.int64 (Sqlite.next_id t) = true ->
  mem "self" (map fst (Sqlite.columns t)) = false ->
  run (Manager.get self (VInt (Sqlite.next_id t))) (Sqlite.insert_row t vs)
  = Some (Sqlite.insert_row t vs,
          ok (Manager.create self (Sqlite.row_attrs t (Sqlite.next_id t, vs)))).
Proof.
  intros Ht Hname Hi Hself. unfold Manager.get. rewrite Hname.
  cbn [bind execute run].
  change (Sqlite.tbl_name t) with (Sqlite.tbl_name (Sqlite.insert_row t vs)) at 1.
  rewrite execute_select_row by exact Ht.
  rewrite Hi. unfold ok at 1.
  cbn [Sqlite.insert_row Sqlite.rows]. rewrite filter_new_row by assumption.
  cbn [map fetchone fetchall hd_error].
  change (Sqlite.row_attrs (Sqlite.insert_row t vs) (Sqlite.next_id t, vs))
    with (Sqlite.row_attrs t (Sqlite.next_id t, vs)).
  now rewrite call_create_row.
Qed.

Lemma insertable_next_id (t : Sqlite.table) (given : attrs) :
  insertable t given = true -> Sqlite.int64 (Sqlite.next_id t) = true.
Proof.
  unfold insertable. intros H.
  apply Bool.andb_true_iff in H as [H _].
  now apply Bool.andb_true_iff in H as [_ H].
Qed.

(** A record without an id that the table takes is stored under the next
    id, a positive integer above every id handed out before, and [get]
    with that id returns the stored row. *)
Lemma save_then_get (self : Manager.t) (t : Sqlite.table) (obj : object) :
  Sqlite.identifier (Sqlite.tbl_name t) = true ->
  Manager.tablename self = Sqlite.tbl_name t ->
  mem "self" (map fst (Sqlite.columns t)) = false ->
  hasattr obj "id" = false ->
  insertable t (cut_attrs obj "id") = true ->
  exists vs,
    Sqlite.new_row (Sqlite.columns t) (cut_attrs obj "id") = Some vs
    /\ run (saved <- Manager.save self obj ;;
            id <- Manager.obj_id saved ;;
            Manager.get self id) t
       = Some (Sqlite.insert_row t vs,
               ok (Manager.create self (Sqlite.row_attrs t (Sqlite.next_id t, vs))))
    /\ (0 < Sqlite.next_id t)%Z
    /\ (Sqlite.seq t < Sqlite.next_id t)%Z
    /\ ~ In (Sqlite.next_id t) (Sqlite.ids t).
Proof.
  intros Ht Hname Hself Hid Hins.
  destruct (@run_save_insert self t obj Ht Hname (or_introl Hid) Hins)
    as (vs & Hrow & Hrun).
  exists vs. split; [assumption|]. split.
  - rewrite run_bind, Hrun. unfold ok at 1.
    unfold Manager.obj_id. rewrite getattr_setattr. cbn [bind].
    apply run_get_new_row; try assumption.
    now apply insertable_next_id in Hins.
  - split; [apply next_id_positive|].
    split; [apply next_id_above_seq | apply next_id_fresh].
Qed.

Lemma new_row_lookup (cols : list (string * string)) (given : attrs)
    (vs : list value) (k ty : string) :
  Sqlite.new_row cols given = Some vs ->
  Sqlite.column_type k cols = Some ty ->
  lookup k (combine (map fst cols) vs)
  = match lookup k given with
    | Some v => Sqlite.stored ty v
    | None => Some VNone
    end.
Proof.
  revert vs. induction cols as [|[c ty'] cols IH]; intros vs Hrow Hty; simpl in *.
  - discriminate.
  - destruct (match lookup c given with
              | Some v => Sqlite.stored ty' v
              | None => Some VNone
              end) as [w|] eqn:Hw; [|discriminate].
    destruct (Sqlite.new_row cols given) as [ws|]; [|discriminate].
    injection Hrow as <-. simpl.
    destruct (String.eqb_spec k c) as [->|E].
    + injection Hty as <-. now rewrite <- Hw.
    + now apply IH.
Qed.

(** The record read back agrees with the saved one on every field that
    [cut_attrs] kept, whose column is declared with the type of the
    value. *)
Lemma save_then_get_field (self : Manager.t) (t : Sqlite.table) (obj : object)
    (vs : list value) (k ty : string) (v : value) :
  Sqlite.new_row (Sqlite.columns t) (cut_attrs obj "id") = Some vs ->
  lookup k (cut_attrs obj "id") = Some v ->
  Sqlite.column_type k (Sqlite.columns t) = Some ty ->
  Sqlite.stored ty v = Some v ->
  k <> "id" ->
  getattr (Manager.create self (Sqlite.row_attrs t (Sqlite.next_id t, vs))) k
  = Some v.
Proof.
  intros Hrow Hk Hty Hst Hne. unfold getattr, Manager.create, Sqlite.row_attrs.
  cbn [__dict__ lookup fst snd].
  destruct (String.eqb_spec k "id") as [E|_]; [contradiction|].
  rewrite (@new_row_lookup _ _ _ _ _ Hrow Hty). now rewrite Hk, Hst.
Qed.

(** A field whose name occurs in ['id'] is not kept: [cut_attrs] drops
    it, so the statement of [save] does not name it. *)
Lemma cut_attrs_drops_substrings (obj : object) (k : string) :
  contains k "id" = true -> lookup k (cut_attrs obj "id") = None.
Proof.
  intros Hk. apply lookup_not_in. intros v Hin.
  unfold cut_attrs in Hin. apply filter_In in Hin as [_ Hkeep].
  cbn [fst] in Hkeep. rewrite Hk in Hkeep. discriminate Hkeep.
Qed.

Lemma contains_id :
  contains "" "id" = true /\ contains "i" "id" = true
  /\ contains "d" "id" = true /\ contains "id" "id" = true.
Proof. repeat split. Qed.

(** ** Ids are handed out in increasing order *)

Lemma insert_seq (t t' : Sqlite.table) (sql : string) (args : list value)
    (r : result cursor) :
  Sqlite.insert t sql args = Some (t', r) -> (Sqlite.seq t <= Sqlite.seq t')%Z.
Proof.
  unfold Sqlite.insert. intros H.
  repeat match type of H with
         | (if ?b then _ else _) = _ => destruct b; try discriminate
         | match ?x with _ => _ end = _ => destruct x; try discriminate
         end;
    injection H as <- _; simpl; try lia.
  pose proof (next_id_above_seq t). lia.
Qed.

Lemma execute_seq (t t' : Sqlite.table) (sql : string) (args : list value)
    (r : result cursor) :
  Sqlite.execute t sql args = Some (t', r) -> (Sqlite.seq t <= Sqlite.seq t')%Z.
Proof.
  unfold Sqlite.execute. intros H.
  repeat match type of H with
         | (if ?b then _ else _) = _ => destruct b; try discriminate
         | match ?x with _ => _ end = _ => destruct x; try discriminate
         end;
    try (injection H as <- _; simpl; lia).
  now apply insert_seq in H.
Qed.

Lemma run_seq {A : Type} (p : prog A) (t t' : Sqlite.table) (r : result A) :
  run p t = Some (t', r) -> (Sqlite.seq t <= Sqlite.seq t')%Z.
Proof.
  revert t. induction p as [a | e | sql args k IH]; simpl; intros t H.
  - injection H as <- _. lia.
  - injection H as <- _. lia.
  - destruct (Sqlite.execute t sql args) as [[t1 [e | c]] |] eqn:E;
      try discriminate.
    + injection H as <- _. now apply execute_seq in E.
    + apply execute_seq in E. apply IH in H. lia.
Qed.

(** Whatever program of lookups, inserts and deletes runs on the table
    between two successful saves of records without id, the second save
    is given a larger id than the first: in the table model an id is not
    handed out twice. *)
Lemma later_save_gets_new_id {A : Type} (self : Manager.t)
    (t t1 t2 t3 : Sqlite.table) (o1 o2 o1' o2' : object) (between : prog A)
    (r : result A) :
  Sqlite.identifier (Sqlite.tbl_name t) = true ->
  Manager.tablename self = Sqlite.tbl_name t ->
  hasattr o1 "id" = false -> insertable t (cut_attrs o1 "id") = true ->
  run (Manager.save self o1) t = Some (t1, ok o1') ->
  run between t1 = Some (t2, r) ->
  Sqlite.tbl_name t2 = Sqlite.tbl_name t ->
  hasattr o2 "id" = false -> insertable t2 (cut_attrs o2 "id") = true ->
  run (Manager.save self o2) t2 = Some (t3, ok o2') ->
  exists i1 i2,
    getattr o1' "id" = Some (VInt i1) /\ getattr o2' "id" = Some (VInt i2)
    /\ (0 < i1 < i2)%Z.
Proof.
  intros Ht Hname H1 Hins1 Hrun1 Hbetween Ht2 H2 Hins2 Hrun2.
  destruct (@run_save_insert self t o1 Ht Hname (or_introl H1) Hins1)
    as (vs1 & _ & E1).
  rewrite E1 in Hrun1. injection Hrun1 as <- <-.
  assert (Ht2' : Sqlite.identifier (Sqlite.tbl_name t2) = true) by now rewrite Ht2.
  assert (Hname2 : Manager.tablename self = Sqlite.tbl_name t2) by now rewrite Ht2.
  destruct (@run_save_insert self t2 o2 Ht2' Hname2 (or_introl H2) Hins2)
    as (vs2 & _ & E2).
  rewrite E2 in Hrun2. injection Hrun2 as <- <-.
  exists (Sqlite.next_id t), (Sqlite.next_id t2).
  rewrite !getattr_setattr. repeat split.
  - apply next_id_positive.
  - apply run_seq in Hbetween. simpl in Hbetween.
    pose proof (next_id_above_seq t2). lia.
Qed.

(** * Further properties of the code *)

(** ** [cut_attrs] *)

Lemma contains_id_iff (k : string) :
  contains k "id" = true <-> k = "" \/ k = "i" \/ k = "d" \/ k = "id".
Proof.
  split.
  - destruct k as [|c1 [|c2 [|c3 k]]]; simpl.
    + auto.
    + destruct (ascii_dec c1 "i") as [->|_]; [auto|].
      destruct (ascii_dec c1 "d") as [->|_]; [auto | discriminate].
    + destruct (ascii_dec c1 "i") as [->|_].
      * destruct (ascii_dec c2 "d") as [->|_]; [auto|].
        simpl. destruct (ascii_dec "i" "d"); discriminate.
      * simpl. destruct (ascii_dec c1 "d"); discriminate.
    + destruct (ascii_dec c1 "i") as [->|_].
      * destruct (ascii_dec c2 "d") as [->|_]; simpl;
          destruct (ascii_dec "i" "d"); discriminate.
      * simpl. destruct (ascii_dec c1 "d"); discriminate.
  - intros [-> | [-> | [-> | ->]]]; reflexivity.
Qed.

(** [cut_attrs(obj, 'id')] keeps, in their order, exactly the attributes
    of the instance whose name is none of the four substrings of ['id']:
    the empty name, [i], [d] and [id]. *)
Theorem cut_attrs_id (obj : object) :
  cut_attrs obj "id"
  = List.filter (fun i => negb (mem (fst i) [""; "i"; "d"; "id"])) (__dict__ obj)
  /\ forall k v,
       In (k, v) (cut_attrs obj "id")
       <-> In (k, v) (__dict__ obj)
           /\ k <> "" /\ k <> "i" /\ k <> "d" /\ k <> "id".
Proof.
  assert (E : forall k, contains k "id" = mem k [""; "i"; "d"; "id"]).
  { intros k. destruct (contains k "id") eqn:C.
    - apply contains_id_iff in C. symmetry.
      destruct C as [-> | [-> | [-> | ->]]]; reflexivity.
    - symmetry. destruct (mem k [""; "i"; "d"; "id"]) eqn:M; [|reflexivity].
      unfold mem in M. apply existsb_exists in M as (x & Hin & Hx).
      apply String.eqb_eq in Hx. subst x.
      assert (contains k "id" = true) by (apply contains_id_iff; simpl in Hin; intuition auto).
      congruence. }
  split.
  - unfold cut_attrs. apply filter_ext. intros [k v]. simpl fst. now rewrite E.
  - intros k v. unfold cut_attrs. rewrite filter_In. simpl fst.
    split.
    + intros [Hin Hk]. split; [assumption|].
      destruct (contains k "id") eqn:C; [discriminate|].
      repeat split; intros ->; discriminate C.
    + intros (Hin & H1 & H2 & H3 & H4). split; [assumption|].
      destruct (contains k "id") eqn:C; [|reflexivity].
      apply contains_id_iff in C. intuition auto.
Qed.

(** ** [render_schema] on any class *)

(** On a class whose dictionary has no empty name, [render_schema] gives
    one column to each entry whose name passes the identity test and
    which is bound to [str], [int] or [float], in the order of the
    dictionary, and none to any other entry.  Where the interpreter
    shares the one-character strings the entries with a leading
    underscore are left out; where it does not, they are columns too.
    The values of a class dictionary are hashable objects here; for an
    unhashable one the membership test in [datatypes.keys()] raises
    TypeError, which is not modelled. *)
Theorem render_schema_class (interned : bool) (m : model_class) :
  forallb (fun i => negb (String.eqb (fst i) "")) (class_vars m) = true ->
  render_schema interned m
  = ok ("create table " ++ __name__ m
        ++ " (id integer primary key autoincrement, "
        ++ String.concat ", "
             (map (fun i => fst i ++ " "
                            ++ match datatypes_get (snd i) datatypes with
                               | Some ty => ty
                               | None => ""
                               end)
                (List.filter
                   (fun i => visible interned (fst i)
                             && existsb (value_eqb (snd i)) (map fst datatypes))
                   (class_vars m)))
        ++ ");").
Proof.
  intros H. unfold render_schema. now rewrite render_cols_class.
Qed.

Lemma render_schema_class_witness :
  render_schema false
    (ModelClass "Person" "app"
       [("__module__", VStr "app"); ("name", TStr); ("_secret", TInt);
        ("greet", VOther "<function greet>"); ("age", TInt); ("score", TFloat)])
  = ok "create table Person (id integer primary key autoincrement, name text, _secret integer, age integer, score real);".
Proof.
  apply (@render_schema_class false
           (ModelClass "Person" "app"
              [("__module__", VStr "app"); ("name", TStr); ("_secret", TInt);
               ("greet", VOther "<function greet>"); ("age", TInt);
               ("score", TFloat)])).
  reflexivity.
Defined.

(** The same class where the interpreter shares the underscore: the
    column of [_secret] is gone. *)
Example render_schema_class_interned :
  render_schema true
    (ModelClass "Person" "app"
       [("__module__", VStr "app"); ("name", TStr); ("_secret", TInt);
        ("greet", VOther "<function greet>"); ("age", TInt); ("score", TFloat)])
  = ok "create table Person (id integer primary key autoincrement, name text, age integer, score real);".
Proof. reflexivity. Qed.

Lemma iscol_colrender (interned : bool) (key : string) (v : value) :
  iscol interned key v = ok true -> exists col, colrender key v = ok col.
Proof.
  destruct key as [|c key]; [discriminate|]. unfold iscol, colrender. simpl.
  destruct v; simpl; rewrite ?Bool.andb_false_r; try discriminate; eauto.
Qed.

Lemma render_cols_empty_key (interned : bool) (items : attrs) :
  In "" (keys items) ->
  render_cols interned items = raise (IndexError "string index out of range").
Proof.
  induction items as [|[k v] items IH]; [now intros []|].
  intros Hin. destruct k as [|c k]; [reflexivity|].
  destruct Hin as [E | Hin]; [discriminate E|].
  specialize (IH Hin). cbn [render_cols].
  destruct (iscol interned (String c k) v) as [e | b] eqn:Hc.
  - discriminate Hc.
  - cbn [rbind]. destruct b; [|exact IH].
    destruct (iscol_colrender _ _ _ Hc) as (col & ->). cbn [rbind ok].
    now rewrite IH.
Qed.

Lemma render_schema_empty_key_class (interned : bool) (m : model_class) :
  In "" (keys (class_vars m)) ->
  render_schema interned m = raise (IndexError "string index out of range").
Proof.
  intros H. unfold render_schema. now rewrite render_cols_empty_key.
Qed.

(** A class with an attribute of empty name has no schema: whatever else
    it declares, [render_schema] raises IndexError, from [key[0]]. *)
Theorem render_schema_empty_key (interned : bool) (m : model_class) :
  In "" (keys (class_vars m)) ->
  render_schema interned m = raise (IndexError "string index out of range").
Proof.
  intros H. unfold render_schema. now rewrite render_cols_empty_key.
Qed.

Lemma render_schema_empty_key_witness :
  render_schema false (ModelClass "Person" "app" [("name", TStr); ("", TInt)])
  = raise (IndexError "string index out of range").
Proof.
  apply (@render_schema_empty_key false
           (ModelClass "Person" "app" [("name", TStr); ("", TInt)])).
  simpl. auto.
Defined.

(** ** More on [filter] *)

Lemma valid_keyvals_visible (interned : bool) (items : attrs) :
  forallb (fun i => negb (String.eqb (fst i) "")) items = true ->
  QueryBuilder.valid_keyvals interned items
  = ok (List.filter (fun i => visible interned (fst i)) items).
Proof.
  induction items as [|[k v] items IH]; intros H; [reflexivity|].
  cbn [forallb fst] in H. apply Bool.andb_true_iff in H as [Hk Hrest].
  destruct k as [|c k]; [discriminate|].
  cbn [QueryBuilder.valid_keyvals List.filter fst visible first_is_not_underscore
       rbind ok].
  rewrite (IH Hrest). reflexivity.
Qed.

(** [filter] called without a field assignment is not neutral: it appends
    nothing and still strips the last token, whatever that token is. *)
Theorem filter_without_fields_strips (interned : bool) (self : QueryBuilder.t)
    (comparator boolean : string) (valid : attrs) :
  QueryBuilder.valid_keyvals interned (class_vars (QueryBuilder.model self))
  = ok valid ->
  QueryBuilder.filter interned self comparator boolean []
  = (QueryBuilder.set_query_tokens self
       (removelast (QueryBuilder.query_tokens self)),
     ok tt).
Proof.
  intros Hvalid. unfold QueryBuilder.filter. rewrite Hvalid. unfold ok at 1.
  cbn [QueryBuilder.filter_loop].
  destruct (QueryBuilder.query_tokens self) as [|tok toks]; reflexivity.
Qed.

Lemma filter_without_fields_strips_witness :
  QueryBuilder.filter false
    (QueryBuilder.limit
       (fst (QueryBuilder.filter false (QueryBuilder.new Person)
               QueryBuilder.EQUAL QueryBuilder.AND [("age", VInt 30)]))
       (VInt 1))
    QueryBuilder.EQUAL QueryBuilder.AND []
  = (QueryBuilder.Make Person ["age"; "="; "30"; "limit"], ok tt).
Proof.
  apply (@filter_without_fields_strips false
           (QueryBuilder.limit
              (fst (QueryBuilder.filter false (QueryBuilder.new Person)
                      QueryBuilder.EQUAL QueryBuilder.AND [("age", VInt 30)]))
              (VInt 1))
           QueryBuilder.EQUAL QueryBuilder.AND (class_vars Person)).
  reflexivity.
Defined.

(** Two successful calls of [filter] in a row leave their clauses side by
    side: each call strips its own trailing connective, so no connective
    stands between the last clause of the first call and the first clause
    of the second. *)
Theorem filter_twice (interned : bool) (self : QueryBuilder.t)
    (c1 b1 c2 b2 : string) (k1 k2 valid : attrs) :
  QueryBuilder.valid_keyvals interned (class_vars (QueryBuilder.model self))
  = ok valid ->
  forallb (fun kv => mem (fst kv) (keys valid)) k1 = true -> k1 <> [] ->
  forallb (fun kv => mem (fst kv) (keys valid)) k2 = true -> k2 <> [] ->
  QueryBuilder.filter interned
    (fst (QueryBuilder.filter interned self c1 b1 k1)) c2 b2 k2
  = (QueryBuilder.Make (QueryBuilder.model self)
       (QueryBuilder.query_tokens self
        ++ removelast (clauses c1 b1 k1) ++ removelast (clauses c2 b2 k2))%list,
     ok tt).
Proof.
  intros Hvalid H1 N1 H2 N2.
  rewrite (@filter_valid interned self c1 b1 k1 valid) by assumption. cbn [fst].
  rewrite (@filter_valid interned _ c2 b2 k2 valid) by assumption.
  unfold QueryBuilder.set_query_tokens.
  cbn [QueryBuilder.model QueryBuilder.query_tokens].
  now rewrite <- app_assoc.
Qed.

Lemma filter_twice_witness :
  QueryBuilder.filter false
    (fst (QueryBuilder.filter false (QueryBuilder.new Person) QueryBuilder.EQUAL
            QueryBuilder.AND [("name", VStr "bob")]))
    QueryBuilder.NOT_EQUAL QueryBuilder.OR [("age", VInt 30)]
  = (QueryBuilder.Make Person ["name"; "="; "bob"; "age"; "!="; "30"], ok tt).
Proof.
  apply (@filter_twice false (QueryBuilder.new Person) QueryBuilder.EQUAL
           QueryBuilder.AND QueryBuilder.NOT_EQUAL QueryBuilder.OR
           [("name", VStr "bob")] [("age", VInt 30)]
           (class_vars Person)).
  - reflexivity.
  - reflexivity.
  - discriminate.
  - reflexivity.
  - discriminate.
Defined.

(** When [filter] rejects a pair, the clauses of the pairs before the
    first rejected one are already in the buffer and stay there, with
    their trailing connective; no pair after it is looked at.  Which
    names are rejected depends on the identity test: [valid] is the list
    the call computes under the given reading. *)
Theorem filter_invalid_buffer (interned : bool) (self : QueryBuilder.t)
    (comparator boolean : string) (before after valid : attrs) (key : string)
    (v : value) :
  QueryBuilder.valid_keyvals interned (class_vars (QueryBuilder.model self))
  = ok valid ->
  forallb (fun kv => mem (fst kv) (keys valid)) before = true ->
  mem key (keys valid) = false ->
  QueryBuilder.filter interned self comparator boolean
    (before ++ (key, v) :: after)%list
  = (QueryBuilder.Make (QueryBuilder.model self)
       (QueryBuilder.query_tokens self ++ clauses comparator boolean before)%list,
     raise (ValueError ("Invalid column " ++ dquote ++ key ++ dquote))).
Proof.
  intros Hvalid Hall Hkey.
  now rewrite (@filter_invalid interned self comparator boolean before after
                 valid key v).
Qed.

Lemma filter_invalid_buffer_witness :
  QueryBuilder.filter false (QueryBuilder.Make Person ["name"; "="; "bob"])
    QueryBuilder.EQUAL QueryBuilder.OR
    ([("age", VInt 30)] ++ ("bogus", VInt 1) :: [("name", VStr "x")])%list
  = (QueryBuilder.Make Person
       (["name"; "="; "bob"] ++ clauses QueryBuilder.EQUAL QueryBuilder.OR [("age", VInt 30)])%list,
     raise (ValueError ("Invalid column " ++ dquote ++ "bogus" ++ dquote))).
Proof.
  apply (@filter_invalid_buffer false
           (QueryBuilder.Make Person ["name"; "="; "bob"])
           QueryBuilder.EQUAL QueryBuilder.OR [("age", VInt 30)]
           [("name", VStr "x")] (class_vars Person) "bogus" (VInt 1)).
  - reflexivity.
  - reflexivity.
  - reflexivity.
Defined.

Lemma mem_keys_filter (f : string -> bool) (key : string) (items : attrs) :
  mem key (keys (List.filter (fun i => f (fst i)) items))
  = mem key (keys items) && f key.
Proof.
  induction items as [|[k w] l IH]; [reflexivity|].
  cbn [List.filter fst]. unfold keys, mem in IH |- *.
  destruct (f k) eqn:Pk; cbn [map fst existsb]; rewrite IH;
    destruct (String.eqb_spec key k) as [->|_]; rewrite ?Pk; cbn [orb andb];
    try reflexivity.
  now rewrite Bool.andb_false_r.
Qed.

(** [filter] checks a field against the names of the class dictionary
    that pass the identity test, not against the columns of the schema:
    a pair is accepted exactly when its name is bound in the class and
    passes the test, whatever it is bound to; a rejected single pair
    leaves the buffer as it was.  Where the interpreter keeps the
    one-character strings apart every name bound in the class is
    accepted, those with a leading underscore included. *)
Theorem filter_accepts_class_names (interned : bool) (self : QueryBuilder.t)
    (comparator boolean key : string) (v : value) :
  forallb (fun i => negb (String.eqb (fst i) ""))
    (class_vars (QueryBuilder.model self)) = true ->
  QueryBuilder.filter interned self comparator boolean [(key, v)]
  = if mem key (keys (class_vars (QueryBuilder.model self)))
       && visible interned key
    then (QueryBuilder.Make (QueryBuilder.model self)
            (QueryBuilder.query_tokens self ++ [key; comparator; str v])%list,
          ok tt)
    else (QueryBuilder.Make (QueryBuilder.model self)
            (QueryBuilder.query_tokens self),
          raise (ValueError ("Invalid column " ++ dquote ++ key ++ dquote))).
Proof.
  intros Hne.
  pose proof (valid_keyvals_visible interned _ Hne) as Hvalid.
  pose proof (mem_keys_filter (visible interned) key
                (class_vars (QueryBuilder.model self))) as E.
  destruct (mem key (keys (class_vars (QueryBuilder.model self)))
            && visible interned key) eqn:Hk.
  - rewrite (@filter_valid interned self comparator boolean [(key, v)] _ Hvalid).
    + reflexivity.
    + cbn [forallb fst]. now rewrite E.
    + discriminate.
  - change [(key, v)] with (([] : attrs) ++ (key, v) :: [])%list.
    rewrite (@filter_invalid interned self comparator boolean [] [] _ key v Hvalid).
    + unfold QueryBuilder.set_query_tokens. cbn [clauses flat_map].
      now rewrite app_nil_r.
    + reflexivity.
    + exact E.
Qed.

Lemma filter_accepts_class_names_witness :
  QueryBuilder.filter false
    (QueryBuilder.new
       (ModelClass "Person" "app"
          [("name", TStr); ("_secret", TInt); ("greet", VOther "<function greet>")]))
    "=" "AND" [("_secret", VInt 1)]
  = (QueryBuilder.Make
       (ModelClass "Person" "app"
          [("name", TStr); ("_secret", TInt); ("greet", VOther "<function greet>")])
       ["_secret"; "="; "1"],
     ok tt).
Proof.
  apply (@filter_accepts_class_names false
           (QueryBuilder.new
              (ModelClass "Person" "app"
                 [("name", TStr); ("_secret", TInt);
                  ("greet", VOther "<function greet>")]))
           "=" "AND" "_secret" (VInt 1)).
  reflexivity.
Defined.

(** The three cases on that class: a method name is accepted under
    either reading, a name the class does not bind is rejected under
    either, and [_secret] is rejected only where the interpreter shares
    the underscore. *)
Example filter_class_names_cases :
  Forall (fun interned =>
    snd (QueryBuilder.filter interned
           (QueryBuilder.new
              (ModelClass "Person" "app"
                 [("name", TStr); ("_secret", TInt);
                  ("greet", VOther "<function greet>")]))
           "=" "AND" [("greet", VInt 1)])
    = ok tt
    /\ snd (QueryBuilder.filter interned
              (QueryBuilder.new
                 (ModelClass "Person" "app"
                    [("name", TStr); ("_secret", TInt);
                     ("greet", VOther "<function greet>")]))
              "=" "AND" [("bogus", VInt 1)])
       = raise (ValueError ("Invalid column " ++ dquote ++ "bogus" ++ dquote)))
    [true; false]
  /\ snd (QueryBuilder.filter true
            (QueryBuilder.new
               (ModelClass "Person" "app"
                  [("name", TStr); ("_secret", TInt);
                   ("greet", VOther "<function greet>")]))
            "=" "AND" [("_secret", VInt 1)])
     = raise (ValueError ("Invalid column " ++ dquote ++ "_secret" ++ dquote)).
Proof.
  repeat constructor.
Qed.

(** ** Statements of the repository, continued *)

Lemma save_text_independent_of_values_witness :
  option_map fst
    (first_statement
       (Manager.save (Manager.new Person)
          (Object Person [("name", VStr "bob"); ("age", VInt 30)])))
  = option_map fst
      (first_statement
         (Manager.save (Manager.new Person)
            (Object Person [("name", VStr "x' or '1'='1"); ("age", VNone)]))).
Proof.
  apply (@save_text_independent_of_values (Manager.new Person)
           (Object Person [("name", VStr "bob"); ("age", VInt 30)])
           (Object Person [("name", VStr "x' or '1'='1"); ("age", VNone)])).
  - reflexivity.
  - reflexivity.
  - reflexivity.
Defined.

(** A record none of whose attributes survives [cut_attrs] (all of them
    are named [id], [i], [d] or have the empty name) makes [save] send an
    insert without columns and [update] send an update without
    assignment, whose text has two placeholders for one argument. *)
Theorem statements_without_fields (self : Manager.t) (obj : object) :
  cut_attrs obj "id" = [] ->
  (hasattr obj "id" = false ->
   first_statement (Manager.save self obj)
   = Some ("insert into " ++ Manager.tablename self ++ " () values ()", []))
  /\ (forall id, getattr obj "id" = Some id ->
       first_statement (Manager.update self obj)
       = Some ("UPDATE " ++ Manager.tablename self ++ " SET = ? WHERE id = ?",
               [id])).
Proof.
  intros Hcut. split.
  - intros Hid. rewrite save_statement by assumption. now rewrite Hcut.
  - intros id Hid. unfold Manager.update, Manager.obj_id. now rewrite Hcut, Hid.
Qed.

Lemma statements_without_fields_witness :
  (hasattr (Object Point [("d", VInt 5)]) "id" = false ->
   first_statement (Manager.save (Manager.new Point) (Object Point [("d", VInt 5)]))
   = Some ("insert into " ++ "Point" ++ " () values ()", []))
  /\ (forall id, getattr (Object Point [("d", VInt 5)]) "id" = Some id ->
       first_statement (Manager.update (Manager.new Point) (Object Point [("d", VInt 5)]))
       = Some ("UPDATE " ++ "Point" ++ " SET = ? WHERE id = ?", [id])).
Proof.
  apply (@statements_without_fields (Manager.new Point) (Object Point [("d", VInt 5)])).
  reflexivity.
Defined.

(** [delete] and [update] read [obj.id] before anything is sent: on a
    record without an id they raise AttributeError, no statement is
    executed and the table is as before. *)
Theorem delete_and_update_need_id (self : Manager.t) (obj : object)
    (t : Sqlite.table) :
  getattr obj "id" = None ->
  first_statement (Manager.delete self obj) = None
  /\ first_statement (Manager.update self obj) = None
  /\ run (Manager.delete self obj) t = Some (t, raise (AttributeError "id"))
  /\ run (Manager.update self obj) t = Some (t, raise (AttributeError "id")).
Proof.
  intros Hid. unfold Manager.delete, Manager.update, Manager.obj_id.
  rewrite Hid. repeat split.
Qed.

Lemma delete_and_update_need_id_witness :
  first_statement
    (Manager.delete (Manager.new Person)
       (Object Person [("name", VStr "bob"); ("age", VInt 30)])) = None
  /\ first_statement
       (Manager.update (Manager.new Person)
          (Object Person [("name", VStr "bob"); ("age", VInt 30)])) = None
  /\ run (Manager.delete (Manager.new Person)
            (Object Person [("name", VStr "bob"); ("age", VInt 30)]))
         (person_table [(1%Z, [VStr "ann"; VInt 41])] 1)
     = Some (person_table [(1%Z, [VStr "ann"; VInt 41])] 1,
             raise (AttributeError "id"))
  /\ run (Manager.update (Manager.new Person)
            (Object Person [("name", VStr "bob"); ("age", VInt 30)]))
         (person_table [(1%Z, [VStr "ann"; VInt 41])] 1)
     = Some (person_table [(1%Z, [VStr "ann"; VInt 41])] 1,
             raise (AttributeError "id")).
Proof.
  apply (@delete_and_update_need_id (Manager.new Person)
           (Object Person [("name", VStr "bob"); ("age", VInt 30)])
           (person_table [(1%Z, [VStr "ann"; VInt 41])] 1)).
  reflexivity.
Defined.

(** ** Lookups and deletion on the table *)

Lemma plain_name_identifier (s : string) :
  Store.plain_name s = true -> Sqlite.identifier s = true.
Proof.
  unfold Store.plain_name. intros H.
  apply Bool.andb_true_iff in H as [H _]. now apply Bool.andb_true_iff in H as [H _].
Qed.

Lemma execute_delete (t : Sqlite.table) (i : Z) :
  Sqlite.identifier (Sqlite.tbl_name t) = true ->
  Sqlite.execute t ("DELETE from " ++ Sqlite.tbl_name t ++ " WHERE id = ?") [VInt i]
  = if Sqlite.int64 i
    then Some (Sqlite.delete_id t i, ok (Cursor [] VNone))
    else Some (t, raise Sqlite.overflow).
Proof.
  intros Ht. unfold Sqlite.execute. rewrite Ht. cbn [negb].
  cbn [String.append String.eqb Ascii.eqb Bool.eqb andb].
  now rewrite String.eqb_refl.
Qed.

Lemma execute_select_all (t : Sqlite.table) :
  Sqlite.identifier (Sqlite.tbl_name t) = true ->
  Sqlite.execute t ("select * from " ++ Sqlite.tbl_name t) []
  = Some (t, ok (Cursor (map (Sqlite.row_attrs t) (Sqlite.rows t)) VNone)).
Proof.
  intros Ht. unfold Sqlite.execute. rewrite Ht. cbn [negb].
  cbn [String.append String.eqb Ascii.eqb Bool.eqb andb].
  replace (String.eqb (Sqlite.tbl_name t) (Sqlite.tbl_name t ++ " where id = ?"))
    with false.
  - now rewrite String.eqb_refl.
  - symmetry. apply String.eqb_neq. intros E.
    apply (f_equal String.length) in E. rewrite length_append in E. simpl in E. lia.
Qed.

(** [get] on the table, in full: the driver's refusal of an id outside
    64 bits, the not found error, the failed call of [create] for a
    table with a column named [self], and the record of the first row
    with the id. *)
Lemma run_get (self : Manager.t) (t : Sqlite.table) (i : Z) :
  Sqlite.identifier (Sqlite.tbl_name t) = true ->
  Manager.tablename self = Sqlite.tbl_name t ->
  run (Manager.get self (VInt i)) t
  = Some (t,
          if Sqlite.int64 i then
            match List.filter (fun r => Z.eqb (fst r) i) (Sqlite.rows t) with
            | [] =>
                raise (ValueError ("Object" ++ str_model (Manager.model self)
                                   ++ " with id does not exist: " ++ str (VInt i)))
            | r :: _ =>
                if mem "self" (keys (Sqlite.row_attrs t r))
                then raise (TypeError
                              "create() got multiple values for argument 'self'")
                else ok (Manager.create self (Sqlite.row_attrs t r))
            end
          else raise Sqlite.overflow).
Proof.
  intros Ht Hname. unfold Manager.get. rewrite Hname.
  cbn [bind execute run]. rewrite execute_select_row by assumption.
  destruct (Sqlite.int64 i); [|reflexivity]. unfold ok at 1.
  destruct (List.filter (fun r => Z.eqb (fst r) i) (Sqlite.rows t)) as [|r rs];
    [reflexivity|].
  cbn [map fetchone fetchall hd_error]. unfold Manager.call_create.
  now destruct (mem "self" (keys (Sqlite.row_attrs t r))).
Qed.

Lemma run_get_missing (self : Manager.t) (t : Sqlite.table) (i : Z) :
  Sqlite.identifier (Sqlite.tbl_name t) = true ->
  Manager.tablename self = Sqlite.tbl_name t ->
  Sqlite.int64 i = true ->
  ~ In i (Sqlite.ids t) ->
  run (Manager.get self (VInt i)) t
  = Some (t, raise (ValueError ("Object" ++ str_model (Manager.model self)
                                ++ " with id does not exist: " ++ str (VInt i)))).
Proof.
  intros Ht Hname Hi Hnot. rewrite run_get by assumption. rewrite Hi.
  now rewrite filter_id_nil by now apply not_in_ids.
Qed.

(** [get] with an id that no row has raises the not found error, a
    ValueError naming the class and the id, and changes nothing.  The id
    is one the driver can bind, an integer within 64 bits. *)
Theorem get_missing_id (self : Manager.t) (t : Sqlite.table) (i : Z) :
  Store.plain_name (Sqlite.tbl_name t) = true ->
  Manager.tablename self = Sqlite.tbl_name t ->
  Sqlite.int64 i = true ->
  ~ In i (Sqlite.ids t) ->
  run (Manager.get self (VInt i)) t
  = Some (t, raise (ValueError ("Object" ++ str_model (Manager.model self)
                                ++ " with id does not exist: " ++ str (VInt i)))).
Proof.
  intros Ht. apply run_get_missing. now apply plain_name_identifier.
Qed.

Lemma get_missing_id_witness :
  run (Manager.get (Manager.new Person) (VInt 5))
      (person_table [(1%Z, [VStr "ann"; VInt 41])] 1)
  = Some (person_table [(1%Z, [VStr "ann"; VInt 41])] 1,
          raise (ValueError "Object<class '__main__.Person'> with id does not exist: 5")).
Proof.
  apply (@get_missing_id (Manager.new Person)
           (person_table [(1%Z, [VStr "ann"; VInt 41])] 1) 5%Z).
  - reflexivity.
  - reflexivity.
  - reflexivity.
  - simpl. intros [H | []]. discriminate H.
Defined.

Lemma run_get_existing (self : Manager.t) (t : Sqlite.table) (i : Z) :
  Sqlite.identifier (Sqlite.tbl_name t) = true ->
  Manager.tablename self = Sqlite.tbl_name t ->
  In i (Sqlite.ids t) ->
  exists vs,
    In (i, vs) (Sqlite.rows t)
    /\ run (Manager.get self (VInt i)) t
       = Some (t,
               if mem "self" (map fst (Sqlite.columns t))
               then
                 if mem "self" (keys (Sqlite.row_attrs t (i, vs)))
                 then raise (TypeError
                               "create() got multiple values for argument 'self'")
                 else ok (Manager.create self (Sqlite.row_attrs t (i, vs)))
               else ok (Manager.create self (Sqlite.row_attrs t (i, vs)))).
Proof.
  intros Ht Hname Hin. apply in_ids in Hin as [Hin Hi].
  destruct (filter_id_cons _ _ Hin) as ([j vs] & rs & E).
  assert (Hr : In (j, vs) (List.filter (fun r => Z.eqb (fst r) i) (Sqlite.rows t)))
    by (rewrite E; now left).
  apply filter_In in Hr as [Hr Hj]. simpl in Hj. apply Z.eqb_eq in Hj. subst j.
  exists vs. split; [assumption|].
  rewrite run_get by assumption. rewrite Hi, E.
  destruct (mem "self" (map fst (Sqlite.columns t))) eqn:Hself; [reflexivity|].
  replace (mem "self" (keys (Sqlite.row_attrs t (i, vs)))) with false;
    [reflexivity|].
  symmetry. unfold Sqlite.row_attrs.
  replace (mem "self" (keys (("id", VInt (fst (i, vs)))
                             :: combine (map fst (Sqlite.columns t)) (snd (i, vs)))))
    with (mem "self" (keys (combine (map fst (Sqlite.columns t)) (snd (i, vs)))))
    by reflexivity.
  now apply mem_keys_combine.
Qed.

(** [has] with an id the driver can bind answers whether a row has the
    id, and [get] on an id that is there returns the row as a record of
    the repository's class, [id] first and then the columns, provided no
    column is named [self]; neither changes the table. *)
Theorem has_and_get_existing_id (self : Manager.t) (t : Sqlite.table) (i : Z) :
  Store.plain_name (Sqlite.tbl_name t) = true ->
  Manager.tablename self = Sqlite.tbl_name t ->
  Sqlite.int64 i = true ->
  mem "self" (map fst (Sqlite.columns t)) = false ->
  (exists b, run (Manager.has self (VInt i)) t = Some (t, ok b)
             /\ (b = true <-> In i (Sqlite.ids t)))
  /\ (In i (Sqlite.ids t) ->
      exists vs, In (i, vs) (Sqlite.rows t)
                 /\ run (Manager.get self (VInt i)) t
                    = Some (t, ok (Manager.create self (Sqlite.row_attrs t (i, vs))))).
Proof.
  intros Hp Hname Hi Hself.
  pose proof (plain_name_identifier _ Hp) as Ht. split.
  - exists (existsb (Z.eqb i) (Sqlite.ids t)). split.
    + now apply run_has.
    + apply existsb_ids.
  - intros Hin.
    destruct (@run_get_existing self t i Ht Hname Hin) as (vs & Hr & Hrun).
    exists vs. split; [assumption|]. now rewrite Hrun, Hself.
Qed.

Lemma has_and_get_existing_id_witness :
  (exists b, run (Manager.has (Manager.new Person) (VInt 1))
               (person_table [(1%Z, [VStr "ann"; VInt 41])] 1)
             = Some (person_table [(1%Z, [VStr "ann"; VInt 41])] 1, ok b)
             /\ (b = true <-> In 1%Z (Sqlite.ids (person_table [(1%Z, [VStr "ann"; VInt 41])] 1))))
  /\ (In 1%Z (Sqlite.ids (person_table [(1%Z, [VStr "ann"; VInt 41])] 1)) ->
      exists vs, In (1%Z, vs) [(1%Z, [VStr "ann"; VInt 41])]
                 /\ run (Manager.get (Manager.new Person) (VInt 1))
                      (person_table [(1%Z, [VStr "ann"; VInt 41])] 1)
                    = Some (person_table [(1%Z, [VStr "ann"; VInt 41])] 1,
                            ok (Manager.create (Manager.new Person)
                                  (Sqlite.row_attrs
                                     (person_table [(1%Z, [VStr "ann"; VInt 41])] 1)
                                     (1%Z, vs))))).
Proof.
  apply (@has_and_get_existing_id (Manager.new Person)
           (person_table [(1%Z, [VStr "ann"; VInt 41])] 1) 1%Z).
  - reflexivity.
  - reflexivity.
  - reflexivity.
  - reflexivity.
Defined.

(** The row is there, read back by [get]. *)
Example get_existing_id_example :
  In 1%Z (Sqlite.ids (person_table [(1%Z, [VStr "ann"; VInt 41])] 1))
  /\ run (Manager.get (Manager.new Person) (VInt 1))
         (person_table [(1%Z, [VStr "ann"; VInt 41])] 1)
     = Some (person_table [(1%Z, [VStr "ann"; VInt 41])] 1,
             ok (Object Person [("id", VInt 1); ("name", VStr "ann"); ("age", VInt 41)])).
Proof. split; [now left | reflexivity]. Qed.

Lemma ids_delete_id (t : Sqlite.table) (i : Z) :
  ~ In i (Sqlite.ids (Sqlite.delete_id t i)).
Proof.
  intros H. apply in_ids in H as [H _].
  unfold Sqlite.delete_id in H. simpl in H.
  apply in_map_iff in H as (r & Hr & Hin). apply filter_In in Hin as [_ Hne].
  subst i. now rewrite Z.eqb_refl in Hne.
Qed.

Lemma filter_all {A : Type} (f : A -> bool) (l : list A) :
  (forall x, In x l -> f x = true) -> List.filter f l = l.
Proof.
  induction l as [|x l IH]; intros H; [reflexivity|]. simpl.
  rewrite (H x (or_introl eq_refl)). f_equal. apply IH. intros y Hy. apply H. now right.
Qed.

(** After [delete(obj)], for a record whose id the driver can bind, no
    row has the id of the record: [has] answers False and [get] raises
    the not found error.  The other rows stay as they are, the counter of
    ids is not lowered, and for an id that no row had the table is
    unchanged. *)
Theorem delete_then_lookup (self : Manager.t) (t : Sqlite.table)
    (obj : object) (i : Z) :
  Store.plain_name (Sqlite.tbl_name t) = true ->
  Manager.tablename self = Sqlite.tbl_name t ->
  getattr obj "id" = Some (VInt i) ->
  Sqlite.int64 i = true ->
  run (_ <- Manager.delete self obj ;; Manager.has self (VInt i)) t
  = Some (Sqlite.delete_id t i, ok false)
  /\ run (_ <- Manager.delete self obj ;; Manager.get self (VInt i)) t
     = Some (Sqlite.delete_id t i,
             raise (ValueError ("Object" ++ str_model (Manager.model self)
                                ++ " with id does not exist: " ++ str (VInt i))))
  /\ (forall r, In r (Sqlite.rows (Sqlite.delete_id t i))
                <-> In r (Sqlite.rows t) /\ fst r <> i)
  /\ Sqlite.seq (Sqlite.delete_id t i) = Sqlite.seq t
  /\ (~ In i (Sqlite.ids t) -> Sqlite.delete_id t i = t).
Proof.
  intros Hp Hname Hid Hi.
  pose proof (plain_name_identifier _ Hp) as Ht.
  assert (Hdel : run (Manager.delete self obj) t
                 = Some (Sqlite.delete_id t i, ok tt)).
  { unfold Manager.delete, Manager.obj_id. rewrite Hid, Hname.
    cbn [bind execute run]. rewrite execute_delete by assumption.
    now rewrite Hi. }
  repeat split.
  - rewrite run_bind, Hdel. unfold ok at 1.
    rewrite run_has by assumption.
    destruct (existsb (Z.eqb i) (Sqlite.ids (Sqlite.delete_id t i))) eqn:E;
      [|reflexivity].
    apply existsb_ids in E. now apply ids_delete_id in E.
  - rewrite run_bind, Hdel. unfold ok at 1.
    apply run_get_missing; try assumption. apply ids_delete_id.
  - apply filter_In in H. tauto.
  - apply filter_In in H as [_ Hne]. intros E. now rewrite E, Z.eqb_refl in Hne.
  - intros [Hin Hne]. apply filter_In. split; [assumption|].
    now apply Bool.negb_true_iff, Z.eqb_neq.
  - intros Hnot. apply not_in_ids in Hnot; [|assumption].
    destruct t as [name cols rs s]. unfold Sqlite.delete_id. simpl.
    f_equal. apply filter_all. intros r Hr.
    apply Bool.negb_true_iff, Z.eqb_neq. intros E. apply Hnot.
    simpl. apply in_map_iff. eauto.
Qed.

Lemma delete_then_lookup_witness :
  run (_ <- Manager.delete (Manager.new Person) (Object Person [("id", VInt 1)]) ;;
       Manager.has (Manager.new Person) (VInt 1))
      (person_table [(1%Z, [VStr "ann"; VInt 41]); (2%Z, [VStr "bob"; VInt 30])] 2)
  = Some (Sqlite.delete_id
            (person_table [(1%Z, [VStr "ann"; VInt 41]); (2%Z, [VStr "bob"; VInt 30])] 2)
            1,
          ok false)
  /\ run (_ <- Manager.delete (Manager.new Person) (Object Person [("id", VInt 1)]) ;;
          Manager.get (Manager.new Person) (VInt 1))
         (person_table [(1%Z, [VStr "ann"; VInt 41]); (2%Z, [VStr "bob"; VInt 30])] 2)
     = Some (Sqlite.delete_id
               (person_table [(1%Z, [VStr "ann"; VInt 41]); (2%Z, [VStr "bob"; VInt 30])] 2)
               1,
             raise (ValueError ("Object" ++ str_model Person
                                ++ " with id does not exist: " ++ str (VInt 1))))
  /\ (forall r,
         In r (Sqlite.rows
                 (Sqlite.delete_id
                    (person_table [(1%Z, [VStr "ann"; VInt 41]); (2%Z, [VStr "bob"; VInt 30])] 2)
                    1))
         <-> In r [(1%Z, [VStr "ann"; VInt 41]); (2%Z, [VStr "bob"; VInt 30])]
             /\ fst r <> 1%Z)
  /\ Sqlite.seq
       (Sqlite.delete_id
          (person_table [(1%Z, [VStr "ann"; VInt 41]); (2%Z, [VStr "bob"; VInt 30])] 2)
          1)
     = 2%Z
  /\ (~ In 1%Z (Sqlite.ids
                  (person_table [(1%Z, [VStr "ann"; VInt 41]); (2%Z, [VStr "bob"; VInt 30])] 2)) ->
      Sqlite.delete_id
        (person_table [(1%Z, [VStr "ann"; VInt 41]); (2%Z, [VStr "bob"; VInt 30])] 2)
        1
      = person_table [(1%Z, [VStr "ann"; VInt 41]); (2%Z, [VStr "bob"; VInt 30])] 2).
Proof.
  apply (@delete_then_lookup (Manager.new Person)
           (person_table [(1%Z, [VStr "ann"; VInt 41]); (2%Z, [VStr "bob"; VInt 30])] 2)
           (Object Person [("id", VInt 1)]) 1%Z).
  - reflexivity.
  - reflexivity.
  - reflexivity.
  - reflexivity.
Defined.

(** The table after that deletion, evaluated. *)
Example delete_example :
  Sqlite.delete_id
    (person_table [(1%Z, [VStr "ann"; VInt 41]); (2%Z, [VStr "bob"; VInt 30])] 2)
    1
  = person_table [(2%Z, [VStr "bob"; VInt 30])] 2.
Proof. reflexivity. Qed.

(** A record without an id that the table takes (its integers within 64
    bits, no column named [self]) is stored under an id that is positive
    and that no row has, and [get] with that id returns a record of the
    same class that agrees with the saved one on every field [cut_attrs]
    keeps, provided the column is declared with the type of the value. *)
Theorem save_then_get_agrees (self : Manager.t) (t : Sqlite.table) (obj : object) :
  Store.plain_name (Sqlite.tbl_name t) = true ->
  Manager.tablename self = Sqlite.tbl_name t ->
  mem "self" (map fst (Sqlite.columns t)) = false ->
  hasattr obj "id" = false ->
  insertable t (cut_attrs obj "id") = true ->
  exists t' got,
    run (saved <- Manager.save self obj ;;
         id <- Manager.obj_id saved ;;
         Manager.get self id) t
    = Some (t', ok got)
    /\ __class__ got = Manager.model self
    /\ getattr got "id" = Some (VInt (Sqlite.next_id t))
    /\ (0 < Sqlite.next_id t)%Z
    /\ ~ In (Sqlite.next_id t) (Sqlite.ids t)
    /\ (forall k v ty,
           lookup k (cut_attrs obj "id") = Some v ->
           Sqlite.column_type k (Sqlite.columns t) = Some ty ->
           Sqlite.stored ty v = Some v ->
           getattr got k = Some v).
Proof.
  intros Hp Hname Hself Hid Hins.
  pose proof (plain_name_identifier _ Hp) as Ht.
  destruct (@save_then_get self t obj Ht Hname Hself Hid Hins)
    as (vs & Hrow & Hrun & Hpos & _ & Hfresh).
  exists (Sqlite.insert_row t vs),
         (Manager.create self (Sqlite.row_attrs t (Sqlite.next_id t, vs))).
  repeat split; try assumption.
  intros k v ty Hk Hty Hst.
  apply (@save_then_get_field self t obj vs k ty v); try assumption.
  intros ->. now rewrite cut_attrs_drops_substrings in Hk.
Qed.

Lemma save_then_get_agrees_witness :
  exists t' got,
    run (saved <- Manager.save (Manager.new Person)
                    (Object Person [("name", VStr "bob"); ("age", VInt 30)]) ;;
         id <- Manager.obj_id saved ;;
         Manager.get (Manager.new Person) id)
        (person_table [(1%Z, [VStr "ann"; VInt 41])] 4)
    = Some (t', ok got)
    /\ __class__ got = Person
    /\ getattr got "id"
       = Some (VInt (Sqlite.next_id (person_table [(1%Z, [VStr "ann"; VInt 41])] 4)))
    /\ (0 < Sqlite.next_id (person_table [(1%Z, [VStr "ann"; VInt 41])] 4))%Z
    /\ ~ In (Sqlite.next_id (person_table [(1%Z, [VStr "ann"; VInt 41])] 4))
            (Sqlite.ids (person_table [(1%Z, [VStr "ann"; VInt 41])] 4))
    /\ (forall k v ty,
           lookup k (cut_attrs (Object Person [("name", VStr "bob"); ("age", VInt 30)]) "id")
           = Some v ->
           Sqlite.column_type k [("name", "text"); ("age", "integer")] = Some ty ->
           Sqlite.stored ty v = Some v ->
           getattr got k = Some v).
Proof.
  apply (@save_then_get_agrees (Manager.new Person)
           (person_table [(1%Z, [VStr "ann"; VInt 41])] 4)
           (Object Person [("name", VStr "bob"); ("age", VInt 30)])).
  - reflexivity.
  - reflexivity.
  - reflexivity.
  - reflexivity.
  - reflexivity.
Defined.

(** That run, evaluated: the row gets the id 5, above the counter. *)
Example save_then_get_example :
  run (saved <- Manager.save (Manager.new Person)
                  (Object Person [("name", VStr "bob"); ("age", VInt 30)]) ;;
       id <- Manager.obj_id saved ;;
       Manager.get (Manager.new Person) id)
      (person_table [(1%Z, [VStr "ann"; VInt 41])] 4)
  = Some (person_table [(1%Z, [VStr "ann"; VInt 41]); (5%Z, [VStr "bob"; VInt 30])] 5,
          ok (Object Person [("id", VInt 5); ("name", VStr "bob"); ("age", VInt 30)])).
Proof. reflexivity. Qed.

Lemma run_call_create_each (self : Manager.t) (t u : Sqlite.table)
    (rs : list (Z * list value)) :
  mem "self" (map fst (Sqlite.columns t)) = false ->
  run (Manager.call_create_each self (map (Sqlite.row_attrs t) rs)) u
  = Some (u, ok (map (fun r => Manager.create self (Sqlite.row_attrs t r)) rs)).
Proof.
  intros Hself. induction rs as [|r rs IH]; [reflexivity|].
  cbn [map Manager.call_create_each].
  rewrite call_create_row by assumption. cbn [bind].
  rewrite run_bind, IH. reflexivity.
Qed.

Lemma run_all (self : Manager.t) (t : Sqlite.table) :
  Sqlite.identifier (Sqlite.tbl_name t) = true ->
  Manager.tablename self = Sqlite.tbl_name t ->
  mem "self" (map fst (Sqlite.columns t)) = false ->
  run (Manager.all self) t
  = Some (t, ok (map (fun r => Manager.create self (Sqlite.row_attrs t r))
                   (Sqlite.rows t))).
Proof.
  intros Ht Hname Hself. unfold Manager.all. rewrite Hname.
  cbn [bind execute run]. rewrite execute_select_all by assumption.
  unfold ok at 1. cbn [fetchall]. now apply run_call_create_each.
Qed.

(** On a table without a column named [self], [all] lists the records
    of the rows in their order and changes nothing; after a successful
    [save] (of a record the table takes, its integers within 64 bits) it
    lists the records that were there followed by the record of the new
    row. *)
Theorem save_then_all (self : Manager.t) (t : Sqlite.table) (obj : object) :
  Store.plain_name (Sqlite.tbl_name t) = true ->
  Manager.tablename self = Sqlite.tbl_name t ->
  mem "self" (map fst (Sqlite.columns t)) = false ->
  hasattr obj "id" = false ->
  insertable t (cut_attrs obj "id") = true ->
  exists vs,
    Sqlite.new_row (Sqlite.columns t) (cut_attrs obj "id") = Some vs
    /\ run (Manager.all self) t
       = Some (t, ok (map (fun r => Manager.create self (Sqlite.row_attrs t r))
                        (Sqlite.rows t)))
    /\ run (_ <- Manager.save self obj ;; Manager.all self) t
       = Some (Sqlite.insert_row t vs,
               ok (map (fun r => Manager.create self (Sqlite.row_attrs t r))
                     (Sqlite.rows t)
                   ++ [Manager.create self
                         (Sqlite.row_attrs t (Sqlite.next_id t, vs))])%list).
Proof.
  intros Hp Hname Hself Hid Hins.
  pose proof (plain_name_identifier _ Hp) as Ht.
  destruct (@run_save_insert self t obj Ht Hname (or_introl Hid) Hins)
    as (vs & Hrow & Hrun).
  exists vs. split; [assumption|]. split; [now apply run_all|].
  rewrite run_bind, Hrun. unfold ok at 1.
  rewrite (@run_all self (Sqlite.insert_row t vs)) by assumption.
  cbn [Sqlite.insert_row Sqlite.rows]. now rewrite map_app.
Qed.

Lemma save_then_all_witness :
  exists vs,
    Sqlite.new_row [("name", "text"); ("age", "integer")]
      (cut_attrs (Object Person [("name", VStr "bob"); ("age", VInt 30)]) "id")
    = Some vs
    /\ run (Manager.all (Manager.new Person))
         (person_table [(1%Z, [VStr "ann"; VInt 41])] 1)
       = Some (person_table [(1%Z, [VStr "ann"; VInt 41])] 1,
               ok (map (fun r => Manager.create (Manager.new Person)
                                   (Sqlite.row_attrs
                                      (person_table [(1%Z, [VStr "ann"; VInt 41])] 1) r))
                     [(1%Z, [VStr "ann"; VInt 41])]))
    /\ run (_ <- Manager.save (Manager.new Person)
                   (Object Person [("name", VStr "bob"); ("age", VInt 30)]) ;;
            Manager.all (Manager.new Person))
         (person_table [(1%Z, [VStr "ann"; VInt 41])] 1)
       = Some (Sqlite.insert_row (person_table [(1%Z, [VStr "ann"; VInt 41])] 1) vs,
               ok (map (fun r => Manager.create (Manager.new Person)
                                   (Sqlite.row_attrs
                                      (person_table [(1%Z, [VStr "ann"; VInt 41])] 1) r))
                     [(1%Z, [VStr "ann"; VInt 41])]
                   ++ [Manager.create (Manager.new Person)
                         (Sqlite.row_attrs
                            (person_table [(1%Z, [VStr "ann"; VInt 41])] 1)
                            (Sqlite.next_id (person_table [(1%Z, [VStr "ann"; VInt 41])] 1),
                             vs))])%list).
Proof.
  apply (@save_then_all (Manager.new Person)
           (person_table [(1%Z, [VStr "ann"; VInt 41])] 1)
           (Object Person [("name", VStr "bob"); ("age", VInt 30)])).
  - reflexivity.
  - reflexivity.
  - reflexivity.
  - reflexivity.
  - reflexivity.
Defined.

(** That run, evaluated. *)
Example save_then_all_example :
  run (_ <- Manager.save (Manager.new Person)
              (Object Person [("name", VStr "bob"); ("age", VInt 30)]) ;;
       Manager.all (Manager.new Person))
      (person_table [(1%Z, [VStr "ann"; VInt 41])] 1)
  = Some (person_table [(1%Z, [VStr "ann"; VInt 41]); (2%Z, [VStr "bob"; VInt 30])] 2,
          ok [Object Person [("id", VInt 1); ("name", VStr "ann"); ("age", VInt 41)];
              Object Person [("id", VInt 2); ("name", VStr "bob"); ("age", VInt 30)]]).
Proof. reflexivity. Qed.

Lemma later_save_gets_new_id_example :
  exists i1 i2,
    getattr (Object Person [("name", VStr "bob"); ("age", VInt 30); ("id", VInt 1)]) "id"
    = Some (VInt i1)
    /\ getattr (Object Person [("name", VStr "ann"); ("age", VInt 41); ("id", VInt 2)]) "id"
       = Some (VInt i2)
    /\ (0 < i1 < i2)%Z.
Proof.
  apply (@later_save_gets_new_id unit (Manager.new Person)
           (person_table [] 0)
           (person_table [(1%Z, [VStr "bob"; VInt 30])] 1)
           (person_table [] 1)
           (person_table [(2%Z, [VStr "ann"; VInt 41])] 2)
           (Object Person [("name", VStr "bob"); ("age", VInt 30)])
           (Object Person [("name", VStr "ann"); ("age", VInt 41)])
           (Object Person [("name", VStr "bob"); ("age", VInt 30); ("id", VInt 1)])
           (Object Person [("name", VStr "ann"); ("age", VInt 41); ("id", VInt 2)])
           (Manager.delete (Manager.new Person)
              (Object Person [("name", VStr "bob"); ("age", VInt 30); ("id", VInt 1)]))
           (ok tt)).
  - reflexivity.
  - reflexivity.
  - reflexivity.
  - reflexivity.
  - reflexivity.
  - reflexivity.
  - reflexivity.
  - reflexivity.
  - reflexivity.
  - reflexivity.
Defined.

(** ** Programs on the database with its catalog *)

Lemma run_db_dbind {A B : Type} (p : dbprog A) (f : A -> dbprog B)
    (s : option Sqlite.table) :
  run_db (dbind p f) s
  = match run_db p s with
    | Some (s', inr a) => run_db (f a) s'
    | Some (s', inl e) => Some (s', inl e)
    | None => None
    end.
Proof.
  revert s. induction p as [a | e | sql args k IH | script k IH]; intros s;
    simpl; try reflexivity.
  - destruct (Store.execute s sql args) as [[s' [e | c]] |]; auto.
  - destruct (Store.executescript s script) as [[s' [e | u]] |]; auto.
Qed.

Lemma run_db_lift_bind {A B : Type} (p : prog A) (f : A -> prog B)
    (s : option Sqlite.table) :
  run_db (lift (bind p f)) s
  = match run_db (lift p) s with
    | Some (s', inr a) => run_db (lift (f a)) s'
    | Some (s', inl e) => Some (s', inl e)
    | None => None
    end.
Proof.
  revert s. induction p as [a | e | sql args k IH]; intros s; simpl;
    try reflexivity.
  destruct (Store.execute s sql args) as [[s' [e | c]] |]; auto.
Qed.

Lemma store_execute_table (t t' : Sqlite.table) (sql : string)
    (args : list value) (r : result cursor) :
  Sqlite.execute t sql args = Some (t', r) ->
  Store.execute (Some t) sql args = Some (Some t', r).
Proof. intros H. unfold Store.execute. now rewrite H. Qed.

(** A program the table model covers runs the same way on the database
    that holds the table. *)
Lemma run_db_lift {A : Type} (p : prog A) (t t' : Sqlite.table) (r : result A) :
  run p t = Some (t', r) -> run_db (lift p) (Some t) = Some (Some t', r).
Proof.
  revert t. induction p as [a | e | sql args k IH]; intros t H; simpl in *.
  - now injection H as <- <-.
  - now injection H as <- <-.
  - destruct (Sqlite.execute t sql args) as [[t1 [e | c]] |] eqn:E;
      try discriminate.
    + rewrite (store_execute_table _ _ _ E). now injection H as <- <-.
    + rewrite (store_execute_table _ _ _ E). now apply IH.
Qed.

(** ** Reading names back from a statement *)

Lemma take_ident_all (k : string) :
  Sqlite.all_chars Sqlite.ident_char k = true -> Store.take_ident k = k.
Proof.
  induction k as [|c k IH]; simpl; [reflexivity|]. intros H.
  apply Bool.andb_true_iff in H as [Hc Hk]. now rewrite Hc, (IH Hk).
Qed.

Lemma take_ident_append (k r : string) (c : ascii) :
  Sqlite.all_chars Sqlite.ident_char k = true ->
  Sqlite.ident_char c = false ->
  Store.take_ident (k ++ String c r) = k.
Proof.
  induction k as [|x k IH]; simpl; intros Hk Hc.
  - now rewrite Hc.
  - apply Bool.andb_true_iff in Hk as [Hx Hk]. now rewrite Hx, (IH Hk Hc).
Qed.

Lemma split_on_comma_plain (k : string) :
  Sqlite.all_chars (fun c => negb (Ascii.eqb c ","%char)) k = true ->
  Sqlite.split_on_comma k = [k].
Proof.
  induction k as [|c k IH]; simpl; [reflexivity|]. intros H.
  apply Bool.andb_true_iff in H as [Hc Hk].
  apply Bool.negb_true_iff in Hc. now rewrite Hc, (IH Hk).
Qed.

Lemma split_on_comma_plain_append (k r : string) :
  Sqlite.all_chars (fun c => negb (Ascii.eqb c ","%char)) k = true ->
  Sqlite.split_on_comma (k ++ String ","%char r) = k :: Sqlite.split_on_comma r.
Proof.
  induction k as [|c k IH]; simpl; [reflexivity|]. intros H.
  apply Bool.andb_true_iff in H as [Hc Hk].
  apply Bool.negb_true_iff in Hc. now rewrite Hc, (IH Hk).
Qed.

Lemma all_chars_append (f : ascii -> bool) (a b : string) :
  Sqlite.all_chars f (a ++ b) = Sqlite.all_chars f a && Sqlite.all_chars f b.
Proof.
  induction a as [|c a IH]; simpl; [reflexivity|].
  now rewrite IH, Bool.andb_assoc.
Qed.

Lemma all_chars_weaken (f g : ascii -> bool) (s : string) :
  (forall c, f c = true -> g c = true) ->
  Sqlite.all_chars f s = true -> Sqlite.all_chars g s = true.
Proof.
  intros Hfg. induction s as [|c s IH]; simpl; [reflexivity|]. intros H.
  apply Bool.andb_true_iff in H as [Hc Hs]. now rewrite (Hfg c Hc), (IH Hs).
Qed.

Lemma ident_no_comma (s : string) :
  Sqlite.all_chars Sqlite.ident_char s = true ->
  Sqlite.all_chars (fun c => negb (Ascii.eqb c ","%char)) s = true.
Proof.
  apply all_chars_weaken. intros c Hc.
  now rewrite (ident_char_neq c ","%char Hc eq_refl).
Qed.

(** The pieces of [c1= ?, c2= ?, c3] between the commas start with the
    column names. *)
Lemma update_pieces (ks : list string) (k : string) :
  forallb Sqlite.identifier (k :: ks) = true ->
  exists h tl,
    Sqlite.split_on_comma (String.concat "= ?, " (k :: ks)) = h :: tl
    /\ Store.take_ident h = k
    /\ map Store.take_ident (map Sqlite.strip_space tl) = ks.
Proof.
  revert k. induction ks as [|k' ks IH]; intros k H.
  - simpl in H. rewrite Bool.andb_true_r in H.
    pose proof (identifier_chars k H) as Hc.
    exists k, []. simpl. rewrite split_on_comma_plain by now apply ident_no_comma.
    repeat split. now apply take_ident_all.
  - change (forallb Sqlite.identifier (k :: k' :: ks))
      with (Sqlite.identifier k && forallb Sqlite.identifier (k' :: ks)) in H.
    apply Bool.andb_true_iff in H as [Hk Hks].
    pose proof (identifier_chars k Hk) as Hc.
    destruct (IH k' Hks) as (h' & tl' & Hsplit & Hh' & Htl').
    rewrite concat_cons.
    change ("= ?, " ++ String.concat "= ?, " (k' :: ks))
      with ("= ?" ++ String ","%char
              (String " "%char (String.concat "= ?, " (k' :: ks)))).
    rewrite <- append_assoc.
    rewrite split_on_comma_plain_append
      by (rewrite all_chars_append, (ident_no_comma _ Hc); reflexivity).
    change (Sqlite.split_on_comma
              (String " "%char (String.concat "= ?, " (k' :: ks))))
      with (match Sqlite.split_on_comma (String.concat "= ?, " (k' :: ks)) with
            | h :: tl => String " "%char h :: tl
            | [] => [String " "%char EmptyString]
            end).
    rewrite Hsplit.
    exists (k ++ "= ?"), (String " "%char h' :: tl'). repeat split.
    + now apply take_ident_append.
    + cbn [map Sqlite.strip_space Ascii.eqb Bool.eqb]. cbn. now rewrite Hh', Htl'.
Qed.

Lemma update_columns_rendered (t : Sqlite.table) (ks : list string) :
  ks <> [] -> forallb Sqlite.identifier ks = true ->
  Store.update_columns t (Store.update_sql t ks) = ks.
Proof.
  intros Hne Hid. unfold Store.update_columns, Store.update_sql.
  rewrite drop_append, length_append, Nat.add_sub, take_append.
  destruct ks as [|k ks]; [now elim Hne|].
  destruct (update_pieces ks k Hid) as (h & tl & Hsplit & Hh & Htl).
  rewrite Hsplit. cbn [map]. rewrite Htl. f_equal.
  assert (Hstart : Sqlite.strip_space h = h).
  { simpl in Hid. apply Bool.andb_true_iff in Hid as [Hk _].
    pose proof (identifier_chars k Hk) as Hc.
    destruct k as [|c k]; [discriminate|].
    destruct h as [|x h]; [reflexivity|]. simpl in Hh |- *.
    destruct (Sqlite.ident_char x) eqn:Hx; [|discriminate].
    now rewrite (ident_char_neq x " "%char Hx eq_refl). }
  now rewrite Hstart.
Qed.

(** ** [update] on the table *)

Lemma update_sql_shape (name : string) (ks : list string) (t : Sqlite.table) :
  name = Sqlite.tbl_name t ->
  "UPDATE " ++ name ++ " SET " ++ (String.concat "= ?, " ks ++ "= ?")
  ++ " WHERE id = ?"
  = Store.update_sql t ks.
Proof.
  intros ->. unfold Store.update_sql, Store.update_head, Store.update_tail.
  rewrite !append_assoc. reflexivity.
Qed.

Lemma sqlite_execute_update (t : Sqlite.table) (ks : list string)
    (args : list value) :
  Sqlite.execute t (Store.update_sql t ks) args = None.
Proof.
  unfold Sqlite.execute.
  destruct (negb (Sqlite.identifier (Sqlite.tbl_name t))); [reflexivity|].
  unfold Store.update_sql, Store.update_head, Sqlite.insert_head.
  cbn [String.append String.eqb Ascii.eqb Bool.eqb andb].
  cbn [String.prefix]. destruct (ascii_dec "i" "U") as [E|_]; [discriminate E|].
  reflexivity.
Qed.

Lemma combine_keys_values_more (d : attrs) (extra : list value) :
  combine (keys d) (values d ++ extra)%list = d.
Proof.
  induction d as [|[k v] d IH]; simpl; [now destruct extra | now rewrite IH].
Qed.

Lemma bindable_fits (l : list value) :
  forallb Store.bindable l = true -> existsb Sqlite.too_large l = false.
Proof.
  induction l as [|v l IH]; simpl; [reflexivity|]. intros H.
  apply Bool.andb_true_iff in H as [Hv Hl]. rewrite (IH Hl).
  destruct v; simpl in *; try reflexivity. now rewrite Hv.
Qed.

Lemma store_execute_update (t : Sqlite.table) (given : attrs) (i : Z)
    (rs : list (Z * list value)) :
  Sqlite.identifier (Sqlite.tbl_name t) = true ->
  updatable t given i = true ->
  Store.update_rows (Sqlite.columns t) given i (Sqlite.rows t) = Some rs ->
  Store.execute (Some t) (Store.update_sql t (keys given))
    (values given ++ [VInt i])%list
  = Some (Some (Sqlite.Table (Sqlite.tbl_name t) (Sqlite.columns t) rs
                  (Sqlite.seq t)),
          ok (Cursor [] VNone)).
Proof.
  intros Ht Hup Hrows. unfold updatable in Hup.
  apply Bool.andb_true_iff in Hup as [Hup _].
  apply Bool.andb_true_iff in Hup as [Hup Hbind].
  apply Bool.andb_true_iff in Hup as [Hup Hcols].
  apply Bool.andb_true_iff in Hup as [Hup Hdup].
  apply Bool.andb_true_iff in Hup as [Hup Hids].
  apply Bool.andb_true_iff in Hup as [Hne Hi].
  assert (Hkeys : keys given <> []) by (destruct given; [discriminate | discriminate]).
  assert (Hall : forallb Store.bindable (values given ++ [VInt i])%list = true).
  { rewrite forallb_app, Hbind. cbn [forallb Store.bindable andb].
    now rewrite Hi. }
  unfold Store.execute. rewrite sqlite_execute_update.
  replace (String.eqb (Store.update_sql t (keys given)) Store.catalog_sql)
    with false by reflexivity.
  unfold Store.update.
  rewrite update_columns_rendered by assumption.
  rewrite Ht, String.eqb_refl, length_app, length_values, length_keys.
  replace (length given + length [VInt i]) with (S (length given))
    by (simpl; lia).
  rewrite Nat.eqb_refl, Hids, Hdup, Hcols. cbn [andb].
  rewrite (bindable_fits _ Hall), Hall. cbn [negb].
  rewrite last_last, combine_keys_values_more, Hrows. reflexivity.
Qed.

Lemma update_rows_missing (cols : list (string * string)) (given : attrs)
    (i : Z) (rs : list (Z * list value)) :
  ~ In i (map fst rs) -> Store.update_rows cols given i rs = Some rs.
Proof.
  induction rs as [|r rs IH]; simpl; [reflexivity|]. intros H.
  destruct (Z.eqb_spec (fst r) i) as [E|_]; [elim H; now left|].
  rewrite IH; [reflexivity|]. intros Hin. apply H. now right.
Qed.

Lemma run_db_update (self : Manager.t) (t : Sqlite.table) (obj : object)
    (i : Z) (rs : list (Z * list value)) :
  Sqlite.identifier (Sqlite.tbl_name t) = true ->
  Manager.tablename self = Sqlite.tbl_name t ->
  getattr obj "id" = Some (VInt i) ->
  updatable t (cut_attrs obj "id") i = true ->
  Store.update_rows (Sqlite.columns t) (cut_attrs obj "id") i (Sqlite.rows t)
  = Some rs ->
  run_db (lift (Manager.update self obj)) (Some t)
  = Some (Some (Sqlite.Table (Sqlite.tbl_name t) (Sqlite.columns t) rs
                  (Sqlite.seq t)),
          ok tt).
Proof.
  intros Ht Hname Hid Hup Hrows. unfold Manager.update, Manager.obj_id.
  rewrite Hid. cbn [bind execute lift run_db].
  rewrite (update_sql_shape _ t Hname).
  now rewrite (@store_execute_update _ _ _ _ Ht Hup Hrows).
Qed.

Lemma updatable_int64 (t : Sqlite.table) (given : attrs) (i : Z) :
  updatable t given i = true -> Sqlite.int64 i = true.
Proof.
  unfold updatable. intros H.
  do 5 (apply Bool.andb_true_iff in H as [H _]).
  now apply Bool.andb_true_iff in H as [_ H].
Qed.

(** [update] of a record whose id no row has is not an error and changes
    nothing: the table, its rows and its counter of ids are as before.
    The id and the values are ones the driver can bind, integers within
    64 bits. *)
Theorem update_missing_id (self : Manager.t) (t : Sqlite.table)
    (obj : object) (i : Z) :
  Store.plain_name (Sqlite.tbl_name t) = true ->
  Manager.tablename self = Sqlite.tbl_name t ->
  getattr obj "id" = Some (VInt i) ->
  ~ In i (Sqlite.ids t) ->
  updatable t (cut_attrs obj "id") i = true ->
  run_db (lift (Manager.update self obj)) (Some t) = Some (Some t, ok tt).
Proof.
  intros Hp Hname Hid Hnot Hup.
  pose proof (plain_name_identifier _ Hp) as Ht.
  rewrite (@run_db_update self t obj i (Sqlite.rows t)); try assumption.
  - now destruct t.
  - apply update_rows_missing, not_in_ids; [|assumption].
    now apply updatable_int64 in Hup.
Qed.

Lemma update_missing_id_witness :
  run_db (lift (Manager.update (Manager.new Person)
                  (Object Person [("id", VInt 9); ("name", VStr "bob"); ("age", VInt 30)])))
         (Some (person_table [(1%Z, [VStr "ann"; VInt 41])] 1))
  = Some (Some (person_table [(1%Z, [VStr "ann"; VInt 41])] 1), ok tt).
Proof.
  apply (@update_missing_id (Manager.new Person)
           (person_table [(1%Z, [VStr "ann"; VInt 41])] 1)
           (Object Person [("id", VInt 9); ("name", VStr "bob"); ("age", VInt 30)])
           9%Z).
  - reflexivity.
  - reflexivity.
  - reflexivity.
  - simpl. intros [H | []]. discriminate H.
  - reflexivity.
Defined.

Lemma update_values_lookup (cols : list (string * string)) (given : attrs)
    (old vs : list value) (k ty : string) :
  Store.update_values cols given old = Some vs ->
  Sqlite.column_type k cols = Some ty ->
  lookup k (combine (map fst cols) vs)
  = match lookup k given with
    | Some v => Sqlite.stored ty v
    | None => lookup k (combine (map fst cols) old)
    end.
Proof.
  revert old vs. induction cols as [|[c ty'] cols IH]; intros old vs Hup Hty;
    simpl in *.
  - discriminate.
  - destruct old as [|o old]; [discriminate|].
    destruct (match lookup c given with
              | Some v => Sqlite.stored ty' v
              | None => Some o
              end) as [w|] eqn:Hw; [|discriminate].
    destruct (Store.update_values cols given old) as [ws|] eqn:Hws;
      [|discriminate].
    injection Hup as <-. simpl.
    destruct (String.eqb_spec k c) as [->|E].
    + injection Hty as <-. destruct (lookup c given); now rewrite Hw.
    + now apply IH.
Qed.

Lemma update_rows_ids (cols : list (string * string)) (given : attrs) (i : Z)
    (rs rs' : list (Z * list value)) :
  Store.update_rows cols given i rs = Some rs' -> map fst rs' = map fst rs.
Proof.
  revert rs'. induction rs as [|r rs IH]; intros rs' H; simpl in H.
  - now injection H as <-.
  - destruct (if Z.eqb (fst r) i
              then option_map (pair (fst r)) (Store.update_values cols given (snd r))
              else Some r) as [r'|] eqn:Hr; [|discriminate].
    destruct (Store.update_rows cols given i rs) as [rs1|]; [|discriminate].
    injection H as <-. simpl. rewrite (IH rs1 eq_refl). f_equal.
    destruct (Z.eqb (fst r) i).
    + destruct (Store.update_values cols given (snd r)); [|discriminate].
      now injection Hr as <-.
    + now injection Hr as <-.
Qed.

Lemma update_rows_first (cols : list (string * string)) (given : attrs) (i : Z)
    (rs rs' : list (Z * list value)) (r : Z * list value)
    (rest : list (Z * list value)) :
  Store.update_rows cols given i rs = Some rs' ->
  List.filter (fun x => Z.eqb (fst x) i) rs = r :: rest ->
  exists vs rest',
    Store.update_values cols given (snd r) = Some vs
    /\ List.filter (fun x => Z.eqb (fst x) i) rs' = (i, vs) :: rest'.
Proof.
  revert rs'. induction rs as [|x rs IH]; intros rs' H Hf; simpl in H, Hf.
  - discriminate.
  - destruct (Z.eqb_spec (fst x) i) as [E|E].
    + injection Hf as -> _.
      destruct (Store.update_values cols given (snd r)) as [vs|]; [|discriminate].
      destruct (Store.update_rows cols given i rs) as [rs1|]; [|discriminate].
      injection H as <-. exists vs. simpl. rewrite E, Z.eqb_refl. eauto.
    + destruct (Store.update_rows cols given i rs) as [rs1|] eqn:H1;
        [|discriminate].
      injection H as <-. simpl.
      destruct (Z.eqb_spec (fst x) i) as [E'|_]; [contradiction|].
      now apply (IH rs1).
Qed.

Lemma run_get_first (self : Manager.t) (t : Sqlite.table) (i : Z)
    (r : Z * list value) (rest : list (Z * list value)) :
  Sqlite.identifier (Sqlite.tbl_name t) = true ->
  Manager.tablename self = Sqlite.tbl_name t ->
  Sqlite.int64 i = true ->
  mem "self" (map fst (Sqlite.columns t)) = false ->
  List.filter (fun x => Z.eqb (fst x) i) (Sqlite.rows t) = r :: rest ->
  run (Manager.get self (VInt i)) t
  = Some (t, ok (Manager.create self (Sqlite.row_attrs t r))).
Proof.
  intros Ht Hname Hi Hself Hf. unfold Manager.get. rewrite Hname.
  cbn [bind execute run].
  rewrite execute_select_row by assumption. rewrite Hi, Hf. unfold ok at 1.
  cbn [map fetchone fetchall hd_error]. now rewrite call_create_row.
Qed.

(** After [update(obj)] on an id that a row has, with values the driver
    can bind (integers within 64 bits) on a table without a column named
    [self], [get] with that id returns a record in which every column
    the statement sets holds the record's value, as the column keeps it,
    and every other column holds what the row held before; no row is
    added or removed and the counter of ids is unchanged. *)
Theorem update_then_get (self : Manager.t) (t : Sqlite.table)
    (obj : object) (i : Z) :
  Store.plain_name (Sqlite.tbl_name t) = true ->
  Manager.tablename self = Sqlite.tbl_name t ->
  mem "self" (map fst (Sqlite.columns t)) = false ->
  getattr obj "id" = Some (VInt i) ->
  In i (Sqlite.ids t) ->
  updatable t (cut_attrs obj "id") i = true ->
  exists t' got old,
    run_db (lift (_ <- Manager.update self obj ;; Manager.get self (VInt i)))
      (Some t)
    = Some (Some t', ok got)
    /\ Sqlite.ids t' = Sqlite.ids t
    /\ Sqlite.seq t' = Sqlite.seq t
    /\ In (i, old) (Sqlite.rows t)
    /\ lookup "id" (__dict__ got) = Some (VInt i)
    /\ (forall k ty,
           Sqlite.column_type k (Sqlite.columns t) = Some ty ->
           k <> "id" ->
           lookup k (__dict__ got)
           = match lookup k (cut_attrs obj "id") with
             | Some v => Sqlite.stored ty v
             | None => lookup k (combine (map fst (Sqlite.columns t)) old)
             end).
Proof.
  intros Hp Hname Hself Hid Hin Hup.
  pose proof (plain_name_identifier _ Hp) as Ht.
  apply in_ids in Hin as [Hin Hi].
  destruct (Store.update_rows (Sqlite.columns t) (cut_attrs obj "id") i
              (Sqlite.rows t)) as [rs|] eqn:Hrows.
  2:{ unfold updatable in Hup. rewrite Hrows in Hup.
      now rewrite Bool.andb_false_r in Hup. }
  destruct (filter_id_cons _ _ Hin) as ([j old] & rest & Hf).
  assert (Hj : In (j, old) (List.filter (fun r => Z.eqb (fst r) i) (Sqlite.rows t)))
    by (rewrite Hf; now left).
  apply filter_In in Hj as [Hrow Hj]. simpl in Hj. apply Z.eqb_eq in Hj. subst j.
  destruct (update_rows_first _ _ _ _ Hrows Hf) as (vs & rest' & Hvs & Hf').
  simpl in Hvs.
  set (t' := Sqlite.Table (Sqlite.tbl_name t) (Sqlite.columns t) rs (Sqlite.seq t)).
  exists t', (Manager.create self (Sqlite.row_attrs t' (i, vs))), old.
  split.
  - rewrite run_db_lift_bind.
    rewrite (@run_db_update self t obj i rs) by assumption.
    unfold ok at 1. apply run_db_lift.
    now apply (@run_get_first self t' i (i, vs) rest').
  - split; [unfold Sqlite.ids; cbn [t' Sqlite.rows];
             now rewrite (update_rows_ids _ _ _ _ Hrows)|].
    split; [reflexivity|]. split; [assumption|]. split; [reflexivity|].
    intros k ty Hty Hk. unfold Manager.create, Sqlite.row_attrs.
    cbn [__dict__ lookup fst snd Sqlite.columns t'].
    destruct (String.eqb_spec k "id") as [E|_]; [contradiction|].
    now rewrite (@update_values_lookup _ _ _ _ _ _ Hvs Hty).
Qed.

Lemma update_then_get_witness :
  exists t' got old,
    run_db (lift (_ <- Manager.update (Manager.new Person)
                         (Object Person [("id", VInt 1); ("age", VInt 42)]) ;;
                  Manager.get (Manager.new Person) (VInt 1)))
      (Some (person_table [(1%Z, [VStr "ann"; VInt 41]); (2%Z, [VStr "bob"; VInt 30])] 2))
    = Some (Some t', ok got)
    /\ Sqlite.ids t'
       = Sqlite.ids (person_table [(1%Z, [VStr "ann"; VInt 41]); (2%Z, [VStr "bob"; VInt 30])] 2)
    /\ Sqlite.seq t' = 2%Z
    /\ In (1%Z, old) [(1%Z, [VStr "ann"; VInt 41]); (2%Z, [VStr "bob"; VInt 30])]
    /\ lookup "id" (__dict__ got) = Some (VInt 1)
    /\ (forall k ty,
           Sqlite.column_type k [("name", "text"); ("age", "integer")] = Some ty ->
           k <> "id" ->
           lookup k (__dict__ got)
           = match lookup k (cut_attrs (Object Person [("id", VInt 1); ("age", VInt 42)]) "id") with
             | Some v => Sqlite.stored ty v
             | None => lookup k (combine (map fst [("name", "text"); ("age", "integer")]) old)
             end).
Proof.
  apply (@update_then_get (Manager.new Person)
           (person_table [(1%Z, [VStr "ann"; VInt 41]); (2%Z, [VStr "bob"; VInt 30])] 2)
           (Object Person [("id", VInt 1); ("age", VInt 42)]) 1%Z).
  - reflexivity.
  - reflexivity.
  - reflexivity.
  - reflexivity.
  - simpl. now left.
  - reflexivity.
Defined.

(** That run, evaluated: the age is the new one, the name is kept. *)
Example update_then_get_example :
  run_db (lift (_ <- Manager.update (Manager.new Person)
                       (Object Person [("id", VInt 1); ("age", VInt 42)]) ;;
                Manager.get (Manager.new Person) (VInt 1)))
    (Some (person_table [(1%Z, [VStr "ann"; VInt 41]); (2%Z, [VStr "bob"; VInt 30])] 2))
  = Some (Some (person_table [(1%Z, [VStr "ann"; VInt 42]); (2%Z, [VStr "bob"; VInt 30])] 2),
          ok (Object Person [("id", VInt 1); ("name", VStr "ann"); ("age", VInt 42)])).
Proof. reflexivity. Qed.

(** ** The fields of stored and returned records *)

Lemma lookup_store_other (k k' : string) (v : value) (d : attrs) :
  k <> k' -> lookup k (store k' v d) = lookup k d.
Proof.
  intros Hne. induction d as [|[c w] d IH]; simpl.
  - destruct (String.eqb_spec k k'); [contradiction | reflexivity].
  - destruct (String.eqb_spec k' c) as [->|E]; simpl.
    + destruct (String.eqb_spec k c); [contradiction | reflexivity].
    + destruct (String.eqb k c); [reflexivity | exact IH].
Qed.

Lemma matches_setattr_id (obj : object) (v : value) :
  matches_descriptor obj -> matches_descriptor (setattr obj "id" v).
Proof.
  unfold matches_descriptor, non_id_fields, setattr. cbn [__dict__ __class__].
  now rewrite non_id_store.
Qed.

Lemma keys_combine (cs : list string) (vs : list value) :
  length vs = length cs -> keys (combine cs vs) = cs.
Proof.
  revert vs. induction cs as [|c cs IH]; intros [|v vs] H; try discriminate;
    [reflexivity|].
  simpl in *. f_equal. apply IH. now injection H.
Qed.

Lemma shaped_row (t : Sqlite.table) (r : Z * list value) :
  Sqlite.shaped t = true -> In r (Sqlite.rows t) ->
  length (snd r) = length (map fst (Sqlite.columns t)).
Proof.
  unfold Sqlite.shaped. rewrite forallb_forall. intros H Hin.
  rewrite length_map. now apply Nat.eqb_eq, H.
Qed.

(** The record [create] makes of a row of a table with the persisted
    layout has the declared fields of the class, besides [id]. *)
Lemma hydrate_matches (self : Manager.t) (t : Sqlite.table)
    (r : Z * list value) :
  persisted_layout (Manager.model self) t -> In r (Sqlite.rows t) ->
  matches_descriptor (Manager.create self (Sqlite.row_attrs t r)).
Proof.
  intros [Hcols Hshape] Hin. unfold matches_descriptor, non_id_fields.
  cbn [Manager.create __dict__ __class__].
  replace (keys (Sqlite.row_attrs t r))
    with ("id" :: keys (combine (map fst (Sqlite.columns t)) (snd r)))
    by reflexivity.
  rewrite keys_combine by now apply shaped_row.
  exact Hcols.
Qed.

Lemma new_row_length (cols : list (string * string)) (given : attrs)
    (vs : list value) :
  Sqlite.new_row cols given = Some vs -> length vs = length cols.
Proof.
  revert vs. induction cols as [|[c ty] cols IH]; intros vs H; simpl in H.
  - now injection H as <-.
  - destruct (match lookup c given with
              | Some v => Sqlite.stored ty v
              | None => Some VNone
              end); [|discriminate].
    destruct (Sqlite.new_row cols given) as [ws|]; [|discriminate].
    injection H as <-. simpl. f_equal. now apply IH.
Qed.

Lemma layout_insert_row (m : model_class) (t : Sqlite.table) (vs : list value) :
  persisted_layout m t -> length vs = length (Sqlite.columns t) ->
  persisted_layout m (Sqlite.insert_row t vs).
Proof.
  intros [Hcols Hshape] Hlen. split; [exact Hcols|].
  unfold Sqlite.shaped, Sqlite.insert_row in *. cbn [Sqlite.rows Sqlite.columns].
  rewrite forallb_app, Hshape. cbn [forallb snd andb].
  now rewrite Hlen, Nat.eqb_refl.
Qed.

Lemma update_values_length (cols : list (string * string)) (given : attrs)
    (old vs : list value) :
  Store.update_values cols given old = Some vs -> length vs = length cols.
Proof.
  revert old vs. induction cols as [|[c ty] cols IH]; intros old vs H; simpl in H.
  - now injection H as <-.
  - destruct old as [|o old]; [discriminate|].
    destruct (match lookup c given with
              | Some v => Sqlite.stored ty v
              | None => Some o
              end); [|discriminate].
    destruct (Store.update_values cols given old) as [ws|] eqn:E; [|discriminate].
    injection H as <-. simpl. f_equal. now apply (IH old).
Qed.

Lemma update_rows_shaped (cols : list (string * string)) (given : attrs)
    (i : Z) (rs rs' : list (Z * list value)) :
  Store.update_rows cols given i rs = Some rs' ->
  forallb (fun r => Nat.eqb (length (snd r)) (length cols)) rs = true ->
  forallb (fun r => Nat.eqb (length (snd r)) (length cols)) rs' = true.
Proof.
  revert rs'. induction rs as [|r rs IH]; intros rs' H Hs; simpl in H.
  - now injection H as <-.
  - simpl in Hs. apply Bool.andb_true_iff in Hs as [Hr Hrs].
    destruct (if Z.eqb (fst r) i
              then option_map (pair (fst r)) (Store.update_values cols given (snd r))
              else Some r) as [r'|] eqn:E; [|discriminate].
    destruct (Store.update_rows cols given i rs) as [rs1|]; [|discriminate].
    injection H as <-. simpl. rewrite (IH rs1 eq_refl Hrs), Bool.andb_true_r.
    destruct (Z.eqb (fst r) i).
    + destruct (Store.update_values cols given (snd r)) as [vs|] eqn:Hv;
        [|discriminate].
      injection E as <-. simpl.
      now rewrite (update_values_length _ _ _ Hv), Nat.eqb_refl.
    + now injection E as <-.
Qed.

(** What the engine model does to the table on an UPDATE that succeeds:
    name and columns stay, and so does the shape of the rows. *)
Lemma store_update_layout (m : model_class) (t t' : Sqlite.table)
    (sql : string) (args : list value) (c : cursor) :
  Store.update t sql args = Some (t', ok c) ->
  persisted_layout m t -> persisted_layout m t'.
Proof.
  unfold Store.update. intros H [Hcols Hshape].
  destruct (_ && _); [|discriminate].
  destruct (existsb Sqlite.too_large args); [discriminate|].
  destruct (negb (forallb Store.bindable args)); [discriminate|].
  destruct (last args VNone) as [|i| | | | |]; try discriminate.
  - injection H as <- _. now split.
  - destruct (Store.update_rows (Sqlite.columns t)
                (combine (Store.update_columns t sql) args) i (Sqlite.rows t))
      as [rs|] eqn:Hrows; [|discriminate].
    injection H as <- _. split; [exact Hcols|].
    unfold Sqlite.shaped in *. cbn [Sqlite.rows Sqlite.columns].
    now apply (update_rows_shaped _ _ _ _ Hrows).
Qed.

(** What the engine model does on an insert that succeeds: one row more,
    with one value per column, under the next id. *)
Lemma insert_inv (t t' : Sqlite.table) (sql : string) (args : list value)
    (c : cursor) :
  Sqlite.insert t sql args = Some (t', ok c) ->
  exists vs, t' = Sqlite.insert_row t vs
             /\ length vs = length (Sqlite.columns t)
             /\ c = Cursor [] (VInt (Sqlite.next_id t)).
Proof.
  unfold Sqlite.insert. intros H.
  destruct (_ || _); [discriminate|].
  destruct (List.find _ _); [discriminate|].
  destruct (existsb Sqlite.too_large args); [discriminate|].
  destruct (negb (Sqlite.int64 (Sqlite.next_id t))); [discriminate|].
  destruct (Sqlite.new_row _ _) as [vs|] eqn:Hrow; [|discriminate].
  injection H as <- <-. exists vs. repeat split.
  now apply new_row_length in Hrow.
Qed.

Lemma has_keeps_table (self : Manager.t) (t t' : Sqlite.table)
    (id : value) (r : result bool) :
  Sqlite.identifier (Sqlite.tbl_name t) = true ->
  Manager.tablename self = Sqlite.tbl_name t ->
  run (Manager.has self id) t = Some (t', r) -> t' = t.
Proof.
  intros Ht Hname. unfold Manager.has. rewrite Hname.
  cbn [bind execute run]. unfold Sqlite.execute.
  rewrite Ht, String.eqb_refl. cbn [negb].
  destruct (Sqlite.too_large id); [intros H; now injection H|].
  destruct (Sqlite.where_id t id); [|discriminate].
  unfold ok at 1. cbn [run]. intros H. now injection H.
Qed.

Lemma execute_insert_inv (t t' : Sqlite.table) (rest : string)
    (args : list value) (c : cursor) :
  Sqlite.execute t (Sqlite.insert_head t ++ rest) args = Some (t', ok c) ->
  Sqlite.insert t (Sqlite.insert_head t ++ rest) args = Some (t', ok c).
Proof.
  unfold Sqlite.execute.
  destruct (negb (Sqlite.identifier (Sqlite.tbl_name t))); [discriminate|].
  unfold Sqlite.insert_head at 1 2 3 4.
  cbn [String.append String.eqb Ascii.eqb Bool.eqb andb].
  destruct (String.eqb _ _); [discriminate|].
  now destruct (String.prefix _ _).
Qed.

(** [save] on the table when it returns: one row more under the next
    id, and the record with that id set. *)
Lemma run_save_inv (self : Manager.t) (t t' : Sqlite.table)
    (obj obj' : object) :
  Sqlite.identifier (Sqlite.tbl_name t) = true ->
  Manager.tablename self = Sqlite.tbl_name t ->
  run (Manager.save self obj) t = Some (t', ok obj') ->
  exists vs, t' = Sqlite.insert_row t vs
             /\ length vs = length (Sqlite.columns t)
             /\ obj' = setattr obj "id" (VInt (Sqlite.next_id t)).
Proof.
  intros Ht Hname. unfold Manager.save. rewrite run_bind.
  assert (Hreg : forall t1 r,
             run (if hasattr obj "id"
                  then bind (Manager.obj_id obj) (fun id => Manager.has self id)
                  else Ret false) t = Some (t1, r) -> t1 = t).
  { intros t1 r. destruct (hasattr obj "id").
    - unfold Manager.obj_id. destruct (getattr obj "id") as [v|]; cbn [bind].
      + now apply has_keeps_table.
      + intros H. now injection H.
    - intros H. now injection H. }
  destruct (run (if hasattr obj "id"
                 then bind (Manager.obj_id obj) (fun id => Manager.has self id)
                 else Ret false) t) as [[t1 [e | registered]] |] eqn:E in |- *;
    try discriminate.
  apply Hreg in E. subst t1. destruct registered.
  - unfold Manager.obj_id. destruct (getattr obj "id"); discriminate.
  - cbn [bind execute run].
    rewrite question_marks, (save_sql _ _ t Hname).
    destruct (Sqlite.execute t _ _) as [[t2 [e | c]] |] eqn:Hexec;
      try discriminate.
    apply execute_insert_inv, insert_inv in Hexec as (vs & -> & Hlen & ->).
    cbn [run lastrowid]. intros H. injection H as <- <-. eauto.
Qed.

(** [update] on the database when it returns: the table is still there,
    with its columns and the shape of its rows. *)
Lemma run_db_update_inv (self : Manager.t) (t : Sqlite.table) (obj : object)
    (s' : option Sqlite.table) :
  Manager.tablename self = Sqlite.tbl_name t ->
  run_db (lift (Manager.update self obj)) (Some t) = Some (s', ok tt) ->
  exists t' c,
    s' = Some t'
    /\ Store.update t (Store.update_sql t (keys (cut_attrs obj "id")))
         (values (cut_attrs obj "id") ++ [match getattr obj "id" with
                                          | Some v => v
                                          | None => VNone
                                          end])%list
       = Some (t', ok c).
Proof.
  intros Hname. unfold Manager.update, Manager.obj_id.
  destruct (getattr obj "id") as [v|]; [|discriminate].
  cbn [bind execute lift run_db].
  rewrite (update_sql_shape _ t Hname).
  unfold Store.execute. rewrite sqlite_execute_update.
  replace (String.eqb (Store.update_sql t (keys (cut_attrs obj "id")))
             Store.catalog_sql) with false by reflexivity.
  destruct (Store.update t _ _) as [[t' [e | c]] |] eqn:Hup; try discriminate.
  intros H. injection H as <-. eauto.
Qed.

Lemma where_id_rows (t : Sqlite.table) (arg : value)
    (rs : list (Z * list value)) (r : Z * list value) :
  Sqlite.where_id t arg = Some rs -> In r rs -> In r (Sqlite.rows t).
Proof.
  destruct arg; simpl; try discriminate.
  - intros H. now injection H as <-.
  - destruct (Sqlite.int64 z); [|discriminate].
    intros H. injection H as <-. intros Hin. now apply filter_In in Hin.
Qed.

(** [get] on the table when it returns: the record of one of the rows. *)
Lemma run_get_inv (self : Manager.t) (t t' : Sqlite.table) (id : value)
    (got : object) :
  Sqlite.identifier (Sqlite.tbl_name t) = true ->
  Manager.tablename self = Sqlite.tbl_name t ->
  run (Manager.get self id) t = Some (t', ok got) ->
  t' = t
  /\ exists r, In r (Sqlite.rows t)
               /\ got = Manager.create self (Sqlite.row_attrs t r).
Proof.
  intros Ht Hname. unfold Manager.get. rewrite Hname.
  cbn [bind execute run]. unfold Sqlite.execute. rewrite Ht. cbn [negb].
  cbn [String.append String.eqb Ascii.eqb Bool.eqb andb].
  rewrite String.eqb_refl.
  destruct (Sqlite.too_large id); [discriminate|].
  destruct (Sqlite.where_id t id) as [rs|] eqn:Hw; [|discriminate].
  unfold ok at 1. destruct rs as [|r rs]; [discriminate|].
  cbn [map fetchone fetchall hd_error]. unfold Manager.call_create.
  destruct (mem "self" (keys (Sqlite.row_attrs t r))); [discriminate|].
  cbn [run]. intros H. injection H as <- <-. split; [reflexivity|].
  exists r. split; [|reflexivity].
  apply (@where_id_rows t id (r :: rs) r Hw). now left.
Qed.

Lemma run_call_create_each_inv (self : Manager.t) (u u' : Sqlite.table)
    (rows : list attrs) (l : list object) :
  run (Manager.call_create_each self rows) u = Some (u', ok l) ->
  u' = u /\ l = map (Manager.create self) rows.
Proof.
  revert u' l. induction rows as [|row rows IH]; intros u' l;
    cbn [Manager.call_create_each].
  - intros H. injection H as <- <-. now split.
  - unfold Manager.call_create at 1.
    destruct (mem "self" (keys row)); [discriminate|]. cbn [bind].
    rewrite run_bind.
    destruct (run (Manager.call_create_each self rows) u)
      as [[u1 [e | objs]] |] eqn:E in |- *; try discriminate.
    destruct (IH _ _ E) as [-> ->].
    cbn [run]. intros H. injection H as <- <-. now split.
Qed.

(** [all] on the table when it returns: the records of the rows. *)
Lemma run_all_inv (self : Manager.t) (t t' : Sqlite.table) (l : list object) :
  Sqlite.identifier (Sqlite.tbl_name t) = true ->
  Manager.tablename self = Sqlite.tbl_name t ->
  run (Manager.all self) t = Some (t', ok l) ->
  t' = t
  /\ l = map (fun r => Manager.create self (Sqlite.row_attrs t r)) (Sqlite.rows t).
Proof.
  intros Ht Hname. unfold Manager.all. rewrite Hname.
  cbn [bind execute run]. rewrite execute_select_all by assumption.
  unfold ok at 1. cbn [fetchall]. intros H.
  apply run_call_create_each_inv in H as [-> ->]. split; [reflexivity|].
  apply map_map.
Qed.
(** C9: the operations that produce or store a record keep the record's
    fields other than [id] equal to the declared fields of its class.
    The table has the persisted layout of the class: after [id], one
    column per declared field, and one value per column in every row.
    - [save], whatever the engine answers, returns the record it was
      given with [id] set and every other attribute, name and value,
      untouched: a record that matches its descriptor matches it after
      [save].  On the table it adds one row with one value per column,
      under the next id, which it sets on the record; the layout stays.
    - [update] returns nothing and leaves the record alone; on the table
      it keeps the columns and the shape of every row.
    - [create] makes of a stored row a record of the repository's class
      whose attributes are [id] and the columns, so one that matches the
      descriptor; [get] and [all] return only such records and change
      nothing.
    - Each of them does return: [save] for a record the table takes,
      [update] for one it can bind, [get] for an id that a row has and
      [all] always, on a table without a column named [self]. *)
Theorem operations_preserve_fields (self : Manager.t) (t : Sqlite.table) :
  Sqlite.identifier (Sqlite.tbl_name t) = true ->
  Manager.tablename self = Sqlite.tbl_name t ->
  persisted_layout (Manager.model self) t ->
  (forall obj obj',
      returns (Manager.save self obj) obj' ->
      exists v,
        obj' = setattr obj "id" v
        /\ lookup "id" (__dict__ obj') = Some v
        /\ (forall k, k <> "id" ->
                      lookup k (__dict__ obj') = lookup k (__dict__ obj))
        /\ __class__ obj' = __class__ obj
        /\ non_id_fields obj' = non_id_fields obj
        /\ (matches_descriptor obj -> matches_descriptor obj'))
  /\ (forall obj obj' t',
         run (Manager.save self obj) t = Some (t', ok obj') ->
         obj' = setattr obj "id" (VInt (Sqlite.next_id t))
         /\ (exists vs, Sqlite.rows t' = (Sqlite.rows t ++ [(Sqlite.next_id t, vs)])%list)
         /\ persisted_layout (Manager.model self) t')
  /\ (forall obj s',
         run_db (lift (Manager.update self obj)) (Some t) = Some (s', ok tt) ->
         exists t', s' = Some t' /\ persisted_layout (Manager.model self) t')
  /\ (forall r,
         In r (Sqlite.rows t) ->
         __class__ (Manager.create self (Sqlite.row_attrs t r)) = Manager.model self
         /\ __dict__ (Manager.create self (Sqlite.row_attrs t r))
            = Sqlite.row_attrs t r
         /\ matches_descriptor (Manager.create self (Sqlite.row_attrs t r)))
  /\ (forall id got t',
         run (Manager.get self id) t = Some (t', ok got) ->
         t' = t /\ __class__ got = Manager.model self /\ matches_descriptor got)
  /\ (forall l t',
         run (Manager.all self) t = Some (t', ok l) ->
         t' = t
         /\ length l = length (Sqlite.rows t)
         /\ forall o, In o l ->
                      __class__ o = Manager.model self /\ matches_descriptor o)
  /\ (forall obj,
         hasattr obj "id" = false ->
         insertable t (cut_attrs obj "id") = true ->
         exists t' obj', run (Manager.save self obj) t = Some (t', ok obj'))
  /\ (forall obj i,
         getattr obj "id" = Some (VInt i) ->
         updatable t (cut_attrs obj "id") i = true ->
         exists t',
           run_db (lift (Manager.update self obj)) (Some t) = Some (Some t', ok tt))
  /\ (mem "self" (map fst (Sqlite.columns t)) = false ->
      (forall i, In i (Sqlite.ids t) ->
                 exists got, run (Manager.get self (VInt i)) t = Some (t, ok got))
      /\ exists l, run (Manager.all self) t = Some (t, ok l)).
Proof.
  intros Ht Hname Hlayout.
  split; [|split; [|split; [|split; [|split; [|split; [|split; [|split]]]]]]].
  - intros obj obj' H. apply save_returns in H as (v & ->). exists v.
    split; [reflexivity|]. split; [apply lookup_store|].
    split; [intros k Hk; now apply lookup_store_other|].
    split; [reflexivity|]. split; [apply non_id_store|].
    apply matches_setattr_id.
  - intros obj obj' t' H.
    apply run_save_inv in H as (vs & -> & Hlen & ->); try assumption.
    split; [reflexivity|]. split; [now exists vs|].
    now apply layout_insert_row.
  - intros obj s' H.
    apply run_db_update_inv in H as (t' & c & -> & Hup); [|assumption].
    exists t'. split; [reflexivity|].
    now apply (store_update_layout _ _ Hup).
  - intros r Hin. split; [reflexivity|]. split; [reflexivity|].
    now apply hydrate_matches.
  - intros id got t' H.
    apply run_get_inv in H as (-> & r & Hin & ->); try assumption.
    split; [reflexivity|]. split; [reflexivity|]. now apply hydrate_matches.
  - intros l t' H. apply run_all_inv in H as [-> ->]; try assumption.
    split; [reflexivity|]. split; [apply length_map|].
    intros o Ho. apply in_map_iff in Ho as (r & <- & Hin).
    split; [reflexivity|]. now apply hydrate_matches.
  - intros obj Hid Hins.
    destruct (@run_save_insert self t obj Ht Hname (or_introl Hid) Hins)
      as (vs & _ & Hrun).
    eauto.
  - intros obj i Hid Hup.
    destruct (Store.update_rows (Sqlite.columns t) (cut_attrs obj "id") i
                (Sqlite.rows t)) as [rs|] eqn:Hrows.
    + eexists. now apply (@run_db_update self t obj i rs).
    + unfold updatable in Hup. rewrite Hrows in Hup.
      now rewrite Bool.andb_false_r in Hup.
  - intros Hself. split.
    + intros i Hin.
      destruct (@run_get_existing self t i Ht Hname Hin) as (vs & _ & Hrun).
      rewrite Hself in Hrun. eauto.
    + eexists. now apply run_all.
Qed.

Lemma operations_preserve_fields_witness :
  let self := Manager.new Person in
  let t := person_table [(1%Z, [VStr "ann"; VInt 41])] 1 in
  (Sqlite.identifier (Sqlite.tbl_name t) = true
   /\ Manager.tablename self = Sqlite.tbl_name t
   /\ persisted_layout (Manager.model self) t)
  /\ (forall obj obj' t',
         run (Manager.save self obj) t = Some (t', ok obj') ->
         obj' = setattr obj "id" (VInt (Sqlite.next_id t))
         /\ (exists vs, Sqlite.rows t' = (Sqlite.rows t ++ [(Sqlite.next_id t, vs)])%list)
         /\ persisted_layout (Manager.model self) t')
  /\ (forall obj s',
         run_db (lift (Manager.update self obj)) (Some t) = Some (s', ok tt) ->
         exists t', s' = Some t' /\ persisted_layout (Manager.model self) t')
  /\ (forall id got t',
         run (Manager.get self id) t = Some (t', ok got) ->
         t' = t /\ __class__ got = Manager.model self /\ matches_descriptor got)
  /\ (forall l t',
         run (Manager.all self) t = Some (t', ok l) ->
         t' = t
         /\ length l = length (Sqlite.rows t)
         /\ forall o, In o l ->
                      __class__ o = Manager.model self /\ matches_descriptor o).
Proof.
  cbv zeta.
  assert (Hlayout : persisted_layout (Manager.model (Manager.new Person))
                      (person_table [(1%Z, [VStr "ann"; VInt 41])] 1)).
  { split; [|reflexivity]. intros k. simpl. tauto. }
  split; [split; [reflexivity | split; [reflexivity | exact Hlayout]]|].
  pose proof (@operations_preserve_fields (Manager.new Person)
                (person_table [(1%Z, [VStr "ann"; VInt 41])] 1)
                eq_refl eq_refl Hlayout) as H.
  destruct H as (_ & Hsave & Hupdate & _ & Hget & Hall & _).
  split; [exact Hsave|]. split; [exact Hupdate|]. split; [exact Hget | exact Hall].
Defined.

(** The operations on that table, evaluated: the records they return
    have the fields [name] and [age] that Person declares. *)
Example operations_preserve_fields_example :
  declared_fields Person = ["name"; "age"]
  /\ run (Manager.save (Manager.new Person)
            (Object Person [("name", VStr "bob"); ("age", VInt 30)]))
         (person_table [(1%Z, [VStr "ann"; VInt 41])] 1)
     = Some (person_table [(1%Z, [VStr "ann"; VInt 41]); (2%Z, [VStr "bob"; VInt 30])] 2,
             ok (Object Person [("name", VStr "bob"); ("age", VInt 30); ("id", VInt 2)]))
  /\ run_db (lift (Manager.update (Manager.new Person)
                     (Object Person [("name", VStr "amy"); ("age", VInt 42); ("id", VInt 1)])))
       (Some (person_table [(1%Z, [VStr "ann"; VInt 41])] 1))
     = Some (Some (person_table [(1%Z, [VStr "amy"; VInt 42])] 1), ok tt)
  /\ run (Manager.get (Manager.new Person) (VInt 1))
         (person_table [(1%Z, [VStr "ann"; VInt 41])] 1)
     = Some (person_table [(1%Z, [VStr "ann"; VInt 41])] 1,
             ok (Object Person [("id", VInt 1); ("name", VStr "ann"); ("age", VInt 41)]))
  /\ run (Manager.all (Manager.new Person))
         (person_table [(1%Z, [VStr "ann"; VInt 41])] 1)
     = Some (person_table [(1%Z, [VStr "ann"; VInt 41])] 1,
             ok [Object Person [("id", VInt 1); ("name", VStr "ann"); ("age", VInt 41)]]).
Proof. repeat split. Qed.

(** The table the constructor creates for a class declared from a
    descriptor with public field names, none of them [id], has the
    persisted layout of the class. *)
Lemma declared_fields_declare (name module : string) (fields : descriptor) :
  forallb (fun f => public (fst f)) fields = true ->
  declared_fields (declare name module fields) = map fst fields.
Proof.
  intros Hpub. unfold declared_fields, declare. cbn [class_vars].
  rewrite <- app_comm_cons. cbn [List.filter fst snd public Ascii.eqb Bool.eqb
                                 negb andb].
  rewrite filter_app. cbn [List.filter fst snd]. rewrite Bool.andb_false_r.
  rewrite app_nil_r.
  induction fields as [|[k p] fields IH]; [reflexivity|].
  cbn [forallb fst] in Hpub. apply Bool.andb_true_iff in Hpub as [Hk Hrest].
  cbn [map List.filter fst snd]. rewrite Hk.
  replace (existsb (value_eqb (type_object p)) (map fst datatypes)) with true
    by now destruct p.
  cbn [andb keys map fst]. f_equal. now apply IH.
Qed.

Lemma layout_of_declared (name module : string) (fields : descriptor) :
  forallb (fun f => public (fst f)) fields = true ->
  ~ In "id" (map fst fields) ->
  persisted_layout (declare name module fields) (table_of name fields).
Proof.
  intros Hpub Hid. split; [|reflexivity].
  rewrite declared_fields_declare by assumption.
  unfold table_of. cbn [Sqlite.columns]. rewrite map_map. cbn [fst].
  intros k. rewrite filter_In. split; [tauto|].
  intros Hin. split; [assumption|].
  apply Bool.negb_true_iff, String.eqb_neq. intros ->. contradiction.
Qed.

(** ** Construction of the repository *)

Lemma render_schema_declare (interned : bool) (name module : string)
    (fields : descriptor) :
  forallb (fun f => public (fst f)) fields = true ->
  render_schema interned (declare name module fields)
  = ok (Store.create_sql name (map (fun f => (fst f, sql_type (snd f))) fields)).
Proof.
  intros Hpub. unfold render_schema, declare. cbn [class_vars __name__].
  rewrite <- app_comm_cons.
  rewrite render_cols_skip by (try discriminate; now right).
  rewrite render_cols_fields with (cols := [])
    by (assumption || (now destruct interned)).
  rewrite app_nil_r. cbn [rbind ok]. f_equal.
  unfold Store.create_sql, Store.create_head, Store.create_tail.
  rewrite map_map, !append_assoc. reflexivity.
Qed.

Lemma split_on_comma_concat_plain (ps : list string) (p : string) :
  forallb (Sqlite.all_chars (fun c => negb (Ascii.eqb c ","%char))) (p :: ps) = true ->
  Sqlite.split_on_comma (String.concat ", " (p :: ps))
  = p :: map (String " "%char) ps.
Proof.
  revert p. induction ps as [|p' ps IH]; intros p H.
  - simpl in H. rewrite Bool.andb_true_r in H. simpl.
    now apply split_on_comma_plain.
  - rewrite concat_cons.
    change (forallb (Sqlite.all_chars (fun c => negb (Ascii.eqb c ","%char)))
              (p :: p' :: ps))
      with (Sqlite.all_chars (fun c => negb (Ascii.eqb c ","%char)) p
            && forallb (Sqlite.all_chars (fun c => negb (Ascii.eqb c ","%char)))
                 (p' :: ps)) in H.
    apply Bool.andb_true_iff in H as [Hp Hps].
    change (", " ++ String.concat ", " (p' :: ps))
      with (String ","%char (String " "%char (String.concat ", " (p' :: ps)))).
    rewrite split_on_comma_plain_append by assumption.
    change (Sqlite.split_on_comma (String " "%char (String.concat ", " (p' :: ps))))
      with (match Sqlite.split_on_comma (String.concat ", " (p' :: ps)) with
            | h :: tl => String " "%char h :: tl
            | [] => [String " "%char EmptyString]
            end).
    now rewrite (IH p' Hps).
Qed.

Lemma column_type_chars (c : string * string) :
  Store.column_ok c = true ->
  Sqlite.identifier (fst c) = true
  /\ Sqlite.all_chars Sqlite.ident_char (snd c) = true.
Proof.
  unfold Store.column_ok. intros H.
  apply Bool.andb_true_iff in H as [H Hty].
  apply Bool.andb_true_iff in H as [H _].
  split; [now apply plain_name_identifier|].
  unfold mem in Hty. apply existsb_exists in Hty as (x & Hin & Hx).
  apply String.eqb_eq in Hx. subst x.
  simpl in Hin. destruct Hin as [<- | [<- | [<- | []]]]; reflexivity.
Qed.

Lemma drop_piece (n ty : string) :
  Sqlite.drop (S (String.length n)) (n ++ String " "%char ty) = ty.
Proof.
  induction n as [|c n IH]; simpl; [reflexivity | exact IH].
Qed.

Lemma column_of_piece (c : string * string) :
  Store.column_ok c = true ->
  Sqlite.all_chars (fun x => negb (Ascii.eqb x ","%char)) (fst c ++ " " ++ snd c) = true
  /\ Sqlite.strip_space (fst c ++ " " ++ snd c) = fst c ++ " " ++ snd c
  /\ Store.column_of (fst c ++ " " ++ snd c) = c.
Proof.
  intros H. destruct (column_type_chars c H) as [Hn Hty].
  pose proof (identifier_chars _ Hn) as Hc. destruct c as [n ty]. simpl in *.
  split; [|split].
  - rewrite all_chars_append, (ident_no_comma _ Hc). simpl.
    now apply ident_no_comma.
  - destruct n as [|x n]; [discriminate|]. simpl in Hc |- *.
    apply Bool.andb_true_iff in Hc as [Hx _].
    now rewrite (ident_char_neq x " "%char Hx eq_refl).
  - unfold Store.column_of.
    rewrite (take_ident_append n ty " "%char Hc eq_refl).
    now rewrite drop_piece.
Qed.

Lemma create_columns_rendered (name : string) (cols : list (string * string)) :
  cols <> [] -> forallb Store.column_ok cols = true ->
  Store.create_columns name (Store.create_sql name cols) = cols.
Proof.
  intros Hne Hok. unfold Store.create_columns, Store.create_sql.
  rewrite drop_append, length_append, Nat.add_sub, take_append.
  destruct cols as [|c cols]; [now elim Hne|].
  cbn [map]. rewrite split_on_comma_concat_plain.
  - cbn [map]. cbn [forallb] in Hok. apply Bool.andb_true_iff in Hok as [Hc Hcols].
    destruct (column_of_piece c Hc) as (_ & Hs & Hcol).
    rewrite Hs, Hcol. f_equal.
    rewrite !map_map. cbn [Sqlite.strip_space Ascii.eqb Bool.eqb].
    clear Hne. induction cols as [|d cols IH]; [reflexivity|].
    cbn [forallb] in Hcols. apply Bool.andb_true_iff in Hcols as [Hd Hrest].
    cbn [map]. destruct (column_of_piece d Hd) as (_ & _ & Hcold).
    now rewrite Hcold, (IH Hrest).
  - change (forallb (Sqlite.all_chars (fun x => negb (Ascii.eqb x ","%char)))
              (map (fun c0 => fst c0 ++ " " ++ snd c0) (c :: cols)) = true).
    apply forallb_forall. intros piece Hin.
    apply in_map_iff in Hin as (d & <- & Hd).
    rewrite forallb_forall in Hok. now apply column_of_piece, Hok.
Qed.

Lemma create_name_rendered (name : string) (cols : list (string * string)) :
  Sqlite.identifier name = true ->
  Store.create_name (Store.create_sql name cols) = name.
Proof.
  intros Hn. unfold Store.create_name, Store.create_sql, Store.create_head.
  rewrite !append_assoc. cbn [String.length String.append Sqlite.drop].
  apply take_ident_append; [now apply identifier_chars | reflexivity].
Qed.

Lemma executescript_create (name : string) (cols : list (string * string)) :
  cols <> [] ->
  Store.plain_name name = true ->
  forallb Store.column_ok cols = true ->
  Sqlite.nodup_keys (map (fun c => Store.lower (fst c)) cols) = true ->
  Store.executescript None (Store.create_sql name cols)
  = Some (Some (Sqlite.Table name cols [] 0), ok tt).
Proof.
  intros Hne Hname Hok Hdup. unfold Store.executescript.
  rewrite create_name_rendered by now apply plain_name_identifier.
  rewrite create_columns_rendered by assumption.
  now rewrite String.eqb_refl, Hname, Hok, Hdup.
Qed.

Lemma sqlite_execute_catalog (t : Sqlite.table) (args : list value) :
  Sqlite.execute t Store.catalog_sql args = None.
Proof.
  unfold Sqlite.execute.
  destruct (negb (Sqlite.identifier (Sqlite.tbl_name t))); [reflexivity|].
  unfold Store.catalog_sql, Sqlite.insert_head.
  cbn [String.append String.eqb Ascii.eqb Bool.eqb andb].
  cbn [String.prefix]. destruct (ascii_dec "i" "s") as [E|_]; [discriminate E|].
  reflexivity.
Qed.

Lemma run_db_hastable (self : Manager.t) (s : option Sqlite.table) :
  Store.plain_name (Manager.tablename self) = true ->
  match s with
  | Some t => Sqlite.tbl_name t = Manager.tablename self
  | None => True
  end ->
  run_db (lift (Manager._hastable self)) s
  = Some (s, ok (match s with Some _ => true | None => false end)).
Proof.
  intros Hname Hs. unfold Manager._hastable. cbn [bind execute lift run_db].
  change "select name len FROM sqlite_master where type = ? AND name = ?"
    with Store.catalog_sql.
  unfold Store.execute. destruct s as [t|].
  - rewrite sqlite_execute_catalog, String.eqb_refl.
    unfold Store.catalog. rewrite Hname, Hs, !String.eqb_refl. reflexivity.
  - rewrite String.eqb_refl. unfold Store.catalog. now rewrite Hname.
Qed.

Lemma run_db_init_new (interned : bool) (name module : string) (fields : descriptor) :
  fields <> [] ->
  Store.plain_name name = true ->
  forallb (fun f => public (fst f)) fields = true ->
  forallb Store.column_ok (map (fun f => (fst f, sql_type (snd f))) fields) = true ->
  Sqlite.nodup_keys (map (fun f => Store.lower (fst f)) fields) = true ->
  run_db (Manager.__init__ interned (declare name module fields)) None
  = Some (Some (table_of name fields),
          ok (Manager.new (declare name module fields))).
Proof.
  intros Hne Hname Hpub Hok Hdup. unfold Manager.__init__.
  rewrite run_db_dbind, run_db_hastable by (exact Hname || exact I).
  unfold ok at 1. cbn [Manager.model].
  rewrite render_schema_declare by assumption. unfold ok at 1.
  cbn [run_db]. rewrite executescript_create; try assumption.
  - reflexivity.
  - destruct fields; [now elim Hne | discriminate].
  - now rewrite map_map.
Qed.

Lemma run_db_init_existing (interned : bool) (m : model_class) (t : Sqlite.table) :
  Store.plain_name (__name__ m) = true ->
  Sqlite.tbl_name t = __name__ m ->
  run_db (Manager.__init__ interned m) (Some t) = Some (Some t, ok (Manager.new m)).
Proof.
  intros Hname Ht. unfold Manager.__init__.
  rewrite run_db_dbind, run_db_hastable by assumption. reflexivity.
Qed.

(** On a database without a table, constructing the repository of a
    class declared from a descriptor creates the class's table: named like
    the class, one column per field in declaration order with the SQL type
    of the field, no row, and ids starting at 1. *)
Theorem init_creates_table (interned : bool) (name module : string) (fields : descriptor) :
  fields <> [] ->
  Store.plain_name name = true ->
  forallb (fun f => public (fst f)) fields = true ->
  forallb Store.column_ok (map (fun f => (fst f, sql_type (snd f))) fields) = true ->
  Sqlite.nodup_keys (map (fun f => Store.lower (fst f)) fields) = true ->
  run_db (Manager.__init__ interned (declare name module fields)) None
  = Some (Some (table_of name fields),
          ok (Manager.new (declare name module fields)))
  /\ Sqlite.tbl_name (table_of name fields) = name
  /\ map fst (Sqlite.columns (table_of name fields)) = map fst fields
  /\ Sqlite.rows (table_of name fields) = []
  /\ Sqlite.next_id (table_of name fields) = 1%Z.
Proof.
  intros Hne Hname Hpub Hok Hdup. split; [now apply run_db_init_new|].
  repeat split. simpl. now rewrite map_map.
Qed.

Lemma init_creates_table_witness :
  run_db (Manager.__init__ false (declare "Person" "__main__" [("name", PString); ("age", PInteger)]))
    None
  = Some (Some (table_of "Person" [("name", PString); ("age", PInteger)]),
          ok (Manager.new (declare "Person" "__main__" [("name", PString); ("age", PInteger)])))
  /\ Sqlite.tbl_name (table_of "Person" [("name", PString); ("age", PInteger)]) = "Person"
  /\ map fst (Sqlite.columns (table_of "Person" [("name", PString); ("age", PInteger)]))
     = map fst [("name", PString); ("age", PInteger)]
  /\ Sqlite.rows (table_of "Person" [("name", PString); ("age", PInteger)]) = []
  /\ Sqlite.next_id (table_of "Person" [("name", PString); ("age", PInteger)]) = 1%Z.
Proof.
  apply (@init_creates_table false "Person" "__main__" [("name", PString); ("age", PInteger)]).
  - discriminate.
  - reflexivity.
  - reflexivity.
  - reflexivity.
  - reflexivity.
Defined.

(** On a database that holds the table of the class, constructing the
    repository runs no script and leaves the table, rows included, as it
    is; this holds for every class, also one for which [render_schema]
    would raise.  So repositories can be constructed again and again, as
    the facade does on every call. *)
Theorem init_keeps_table (interned : bool) (m : model_class) (t : Sqlite.table) :
  Store.plain_name (__name__ m) = true ->
  Sqlite.tbl_name t = __name__ m ->
  run_db (Manager.__init__ interned m) (Some t) = Some (Some t, ok (Manager.new m))
  /\ run_db (dbind (Manager.__init__ interned m) (fun _ => Manager.__init__ interned m)) (Some t)
     = Some (Some t, ok (Manager.new m)).
Proof.
  intros Hname Ht. split; [now apply run_db_init_existing|].
  rewrite run_db_dbind, run_db_init_existing by assumption.
  now apply run_db_init_existing.
Qed.

Lemma init_keeps_table_witness :
  run_db (Manager.__init__ false (ModelClass "Person" "app" [("name", TStr); ("", TInt)]))
    (Some (person_table [(1%Z, [VStr "ann"; VInt 41])] 1))
  = Some (Some (person_table [(1%Z, [VStr "ann"; VInt 41])] 1),
          ok (Manager.new (ModelClass "Person" "app" [("name", TStr); ("", TInt)])))
  /\ run_db (dbind (Manager.__init__ false (ModelClass "Person" "app" [("name", TStr); ("", TInt)]))
               (fun _ => Manager.__init__ false (ModelClass "Person" "app" [("name", TStr); ("", TInt)])))
       (Some (person_table [(1%Z, [VStr "ann"; VInt 41])] 1))
     = Some (Some (person_table [(1%Z, [VStr "ann"; VInt 41])] 1),
             ok (Manager.new (ModelClass "Person" "app" [("name", TStr); ("", TInt)]))).
Proof.
  apply (@init_keeps_table false (ModelClass "Person" "app" [("name", TStr); ("", TInt)])
           (person_table [(1%Z, [VStr "ann"; VInt 41])] 1)).
  - reflexivity.
  - reflexivity.
Defined.

(** ** The facade *)

(** [save] on a record of a class declared from a descriptor, on a
    database that has no table yet: the table is created and the record
    is stored in it as the first row, with id 1, which is also set on the
    record. *)
Theorem model_save_on_new_database (interned : bool) {D : Type} (d : D) (name module : string)
    (fields : descriptor) (obj : object) :
  fields <> [] ->
  Store.plain_name name = true ->
  forallb (fun f => public (fst f)) fields = true ->
  forallb Store.column_ok (map (fun f => (fst f, sql_type (snd f))) fields) = true ->
  Sqlite.nodup_keys (map (fun f => Store.lower (fst f)) fields) = true ->
  __class__ obj = declare name module fields ->
  hasattr obj "id" = false ->
  insertable (table_of name fields) (cut_attrs obj "id") = true ->
  exists vs,
    Sqlite.new_row (Sqlite.columns (table_of name fields)) (cut_attrs obj "id")
    = Some vs
    /\ fst (Model.save interned (Some d) obj) = Some d
    /\ run_db (snd (Model.save interned (Some d) obj)) None
       = Some (Some (Sqlite.Table name (Sqlite.columns (table_of name fields))
                       [(1%Z, vs)] 1),
               ok (setattr obj "id" (VInt 1))).
Proof.
  intros Hne Hname Hpub Hok Hdup Hcls Hid Hins.
  assert (Ht : Sqlite.identifier (Sqlite.tbl_name (table_of name fields)) = true)
    by now apply plain_name_identifier.
  destruct (@run_save_insert (Manager.new (declare name module fields))
              (table_of name fields) obj Ht eq_refl (or_introl Hid) Hins)
    as (vs & Hrow & Hrun).
  exists vs. split; [assumption|]. split; [reflexivity|].
  unfold Model.save, Model.manager. cbn [fst snd]. rewrite Hcls.
  rewrite run_db_dbind, run_db_init_new by assumption. unfold ok at 1.
  now rewrite (run_db_lift _ _ Hrun).
Qed.

Lemma model_save_on_new_database_witness :
  exists vs,
    Sqlite.new_row (Sqlite.columns (table_of "Person" [("name", PString); ("age", PInteger)]))
      (cut_attrs (Object Person [("name", VStr "bob"); ("age", VInt 30)]) "id")
    = Some vs
    /\ fst (Model.save false (Some tt) (Object Person [("name", VStr "bob"); ("age", VInt 30)]))
       = Some tt
    /\ run_db (snd (Model.save false (Some tt) (Object Person [("name", VStr "bob"); ("age", VInt 30)])))
         None
       = Some (Some (Sqlite.Table "Person"
                       (Sqlite.columns (table_of "Person" [("name", PString); ("age", PInteger)]))
                       [(1%Z, vs)] 1),
               ok (setattr (Object Person [("name", VStr "bob"); ("age", VInt 30)])
                     "id" (VInt 1))).
Proof.
  apply (@model_save_on_new_database false unit tt "Person" "__main__"
           [("name", PString); ("age", PInteger)]
           (Object Person [("name", VStr "bob"); ("age", VInt 30)])).
  - discriminate.
  - reflexivity.
  - reflexivity.
  - reflexivity.
  - reflexivity.
  - reflexivity.
  - reflexivity.
  - reflexivity.
Defined.

(** On a database that holds the table of the record's class, the three
    methods of the facade do what the repository's methods do, after one
    lookup in the catalog; on a class that was given no database they
    raise AttributeError before anything is sent. *)
Theorem facade_delegates (interned : bool) {D : Type} (d : D) (obj : object) (t : Sqlite.table)
    (answer : list request -> cursor) :
  Store.plain_name (__name__ (__class__ obj)) = true ->
  Sqlite.tbl_name t = __name__ (__class__ obj) ->
  run_db (snd (Model.save interned (Some d) obj)) (Some t)
  = run_db (lift (Manager.save (Manager.new (__class__ obj)) obj)) (Some t)
  /\ run_db (snd (Model.update interned (Some d) obj)) (Some t)
     = run_db (lift (Manager.update (Manager.new (__class__ obj)) obj)) (Some t)
  /\ run_db (snd (Model.delete interned (Some d) obj)) (Some t)
     = run_db (lift (Manager.delete (Manager.new (__class__ obj)) obj)) (Some t)
  /\ requests answer (snd (Model.save interned (@None D) obj)) []
     = ([], raise (AttributeError "'NoneType' object has no attribute 'execute'"))
  /\ requests answer (snd (Model.update interned (@None D) obj)) []
     = ([], raise (AttributeError "'NoneType' object has no attribute 'execute'"))
  /\ requests answer (snd (Model.delete interned (@None D) obj)) []
     = ([], raise (AttributeError "'NoneType' object has no attribute 'execute'")).
Proof.
  intros Hname Ht. unfold Model.save, Model.update, Model.delete, Model.manager.
  cbn [fst snd].
  rewrite !run_db_dbind, run_db_init_existing by assumption.
  repeat split.
Qed.

Lemma facade_delegates_witness :
  run_db (snd (Model.save false (Some tt) (Object Person [("name", VStr "bob"); ("age", VInt 30)])))
    (Some (person_table [(1%Z, [VStr "ann"; VInt 41])] 1))
  = run_db (lift (Manager.save (Manager.new Person)
                    (Object Person [("name", VStr "bob"); ("age", VInt 30)])))
      (Some (person_table [(1%Z, [VStr "ann"; VInt 41])] 1))
  /\ run_db (snd (Model.update false (Some tt) (Object Person [("name", VStr "bob"); ("age", VInt 30)])))
       (Some (person_table [(1%Z, [VStr "ann"; VInt 41])] 1))
     = run_db (lift (Manager.update (Manager.new Person)
                       (Object Person [("name", VStr "bob"); ("age", VInt 30)])))
         (Some (person_table [(1%Z, [VStr "ann"; VInt 41])] 1))
  /\ run_db (snd (Model.delete false (Some tt) (Object Person [("name", VStr "bob"); ("age", VInt 30)])))
       (Some (person_table [(1%Z, [VStr "ann"; VInt 41])] 1))
     = run_db (lift (Manager.delete (Manager.new Person)
                       (Object Person [("name", VStr "bob"); ("age", VInt 30)])))
         (Some (person_table [(1%Z, [VStr "ann"; VInt 41])] 1))
  /\ requests (fun _ => Cursor [] VNone)
       (snd (Model.save false (@None unit) (Object Person [("name", VStr "bob"); ("age", VInt 30)]))) []
     = ([], raise (AttributeError "'NoneType' object has no attribute 'execute'"))
  /\ requests (fun _ => Cursor [] VNone)
       (snd (Model.update false (@None unit) (Object Person [("name", VStr "bob"); ("age", VInt 30)]))) []
     = ([], raise (AttributeError "'NoneType' object has no attribute 'execute'"))
  /\ requests (fun _ => Cursor [] VNone)
       (snd (Model.delete false (@None unit) (Object Person [("name", VStr "bob"); ("age", VInt 30)]))) []
     = ([], raise (AttributeError "'NoneType' object has no attribute 'execute'")).
Proof.
  apply (@facade_delegates false unit tt
           (Object Person [("name", VStr "bob"); ("age", VInt 30)])
           (person_table [(1%Z, [VStr "ann"; VInt 41])] 1)
           (fun _ => Cursor [] VNone)).
  - reflexivity.
  - reflexivity.
Defined.

(** [public] keeps, in their order, exactly the attributes of the
    instance whose name passes the identity test; applied to the record
    it describes, it changes nothing.  Where the interpreter shares the
    one-character strings these are the attributes without a leading
    underscore; where it does not, [public] returns every attribute. *)
Theorem public_keeps_visible_attributes (interned : bool) (self : object) :
  forallb (fun i => negb (String.eqb (fst i) "")) (__dict__ self) = true ->
  Model.public interned self
  = ok (List.filter (fun i => visible interned (fst i)) (__dict__ self))
  /\ (forall k v,
         In (k, v) (List.filter (fun i => visible interned (fst i)) (__dict__ self))
         <-> In (k, v) (__dict__ self) /\ visible interned k = true)
  /\ Model.public interned
       (Object (__class__ self)
          (List.filter (fun i => visible interned (fst i)) (__dict__ self)))
     = ok (List.filter (fun i => visible interned (fst i)) (__dict__ self))
  /\ (interned = false -> Model.public interned self = ok (__dict__ self))
  /\ (interned = true ->
      Model.public interned self
      = ok (List.filter (fun i => public (fst i)) (__dict__ self))).
Proof.
  assert (G : forall items,
             forallb (fun i => negb (String.eqb (fst i) "")) items = true ->
             Model.public_items interned items
             = ok (List.filter (fun i => visible interned (fst i)) items)).
  { induction items as [|[k v] items IH]; intros H; [reflexivity|].
    cbn [forallb fst] in H. apply Bool.andb_true_iff in H as [Hk Hrest].
    destruct k as [|c k]; [discriminate|].
    cbn [Model.public_items List.filter fst visible first_is_not_underscore
         rbind ok].
    rewrite (IH Hrest). reflexivity. }
  intros H. split; [now apply G|]. split; [|split; [|split]].
  - intros k v. rewrite filter_In. reflexivity.
  - unfold Model.public. cbn [__dict__]. rewrite G.
    + f_equal. apply filter_all. intros x Hx. now apply filter_In in Hx.
    + apply forallb_forall. intros x Hx. apply filter_In in Hx as [Hx _].
      rewrite forallb_forall in H. now apply H.
  - intros ->. unfold Model.public. rewrite (G _ H). apply f_equal.
    apply filter_all. intros x Hx. rewrite visible_not_interned.
    rewrite forallb_forall in H. now apply H.
  - intros ->. unfold Model.public. rewrite (G _ H). apply f_equal.
    apply filter_ext. intros x. apply visible_interned.
Qed.

Lemma public_keeps_visible_attributes_witness :
  Model.public false
    (Object Person [("id", VInt 1); ("name", VStr "bob"); ("_cache", VNone)])
  = ok (List.filter (fun i => visible false (fst i))
          [("id", VInt 1); ("name", VStr "bob"); ("_cache", VNone)])
  /\ (forall k v,
         In (k, v) (List.filter (fun i => visible false (fst i))
                      [("id", VInt 1); ("name", VStr "bob"); ("_cache", VNone)])
         <-> In (k, v) [("id", VInt 1); ("name", VStr "bob"); ("_cache", VNone)]
             /\ visible false k = true)
  /\ Model.public false
       (Object Person
          (List.filter (fun i => visible false (fst i))
             [("id", VInt 1); ("name", VStr "bob"); ("_cache", VNone)]))
     = ok (List.filter (fun i => visible false (fst i))
             [("id", VInt 1); ("name", VStr "bob"); ("_cache", VNone)])
  /\ (false = false ->
      Model.public false
        (Object Person [("id", VInt 1); ("name", VStr "bob"); ("_cache", VNone)])
      = ok [("id", VInt 1); ("name", VStr "bob"); ("_cache", VNone)])
  /\ (false = true ->
      Model.public false
        (Object Person [("id", VInt 1); ("name", VStr "bob"); ("_cache", VNone)])
      = ok (List.filter (fun i => public (fst i))
              [("id", VInt 1); ("name", VStr "bob"); ("_cache", VNone)])).
Proof.
  apply (@public_keeps_visible_attributes false
           (Object Person [("id", VInt 1); ("name", VStr "bob"); ("_cache", VNone)])).
  reflexivity.
Defined.

(** The two readings on that record, evaluated. *)
Example public_example :
  Model.public false
    (Object Person [("id", VInt 1); ("name", VStr "bob"); ("_cache", VNone)])
  = ok [("id", VInt 1); ("name", VStr "bob"); ("_cache", VNone)]
  /\ Model.public true
       (Object Person [("id", VInt 1); ("name", VStr "bob"); ("_cache", VNone)])
     = ok [("id", VInt 1); ("name", VStr "bob")].
Proof. split; reflexivity. Qed.

(** ** The connection proxy *)

Lemma replay_app (tr tr' : list Database.event) (live : list nat) :
  Database.replay (tr ++ tr') live
  = match Database.replay tr live with
    | Some live' => Database.replay tr' live'
    | None => None
    end.
Proof.
  revert live. induction tr as [|e tr IH]; intros live; [reflexivity|].
  simpl. destruct e; destruct (existsb _ live); auto.
Qed.

Lemma count_commits_app (tr tr' : list Database.event) :
  length (List.filter Database.is_commit (tr ++ tr'))
  = length (List.filter Database.is_commit tr)
    + length (List.filter Database.is_commit tr').
Proof. now rewrite filter_app, length_app. Qed.

(** Reading [connection] on a consistent proxy gives the one open
    connection, opening it first when the proxy is not connected. *)
Lemma connection_spec (d : Database.driver) (self : Database.t) :
  Database.consistent (d, self) ->
  exists h d' self',
    Database.connection d self = (d', self', ok h)
    /\ Database.replay (Database.trace d') [] = Some [h]
    /\ Forall (fun e => Database.handle e < Database.opened d') (Database.trace d')
    /\ h < Database.opened d'
    /\ self' = Database.Make (Database.args self) (Database.kwargs self) true (Some h)
    /\ length (List.filter Database.is_commit (Database.trace d'))
       = length (List.filter Database.is_commit (Database.trace d))
    /\ (Database.connected self = true -> d' = d)
    /\ (Database.connected self = false ->
        h = Database.opened d
        /\ Database.trace d'
           = (Database.trace d
              ++ [Database.Connect h (Database.args self) (Database.kwargs self)])%list).
Proof.
  intros (live & Hreplay & Hall & Hconn). cbn [fst snd] in *.
  unfold Database.connection. destruct self as [a kw c conn]. cbn in *.
  destruct c.
  - destruct Hconn as (h & -> & -> & Hh). exists h, d, (Database.Make a kw true (Some h)).
    repeat split; try assumption; discriminate.
  - subst live. exists (Database.opened d),
      (Database.Driver (S (Database.opened d))
         (Database.trace d ++ [Database.Connect (Database.opened d) a kw])),
      (Database.Make a kw true (Some (Database.opened d))).
    cbn [Database.trace Database.opened].
    split; [reflexivity|]. split.
    { rewrite replay_app, Hreplay. reflexivity. }
    split.
    { apply Forall_app. split.
      - eapply Forall_impl; [|exact Hall]. cbn. intros e He. lia.
      - constructor; [cbn; lia | constructor]. }
    split; [lia|]. split; [reflexivity|]. split.
    { rewrite count_commits_app. cbn. lia. }
    split; [discriminate|]. intros _. split; reflexivity.
Qed.

Lemma emit_consistent (d : Database.driver) (a : list value) (kw : attrs)
    (h : nat) (e : Database.event) :
  Database.replay (Database.trace d) [] = Some [h] ->
  Forall (fun e => Database.handle e < Database.opened d) (Database.trace d) ->
  h < Database.opened d ->
  Database.handle e = h ->
  match e with
  | Database.Commit _ | Database.Exec _ _ _ | Database.ExecScript _ _ => True
  | _ => False
  end ->
  Database.replay (Database.trace (Database.emit d e)) [] = Some [h]
  /\ Forall (fun e => Database.handle e < Database.opened (Database.emit d e))
       (Database.trace (Database.emit d e))
  /\ Database.consistent (Database.emit d e, Database.Make a kw true (Some h)).
Proof.
  intros Hreplay Hall Hh He Hkind.
  assert (R : Database.replay (Database.trace (Database.emit d e)) [] = Some [h]).
  { unfold Database.emit. cbn [Database.trace]. rewrite replay_app, Hreplay.
    destruct e; try contradiction; cbn in He; subst; cbn;
      now rewrite Nat.eqb_refl. }
  assert (F : Forall (fun e0 => Database.handle e0 < Database.opened (Database.emit d e))
                (Database.trace (Database.emit d e))).
  { unfold Database.emit. cbn. apply Forall_app. split; [assumption|].
    constructor; [now rewrite He | constructor]. }
  split; [assumption|]. split; [assumption|].
  exists [h]. cbn [fst snd Database.connected Database._connection].
  split; [assumption|]. split; [assumption|]. exists h. auto.
Qed.

(** Every call keeps the proxy and the driver consistent, and only
    [commit] and [executescript] commit, once each. *)
Lemma step_spec (st : Database.driver * Database.t) (c : Database.call) :
  Database.consistent st ->
  Database.consistent (Database.step st c)
  /\ Database.args (snd (Database.step st c)) = Database.args (snd st)
  /\ Database.kwargs (snd (Database.step st c)) = Database.kwargs (snd st)
  /\ length (List.filter Database.is_commit (Database.trace (fst (Database.step st c))))
     = length (List.filter Database.is_commit (Database.trace (fst st)))
       + match c with
         | Database.CallCommit | Database.CallExecutescript _ => 1
         | _ => 0
         end.
Proof.
  destruct st as [d self]. intros Hc.
  destruct (connection_spec Hc)
    as (h & d' & self' & Hconn & Hreplay & Hall & Hh & -> & Hcount & Hsame & Hnew).
  cbn [fst snd]. unfold ok in Hconn.
  destruct c as [| | | sql a | script]; cbn [Database.step fst snd].
  - rewrite Hconn. cbn [Database.forget fst snd Database.args Database.kwargs Database.trace].
    repeat split; try lia.
    exists [h]. cbn. split; [assumption|]. split; [assumption|]. eauto.
  - unfold Database.close. destruct (Database.connected self) eqn:Hcon.
    + rewrite Hconn. cbn [Database.forget fst snd Database.args Database.kwargs
                            Database._connection].
      repeat split.
      * exists []. unfold Database.emit.
        cbn [fst snd Database.connected Database.trace Database.opened].
        split; [|split; [|reflexivity]].
        -- rewrite replay_app, Hreplay. cbn. now rewrite Nat.eqb_refl.
        -- apply Forall_app. split; [assumption|].
           constructor; [cbn; lia | constructor].
      * unfold Database.emit. cbn [Database.trace].
        rewrite count_commits_app. cbn. lia.
    + cbn [Database.forget fst snd Database.args Database.kwargs].
      repeat split; try lia.
      destruct Hc as (live & Hr & Hf & Hl). cbn [fst snd] in *.
      rewrite Hcon in Hl. exists live. cbn. auto.
  - unfold Database.commit. rewrite Hconn.
    cbn [Database.forget fst snd Database.args Database.kwargs].
    destruct (@emit_consistent d' (Database.args self) (Database.kwargs self) h
                (Database.Commit h) Hreplay Hall Hh eq_refl I) as (_ & _ & Hcons).
    repeat split; [assumption|].
    unfold Database.emit. cbn [Database.trace]. rewrite count_commits_app. cbn. lia.
  - unfold Database.execute. rewrite Hconn.
    cbn [Database.forget fst snd Database.args Database.kwargs].
    destruct (@emit_consistent d' (Database.args self) (Database.kwargs self) h
                (Database.Exec h sql a) Hreplay Hall Hh eq_refl I) as (_ & _ & Hcons).
    repeat split; [assumption|].
    unfold Database.emit. cbn [Database.trace]. rewrite count_commits_app. cbn. lia.
  - unfold Database.executescript. rewrite Hconn.
    destruct (@emit_consistent d' (Database.args self) (Database.kwargs self) h
                (Database.ExecScript h script) Hreplay Hall Hh eq_refl I)
      as (Hreplay1 & Hall1 & _).
    unfold Database.commit, Database.connection, ok.
    cbn [Database.connected Database._connection Database.forget fst snd
         Database.args Database.kwargs].
    destruct (@emit_consistent (Database.emit d' (Database.ExecScript h script))
                (Database.args self) (Database.kwargs self) h
                (Database.Commit h) Hreplay1 Hall1 Hh eq_refl I) as (_ & _ & Hcons).
    repeat split; [assumption|].
    unfold Database.emit. cbn [Database.trace].
    rewrite !count_commits_app. cbn. lia.
Qed.

Lemma init_consistent (a : list value) (kw : attrs) :
  Database.consistent (Database.Driver 0 [], Database.__init__ a kw).
Proof. exists []. cbn. auto. Qed.

Lemma calls_consistent (cs : list Database.call) (st : Database.driver * Database.t) :
  Database.consistent st ->
  Database.consistent (Database.calls cs st)
  /\ Database.args (snd (Database.calls cs st)) = Database.args (snd st)
  /\ Database.kwargs (snd (Database.calls cs st)) = Database.kwargs (snd st).
Proof.
  revert st. induction cs as [|c cs IH]; intros st Hc; [now repeat split|].
  cbn [Database.calls fold_left].
  destruct (step_spec c Hc) as (Hc' & Ha & Hk & _).
  destruct (IH _ Hc') as (H1 & H2 & H3).
  unfold Database.calls in *. repeat split; [assumption | congruence | congruence].
Qed.

(** Whatever is called on a proxy, in whatever order, the driver is never
    asked to use a connection that is not open, nor to open one while one
    is open: at most one connection is open at any time, it is the cached
    one while the proxy is connected, and after [close] there is none. *)
Theorem proxy_uses_one_open_connection (cs : list Database.call)
    (a : list value) (kw : attrs) :
  exists live,
    Database.replay
      (Database.trace
         (fst (Database.calls cs (Database.Driver 0 [], Database.__init__ a kw))))
      [] = Some live
    /\ length live <= 1
    /\ (Database.connected
          (snd (Database.calls cs (Database.Driver 0 [], Database.__init__ a kw)))
        = false -> live = [])
    /\ (Database.connected
          (snd (Database.calls cs (Database.Driver 0 [], Database.__init__ a kw)))
        = true ->
        exists h,
          Database._connection
            (snd (Database.calls cs (Database.Driver 0 [], Database.__init__ a kw)))
          = Some h
          /\ live = [h]).
Proof.
  destruct (calls_consistent cs (init_consistent a kw))
    as ((live & Hreplay & _ & Hlive) & _ & _).
  exists live. split; [assumption|].
  destruct (Database.connected
              (snd (Database.calls cs (Database.Driver 0 [], Database.__init__ a kw)))).
  - destruct Hlive as (h & Hconn & -> & _). repeat split.
    + simpl. lia.
    + discriminate.
    + eauto.
  - subst live. repeat split; [simpl; lia | discriminate].
Qed.

(** [close] twice is [close] once; and after [close] the next [execute]
    opens a connection with the arguments the proxy was made with, one
    that was never used before, and runs the statement on it. *)
Theorem close_then_execute_reconnects (cs : list Database.call)
    (a : list value) (kw : attrs) (sql : string) (args : list value) :
  Database.step
    (Database.step (Database.calls cs (Database.Driver 0 [], Database.__init__ a kw))
       Database.CallClose)
    Database.CallClose
  = Database.step (Database.calls cs (Database.Driver 0 [], Database.__init__ a kw))
      Database.CallClose
  /\ Database.connected
       (snd (Database.step
               (Database.calls cs (Database.Driver 0 [], Database.__init__ a kw))
               Database.CallClose))
     = false
  /\ (exists h,
         Database.trace
           (fst (Database.step
                   (Database.step
                      (Database.calls cs (Database.Driver 0 [], Database.__init__ a kw))
                      Database.CallClose)
                   (Database.CallExecute sql args)))
         = (Database.trace
              (fst (Database.step
                      (Database.calls cs (Database.Driver 0 [], Database.__init__ a kw))
                      Database.CallClose))
            ++ [Database.Connect h a kw; Database.Exec h sql args])%list
         /\ Forall (fun e => Database.handle e <> h)
              (Database.trace
                 (fst (Database.step
                         (Database.calls cs (Database.Driver 0 [], Database.__init__ a kw))
                         Database.CallClose)))).
Proof.
  destruct (calls_consistent cs (init_consistent a kw)) as (Hc & Ha & Hk).
  destruct (Database.calls cs (Database.Driver 0 [], Database.__init__ a kw))
    as [d [a' kw' c conn]].
  cbn [snd Database.args Database.kwargs Database.__init__] in Ha, Hk. subst a' kw'.
  destruct Hc as (live & _ & Hall & Hlive). cbn [fst snd Database.connected
    Database._connection] in Hall, Hlive.
  destruct c.
  - destruct Hlive as (h & -> & _ & Hh).
    cbn. split; [reflexivity|]. split; [reflexivity|].
    exists (Database.opened d). split.
    + now rewrite <- app_assoc.
    + apply Forall_app. split.
      * eapply Forall_impl; [|exact Hall]. cbn. intros e He. lia.
      * constructor; [cbn; lia | constructor].
  - cbn. split; [reflexivity|]. split; [reflexivity|].
    exists (Database.opened d). split.
    + now rewrite <- app_assoc.
    + eapply Forall_impl; [|exact Hall]. cbn. intros e He. lia.
Qed.

Lemma requests_lift_scripts {A : Type} (answer : list request -> cursor)
    (p : prog A) (past : list request) :
  List.filter is_script (fst (requests answer (lift p) past))
  = List.filter is_script past.
Proof.
  revert past. induction p as [x | e | sql args k IH]; intros past;
    cbn [lift requests fst]; try reflexivity.
  rewrite IH, filter_app. cbn. apply app_nil_r.
Qed.

Lemma send_commits (rs : list request) (st : Database.driver * Database.t) :
  Database.consistent st ->
  length (List.filter Database.is_commit
            (Database.trace (fst (fold_left Database.send rs st))))
  = length (List.filter Database.is_commit (Database.trace (fst st)))
    + length (List.filter is_script rs).
Proof.
  revert st. induction rs as [|r rs IH]; intros st Hc; [cbn; lia|].
  cbn [fold_left]. destruct r as [sql a | script]; cbn [Database.send].
  - destruct (step_spec (Database.CallExecute sql a) Hc) as (Hc' & _ & _ & Hn).
    rewrite (IH _ Hc'), Hn. cbn. lia.
  - destruct (step_spec (Database.CallExecutescript script) Hc) as (Hc' & _ & _ & Hn).
    rewrite (IH _ Hc'), Hn. cbn. lia.
Qed.

(** Sending requests through the proxy commits once for each script and
    never for a statement; the methods that only execute statements, all
    of [Manager] but its constructor, send no script whatever the
    database answers, so nothing they write is committed by this layer. *)
Theorem only_scripts_are_committed (cs : list Database.call) (a : list value)
    (kw : attrs) (rs : list request) :
  length (List.filter Database.is_commit
            (Database.trace
               (fst (fold_left Database.send rs
                       (Database.calls cs (Database.Driver 0 [], Database.__init__ a kw))))))
  = length (List.filter Database.is_commit
              (Database.trace
                 (fst (Database.calls cs (Database.Driver 0 [], Database.__init__ a kw)))))
    + length (List.filter is_script rs)
  /\ (forall (A : Type) (p : prog A) (answer : list request -> cursor),
         List.filter is_script (fst (requests answer (lift p) [])) = []).
Proof.
  split.
  - apply send_commits. apply (calls_consistent cs (init_consistent a kw)).
  - intros A p answer. now rewrite requests_lift_scripts.
Qed.

(** When the table is missing and the class has no schema, an attribute
    of empty name making [render_schema] raise, the constructor raises
    that IndexError after its lookup in the catalog; no script is run and
    the database still has no table. *)
Theorem init_schema_error (interned : bool) (m : model_class) :
  Store.plain_name (__name__ m) = true ->
  In "" (keys (class_vars m)) ->
  run_db (Manager.__init__ interned m) None
  = Some (None, raise (IndexError "string index out of range")).
Proof.
  intros Hname Hempty. unfold Manager.__init__.
  rewrite run_db_dbind, run_db_hastable by (exact Hname || exact I).
  unfold ok at 1. cbn [Manager.model].
  now rewrite (render_schema_empty_key_class interned m Hempty).
Qed.

Lemma init_schema_error_witness :
  run_db (Manager.__init__ false
            (ModelClass "Person" "app" [("name", TStr); ("", TInt)])) None
  = Some (None, raise (IndexError "string index out of range")).
Proof.
  apply (@init_schema_error false
           (ModelClass "Person" "app" [("name", TStr); ("", TInt)])).
  - reflexivity.
  - simpl. auto.
Defined.
